(** * AegisLab front end: transformation layer, stage animators, orchestrator

    A shallow embedding of the JavaScript sources of the safety-observation
    workflow:

    - [Api]            services/api.js (backend call and the three
                       transformation functions);
    - [RiskAnalyzer],
      [ScoreManager],
      [ActionPlanner]  the three stage animators (React components whose
                       effects arm and clear timers);
    - [Home]           pages/home.js, the orchestrator that owns the
                       workflow state.

    Part I holds the definitions, Part II the facts proved about them. *)

From Stdlib Require Import ZArith String Ascii List Floats Lia Bool.
From stdpp Require Import base gmap strings list pretty.

Set Warnings "-inexact-float,-register-all".
Local Open Scope string_scope.

(* ===================================================================== *)
(** * Part I: definitions *)
(* ===================================================================== *)

(** ** The JavaScript runtime the sources rely on *)

Module JS.

(** JavaScript numbers are IEEE-754 binary64 values. *)
Abbreviation number := float.

Definition NaN : number := PrimFloat.nan.

(** ToBoolean on a number: [0], [-0] and [NaN] are falsy. *)
Definition truthy_number (x : number) : bool :=
  negb (PrimFloat.is_zero x || PrimFloat.is_nan x).

(** ToBoolean on a string: only the empty string is falsy. *)
Definition truthy_string (s : string) : bool :=
  negb (String.eqb s "").

(** [x || d] where [x] is a number-valued field that may be absent
    ([None] is [undefined]). *)
Definition number_or (x : option number) (d : number) : number :=
  match x with
  | Some v => if truthy_number v then v else d
  | None => d
  end.

(** [x || d] where [x] is a string-valued field that may be absent. *)
Definition string_or (x : option string) (d : string) : string :=
  match x with
  | Some v => if truthy_string v then v else d
  | None => d
  end.

(** ToNumber on a field that may be absent: [undefined] becomes [NaN]. *)
Definition to_number (x : option number) : number :=
  match x with
  | Some v => v
  | None => NaN
  end.

(** ToString inside a template literal, for a string that may be absent. *)
Definition template_string (x : option string) : string :=
  match x with
  | Some v => v
  | None => "undefined"
  end.

(** The exact integer nearest to a finite float given as [m * 2^e] with sign
    [s], ties towards plus infinity: [floor (x + 1/2)] computed over [Z]. *)
Definition round_half_up (s : bool) (m : positive) (e : Z) : Z :=
  let n := if s then Z.opp (Z.pos m) else Z.pos m in
  if (0 <=? e)%Z then (n * 2 ^ e)%Z
  else ((2 * n + 2 ^ (- e)) / 2 ^ (1 - e))%Z.

(** A float from an integer of magnitude below [2^63]; a negative sign is
    kept on zero, as [Math.round (-0.2)] is [-0]. *)
Definition number_of_Z (negative : bool) (n : Z) : number :=
  let a := PrimFloat.of_uint63 (Uint63.of_Z (Z.abs n)) in
  if negative then PrimFloat.opp a else a.

(** [Math.round]. Zeros, infinities and [NaN] are returned as they are, and
    so is a value with a non-negative exponent, which is an integer already;
    every other value has a magnitude below [2^53]. *)
Definition Math_round (x : number) : number :=
  match Prim2SF x with
  | S754_finite s m e =>
      if (0 <=? e)%Z then x else number_of_Z s (round_half_up s m e)
  | _ => x
  end.

(** [Math.min] on two numbers. *)
Definition Math_min (x y : number) : number :=
  if PrimFloat.is_nan x || PrimFloat.is_nan y then NaN
  else if PrimFloat.ltb y x then y else x.

(** [x >= y] on numbers. *)
Definition ge (x y : number) : bool := PrimFloat.leb y x.

(** ASCII lower-casing of one character. Strings are modelled as byte
    strings, which on ASCII text are the UTF-16 code units JavaScript
    counts; [toLowerCase] is modelled on such text: it changes the letters
    [A]-[Z] and leaves every other byte as it is. *)
Definition lower_ascii (c : ascii) : ascii :=
  let n := nat_of_ascii c in
  if (65 <=? n)%nat && (n <=? 90)%nat then ascii_of_nat (n + 32) else c.

Fixpoint toLowerCase (s : string) : string :=
  match s with
  | EmptyString => EmptyString
  | String c r => String (lower_ascii c) (toLowerCase r)
  end.

(** [text.includes(term)]: [term] occurs in [text] as a substring. *)
Fixpoint includes (text term : string) : bool :=
  String.prefix term text ||
  match text with
  | EmptyString => false
  | String _ rest => includes rest term
  end.

(** [s.slice(0, n)] on a string, for [0 <= n]: the first [n] bytes, which
    are the first [n] code units when the text is ASCII (what is proved
    about lengths and slices of a text assumes [Notions.isAscii]). *)
Definition string_slice0 (s : string) (n : nat) : string :=
  String.substring 0 n s.

(** [l.slice(0, n)] on an array, for [0 <= n]. *)
Definition slice0 {A} (l : list A) (n : nat) : list A := take n l.

(** The property names every object literal inherits from
    [Object.prototype] (ECMA-262, 20.1.3 and B.2.2). All of them are
    functions, except [__proto__], which reads as [Object.prototype] itself;
    none of them is falsy. *)
Definition Object_prototype_keys : list string :=
  [ "constructor"; "__defineGetter__"; "__defineSetter__"; "hasOwnProperty";
    "__lookupGetter__"; "__lookupSetter__"; "isPrototypeOf";
    "propertyIsEnumerable"; "toString"; "valueOf"; "__proto__";
    "toLocaleString" ].

(** The outcome of reading [obj[key]] on an object literal used as a lookup
    table: an own property, a member inherited from [Object.prototype], or
    [undefined]. *)
Inductive property (V : Type) : Type :=
| Own (v : V)
| Inherited (name : string)
| Undefined.
Arguments Own {V} v.
Arguments Inherited {V} name.
Arguments Undefined {V}.

(** [obj[key]] for an object literal whose own properties are [obj]. *)
Definition get {V} (obj : gmap string V) (key : string) : property V :=
  match obj !! key with
  | Some v => Own v
  | None =>
      if bool_decide (key ∈ Object_prototype_keys) then Inherited key
      else Undefined
  end.

(** A value that is either a string or a member of [Object.prototype]
    (what a lookup table of strings can hand back). *)
Inductive value : Type :=
| Str (s : string)
| ProtoMember (name : string).

(** [table[key] || fallback] for a lookup table of non-empty strings. An
    own property that is the empty string is falsy. *)
Definition get_or (table : gmap string string) (key : string)
    (fallback : string) : value :=
  match get table key with
  | Own v => if truthy_string v then Str v else Str fallback
  | Inherited name => ProtoMember name
  | Undefined => Str fallback
  end.

(** ToPropertyKey on a string that may be absent. *)
Definition property_key (k : option string) : string := template_string k.

(** A value as [JSON.parse] hands it back. A number comes with the string
    [ToString] gives for it; an object lists its members in source order,
    and a name given twice counts the last time. *)
Inductive json : Type :=
| JNull
| JBool (b : bool)
| JNumber (n : number) (shown : string)
| JString (s : string)
| JArray (items : list json)
| JObject (members : list (string * json)).

(** [v[name]] for a name that neither [Object.prototype] nor any other
    built-in prototype defines: the own member of an object, [undefined]
    ([None]) on anything else. Reading a member off [null] throws, and is
    not covered here. *)
Definition json_member (name : string) (v : json) : option json :=
  match v with
  | JObject members =>
      option_map snd
        (List.find (fun m => String.eqb (fst m) name) (rev members))
  | _ => None
  end.

(** ToBoolean on what a member read gives. *)
Definition truthy_json (v : option json) : bool :=
  match v with
  | None | Some JNull => false
  | Some (JBool b) => b
  | Some (JNumber n _) => truthy_number n
  | Some (JString s) => truthy_string s
  | Some (JArray _) | Some (JObject _) => true
  end.

(** ToString on a parsed value; [None] is a thrown [TypeError]. An array
    joins its elements with commas, [null] counting as the empty string. An
    object answers "[object Object]" through the inherited [toString],
    unless a member of its own hides that method: a parsed member is never
    callable, and the inherited [valueOf] hands back the object itself, so
    no primitive is found. *)
Fixpoint json_to_string (v : json) : option string :=
  match v with
  | JNull => Some "null"
  | JBool b => Some (if b then "true" else "false")
  | JNumber _ shown => Some shown
  | JString s => Some s
  | JArray items =>
      (fix join (l : list json) : option string :=
         match l with
         | [] => Some ""
         | x :: rest =>
             match (match x with JNull => Some "" | _ => json_to_string x end),
                   rest with
             | Some first, [] => Some first
             | Some first, _ :: _ =>
                 match join rest with
                 | Some others => Some (first ++ "," ++ others)
                 | None => None
                 end
             | None, _ => None
             end
         end) items
  | JObject members =>
      if existsb (fun m => String.eqb (fst m) "toString") members then None
      else Some "[object Object]"
  end.

(** The messages of the two [TypeError]s the sources can run into, in the
    wording of V8 (other engines word them differently). *)
Definition cannot_read_null (name : string) : string :=
  "Cannot read properties of null (reading '" ++ name ++ "')".

Definition cannot_convert_object : string :=
  "Cannot convert object to primitive value".

End JS.

(** ** Backend shapes and view-models *)

(** A field that the backend may leave out is an [option]: [None] reads as
    [undefined]. *)

Module Observation.
Record t : Type := mk {
  site : string;
  potential : string;
  type : string;
  description : string;
  tradeCategoryId : option string;
  tradePartnerId : option string;
  photoId : option string;
  observedAt : option string
}.
End Observation.

Module Hazard.
Record t : Type := mk {
  description : option string;
  taxonomy_ref : option string;
  confidence : option JS.number
}.
End Hazard.

Module ScoredHazard.
Record t : Type := mk {
  severity : option JS.number;
  likelihood : option JS.number;
  rpn : option JS.number;
  priority : option string
}.
End ScoredHazard.

Module Task.
Record t : Type := mk {
  title : string;
  description : string;
  control_type : string;
  responsible_role : string;
  duration_minutes : Z;
  material_requirements : option (list string)
}.
End Task.

Module ActionPlan.
Record t : Type := mk {
  plan_id : option string;
  standards_refs : option (list string);
  cost_estimate : option JS.number;
  lead_time_days : option JS.number;
  tasks : option (list Task.t)
}.
End ActionPlan.

Module PipelineResult.
Record t : Type := mk {
  hazards : list Hazard.t;
  scored_hazards : list ScoredHazard.t;
  action_plans : list ActionPlan.t
}.
End PipelineResult.

(** The Risk stage view-model. *)
Module RiskData.
Record t : Type := mk {
  hazard : option string;
  category : JS.value;
  keywords : list string;
  confidence : JS.number
}.
End RiskData.

(** The Score stage view-model. *)
Module ScoreData.
Record t : Type := mk {
  severity : option JS.number;
  likelihood : option JS.number;
  riskScore : option JS.number;
  category : option string;
  color : option string
}.
End ScoreData.

(** The icons of the Action stage (lucide-react components), or the member of
    [Object.prototype] an icon lookup handed back. *)
Inductive Icon : Type := Hammer | Wrench | FileText | Cog | IconProto (name : string).

(** One entry of the flattened task list. The transformation layer numbers
    its items; the Action animator names them ["plan-task"]. *)
Inductive ItemId : Type := IdNumber (n : nat) | IdString (s : string).

Module ActionItem.
Record t : Type := mk {
  id : ItemId;
  title : string;
  description : string;
  oshaCode : string;
  priority : JS.value;
  icon : option Icon;
  controlType : string;
  responsibleRole : string;
  durationMinutes : Z;
  materials : option (list string)
}.
End ActionItem.

(** ** What React does with what a component renders *)

(** None of the sources sets up an error boundary: when a render throws,
    React unmounts the whole tree, which runs the cleanups of the effects,
    and nothing of the page is left on screen. *)
Module React.
Import JS.

(** What a render that does not throw hands back: nothing ([null]) or an
    element. *)
Inductive rendered (V : Type) : Type :=
| Null
| Element (view : V).
Arguments Null {V}.
Arguments Element {V} view.

(** A looked-up value in child position. A string is text. An inherited
    method is a function, which React leaves out (with a warning);
    [__proto__] reads as [Object.prototype], an object, and an object is not
    valid as a child: the render throws. *)
Definition childRenders (v : value) : bool :=
  match v with
  | Str _ => true
  | ProtoMember name => negb (String.eqb name "__proto__")
  end.

(** A looked-up value in component position, [<task.icon />]. An icon of
    lucide-react renders. An inherited method is called as a function
    component, with [this] undefined: [constructor], that is [Object],
    hands back the props object, which is no valid child; [toString]
    answers "[object Undefined]", which is text; every other method throws
    a [TypeError] on converting [this]. [__proto__] is no function at all,
    an invalid element type. *)
Definition componentRenders (icon : Icon) : bool :=
  match icon with
  | IconProto name => String.eqb name "toString"
  | _ => true
  end.

End React.

(** ** services/api.js *)

Module Api.
Import JS.

(** What the single backend call can come to. [fetch] rejects on a network
    error; a response is [ok] exactly when its status is 2xx; the body of a
    response parses as JSON or [json()] rejects. An error body is any JSON
    value. *)
Inductive ErrorBody : Type :=
| NotJson
| Json (body : json).

Inductive Outcome : Type :=
| FetchRejected (message : string)
| NotOk (status : nat) (body : ErrorBody)
| OkNotJson (message : string)
| Ok (result : PipelineResult.t).

(** [new Error(error.detail || `API request failed with status ${status}`)]
    for the parsed error body [error], as a thrown message: reading [detail]
    off [null] throws a [TypeError], and so does the conversion of a truthy
    [detail] that has no string form. *)
Definition failureMessage (status : nat) (error : json) : string :=
  match error with
  | JNull => cannot_read_null "detail"
  | _ =>
      let detail := json_member "detail" error in
      if truthy_json detail then
        match detail with
        | Some v => default cannot_convert_object (json_to_string v)
        | None => "API request failed with status " ++ pretty status
        end
      else "API request failed with status " ++ pretty status
  end.

(** [analyzeObservation]: [inl message] is a thrown error with that
    message, [inr result] the resolved value. The request body does not
    influence what the client does with the response. *)
Definition analyzeObservation (observation : Observation.t) (o : Outcome)
  : string + PipelineResult.t :=
  match o with
  | FetchRejected message => inl message
  | NotOk status body =>
      let error :=
        match body with
        | NotJson => JObject [ ("detail", JString "Unknown error") ]
        | Json parsed => parsed
        end in
      inl (failureMessage status error)
  | OkNotJson message => inl message
  | Ok result => inr result
  end.

Definition commonSafetyTerms : list string :=
  [ "scaffolding"; "fall"; "falling"; "slip"; "trip"; "electrical"; "chemical";
    "fire"; "machinery"; "equipment"; "guard"; "barrier"; "harness"; "ppe";
    "hazard"; "unsafe"; "exposed"; "unprotected"; "damaged"; "broken" ].

Definition extractKeywords (hazardDesc observationDesc : option string)
  : list string :=
  let text :=
    toLowerCase (template_string hazardDesc ++ " " ++
                 template_string observationDesc) in
  let found := List.filter (fun term => includes text term) commonSafetyTerms in
  slice0 found (Nat.min 5 (Nat.max 3 (length found))).

Definition taxonomyCategoryMap : gmap string string :=
  list_to_map
    [ ("HAZ-FALL-001", "Fall Protection / Scaffolding");
      ("HAZ-FALL-002", "Slip, Trip & Fall");
      ("HAZ-ELEC-001", "Electrical Safety");
      ("HAZ-ELEC-002", "Arc Flash / Shock");
      ("HAZ-CHEM-001", "Chemical Exposure");
      ("HAZ-CHEM-002", "Toxic Substances");
      ("HAZ-MECH-001", "Struck By / Caught In");
      ("HAZ-MECH-002", "Machinery Safety");
      ("HAZ-ERGO-001", "Ergonomic / Manual Handling");
      ("HAZ-ERGO-002", "Repetitive Motion");
      ("HAZ-FIRE-001", "Fire / Explosion");
      ("HAZ-FIRE-002", "Hot Work");
      ("HAZ-GEN-001", "General Safety");
      ("HAZ-GEN-002", "Housekeeping") ].

Definition mapTaxonomyToCategory (taxonomyRef : option string) : value :=
  get_or taxonomyCategoryMap (property_key taxonomyRef) "General Safety".

Definition transformHazardToRiskData (hazard : Hazard.t)
    (observation : Observation.t) : RiskData.t :=
  let keywords :=
    extractKeywords (Hazard.description hazard)
                    (Some (Observation.description observation)) in
  let category := mapTaxonomyToCategory (Hazard.taxonomy_ref hazard) in
  {| RiskData.hazard := Hazard.description hazard;
     RiskData.category := category;
     RiskData.keywords := keywords;
     RiskData.confidence :=
       Math_round (to_number (Hazard.confidence hazard) * 100)%float |}.

Definition priorityCategoryMap : gmap string (string * string) :=
  list_to_map
    [ ("CRITICAL", ("Critical", "red"));
      ("HIGH", ("High", "orange"));
      ("MEDIUM", ("Medium", "yellow"));
      ("LOW", ("Low", "green")) ].

(** [categoryMap[priority] || categoryMap['MEDIUM']]: an entry of the table
    is an object, hence truthy, and so is an inherited member. *)
Definition priorityMapping (priority : option string)
  : property (string * string) :=
  match get priorityCategoryMap (property_key priority) with
  | Undefined => get priorityCategoryMap "MEDIUM"
  | found => found
  end.

(** [mapping.category] and [mapping.color]; a member of [Object.prototype]
    has neither property. *)
Definition mapping_category (m : property (string * string)) : option string :=
  match m with Own (c, _) => Some c | _ => None end.

Definition mapping_color (m : property (string * string)) : option string :=
  match m with Own (_, c) => Some c | _ => None end.

Definition transformScoredHazardToScoreData (scoredHazard : ScoredHazard.t)
  : ScoreData.t :=
  let mapping := priorityMapping (ScoredHazard.priority scoredHazard) in
  {| ScoreData.severity := ScoredHazard.severity scoredHazard;
     ScoreData.likelihood := ScoredHazard.likelihood scoredHazard;
     ScoreData.riskScore := ScoredHazard.rpn scoredHazard;
     ScoreData.category := mapping_category mapping;
     ScoreData.color := mapping_color mapping |}.

Definition controlPriorityMap : gmap string string :=
  list_to_map
    [ ("ELIMINATION", "Immediate");
      ("SUBSTITUTION", "Immediate");
      ("ENGINEERING", "Before Next Shift");
      ("ADMINISTRATIVE", "Daily");
      ("PPE", "Before Next Shift") ].

(** [actionPlan.standards_refs[0] || 'OSHA General Duty'], once
    [standards_refs] is known to be an array. *)
Definition firstStandardOr (refs : list string) : string :=
  string_or (head refs) "OSHA General Duty".

(** The callback of [actionPlan.tasks.map], for a plan whose
    [standards_refs] is the array [refs]. *)
Definition actionOfTask (refs : list string) (index : nat) (task : Task.t)
  : ActionItem.t :=
  {| ActionItem.id := IdNumber (index + 1);
     ActionItem.title := Task.title task;
     ActionItem.description := Task.description task;
     ActionItem.oshaCode := firstStandardOr refs;
     ActionItem.priority :=
       get_or controlPriorityMap (Task.control_type task) "Daily";
     ActionItem.icon := None;
     ActionItem.controlType := Task.control_type task;
     ActionItem.responsibleRole := Task.responsible_role task;
     ActionItem.durationMinutes := Task.duration_minutes task;
     ActionItem.materials := Task.material_requirements task |}.

(** [transformActionPlanToActions]; [None] is a thrown [TypeError]: calling
    [map] on an absent [tasks], or, inside the callback (so only when there
    is a task), indexing an absent [standards_refs]. *)
Definition transformActionPlanToActions (actionPlan : ActionPlan.t)
  : option (list ActionItem.t) :=
  match ActionPlan.tasks actionPlan with
  | None => None
  | Some [] => Some []
  | Some tasks =>
      match ActionPlan.standards_refs actionPlan with
      | None => None
      | Some refs => Some (imap (actionOfTask refs) tasks)
      end
  end.

End Api.

(** ** Timers and the event loop *)

(** The animators are driven by [setTimeout] and [setInterval]. A world holds
    the clock (milliseconds), the queue of armed timers ordered by due time
    (timers of equal due time keep the order in which they were queued), the
    state of one component, and the [onComplete] calls made so far. *)

Module Timers.

Section Loop.
Context {H K R : Type}.

Record timer : Type := Timer {
  tid : nat;
  due : Z;
  every : option Z;
  handler : H
}.

Record world : Type := World {
  now : Z;
  fresh : nat;
  queue : list timer;
  comp : K;
  signals : list R
}.

Fixpoint enqueue (t : timer) (q : list timer) : list timer :=
  match q with
  | [] => [t]
  | u :: rest =>
      if (due t <? due u)%Z then t :: q else u :: enqueue t rest
  end.

Definition arm (h : H) (delay : Z) (repeat : bool) (w : world) : nat * world :=
  let t := {| tid := fresh w; due := (now w + delay)%Z;
              every := if repeat then Some delay else None;
              handler := h |} in
  (fresh w,
   {| now := now w; fresh := S (fresh w); queue := enqueue t (queue w);
      comp := comp w; signals := signals w |}).

(** [setTimeout(h, delay)] and [setInterval(h, delay)]: the new world and the
    timer id handed back. *)
Definition setTimeout (h : H) (delay : Z) (w : world) : nat * world :=
  arm h delay false w.

Definition setInterval (h : H) (delay : Z) (w : world) : nat * world :=
  arm h delay true w.

(** [clearTimeout(id)] and [clearInterval(id)] share one pool of ids; an id
    that is not armed, or [undefined], is ignored. *)
Definition clearTimer (id : option nat) (w : world) : world :=
  match id with
  | None => w
  | Some i =>
      {| now := now w; fresh := fresh w;
         queue := List.filter (fun t => negb (Nat.eqb (tid t) i)) (queue w);
         comp := comp w; signals := signals w |}
  end.

Definition clearInterval := clearTimer.
Definition clearTimeout := clearTimer.

(** A call of the [onComplete] prop. *)
Definition onComplete (r : R) (w : world) : world :=
  {| now := now w; fresh := fresh w; queue := queue w; comp := comp w;
     signals := signals w ++ [r] |}.

Definition setComp (f : K -> K) (w : world) : world :=
  {| now := now w; fresh := fresh w; queue := queue w; comp := f (comp w);
     signals := signals w |}.

Variable fire : H -> world -> world.

(** One turn of the event loop: the clock moves to the first timer, a
    repeating timer is queued again one period later (its handler may still
    clear it), and the handler runs. *)
Definition step (w : world) : option world :=
  match queue w with
  | [] => None
  | t :: q =>
      let q' :=
        match every t with
        | Some period =>
            enqueue {| tid := tid t; due := (due t + period)%Z;
                       every := every t; handler := handler t |} q
        | None => q
        end in
      Some (fire (handler t)
                 {| now := due t; fresh := fresh w; queue := q';
                    comp := comp w; signals := signals w |})
  end.

(** Up to [fuel] turns of the loop, stopping when no timer is armed. *)
Fixpoint run (fuel : nat) (w : world) : world :=
  match fuel with
  | O => w
  | S n =>
      match step w with
      | None => w
      | Some w' => run n w'
      end
  end.

(** Up to [fuel] turns of the loop, firing only timers due at or before
    [deadline]; then the clock stands at [deadline]. *)
Fixpoint run_until (fuel : nat) (deadline : Z) (w : world) : world :=
  match fuel, queue w with
  | S n, t :: _ =>
      if (due t <=? deadline)%Z then
        match step w with
        | Some w' => run_until n deadline w'
        | None => w
        end
      else {| now := deadline; fresh := fresh w; queue := queue w;
              comp := comp w; signals := signals w |}
  | _, _ => {| now := Z.max (now w) deadline; fresh := fresh w;
               queue := queue w; comp := comp w; signals := signals w |}
  end.

(** Every timer still armed is due after [deadline]. *)
Definition allDueAfter (deadline : Z) (w : world) : bool :=
  forallb (fun t => (deadline <? due t)%Z) (queue w).

End Loop.

Arguments timer : clear implicits.
Arguments world : clear implicits.

End Timers.

(** ** components/agents/RiskAnalyzer.jsx *)

(** A React function component is modelled by its state (the [useState]
    cells, the variables its effect closures hold, and whether it is still
    mounted) inside a world of timers. A set-state call on an unmounted
    component is dropped; a set-state call that changes a dependency of an
    effect runs the cleanup of that effect and then the effect again. *)

Module RiskAnalyzer.
Import JS Timers.

Inductive Phase : Type := scanning | analyzing | complete.

Record Props : Type := mkProps {
  observation : option Observation.t;
  isActive : bool;
  apiData : option Hazard.t;
  skipAnimation : bool
}.

Definition scanningPhrases : list string :=
  [ "Initializing risk detection protocols...";
    "Scanning observation text for keywords...";
    "Cross-referencing OSHA hazard database...";
    "Analyzing environmental factors...";
    "Identifying potential risk vectors..." ].

Definition categoryMap : gmap string string :=
  list_to_map
    [ ("HAZ-FALL-001", "Fall Protection / Scaffolding");
      ("HAZ-FALL-002", "Slip, Trip & Fall");
      ("HAZ-ELEC-001", "Electrical Safety");
      ("HAZ-ELEC-002", "Arc Flash / Shock");
      ("HAZ-CHEM-001", "Chemical Exposure");
      ("HAZ-CHEM-002", "Toxic Substances");
      ("HAZ-MECH-001", "Struck By / Caught In");
      ("HAZ-MECH-002", "Machinery Safety");
      ("HAZ-ERGO-001", "Ergonomic / Manual Handling");
      ("HAZ-ERGO-002", "Repetitive Motion");
      ("HAZ-FIRE-001", "Fire / Explosion");
      ("HAZ-FIRE-002", "Hot Work");
      ("HAZ-GEN-001", "General Safety");
      ("HAZ-GEN-002", "Housekeeping") ].

Definition mapTaxonomyToCategory (taxonomyRef : option string) : value :=
  get_or categoryMap (property_key taxonomyRef) "General Safety".

Definition commonSafetyTerms : list string :=
  [ "scaffolding"; "fall"; "falling"; "slip"; "trip"; "electrical"; "chemical";
    "fire"; "machinery"; "equipment"; "guard"; "barrier"; "harness"; "ppe";
    "hazard"; "unsafe"; "exposed"; "unprotected"; "damaged"; "broken" ].

Definition extractKeywords (hazardDesc observationDesc : option string)
  : list string :=
  let text :=
    toLowerCase (string_or hazardDesc "" ++ " " ++ string_or observationDesc "") in
  let found := List.filter (fun term => includes text term) commonSafetyTerms in
  if (0 <? length found)%nat then slice0 found 5
  else [ "safety"; "hazard"; "risk" ].

(** [analysisResult.hazard], the text the analyzing phase types out. *)
Definition hazardText (p : Props) : string :=
  match apiData p with
  | Some h => string_or (Hazard.description h) "Hazard detected from observation"
  | None => "Slipping hazard due to unstable scaffolding board"
  end.

Definition analysisResult (p : Props) : RiskData.t :=
  match apiData p with
  | Some h =>
      {| RiskData.hazard := Some (hazardText p);
         RiskData.category := mapTaxonomyToCategory (Hazard.taxonomy_ref h);
         RiskData.keywords :=
           extractKeywords (Hazard.description h)
                           (option_map Observation.description (observation p));
         RiskData.confidence :=
           Math_round (number_or (Hazard.confidence h) 0.85 * 100)%float |}
  | None =>
      {| RiskData.hazard := Some (hazardText p);
         RiskData.category := Str "Fall Protection / Scaffolding";
         RiskData.keywords := [ "scaffolding"; "slipped"; "falling" ];
         RiskData.confidence := 94%float |}
  end.

(** The state cells, then what the effect closures hold: the ids of the two
    intervals (present while the effect that armed them has a cleanup
    registered) and the counter [index] of the typing effect. *)
Record State : Type := mkState {
  phase : Phase;
  scanIndex : nat;
  result : option RiskData.t;
  typedText : string;
  mounted : bool;
  scanInterval : option nat;
  typeInterval : option nat;
  index : nat
}.

Definition setPhase (v : Phase) (s : State) : State :=
  mkState v (scanIndex s) (result s) (typedText s) (mounted s)
          (scanInterval s) (typeInterval s) (index s).
Definition setScanIndex (v : nat) (s : State) : State :=
  mkState (phase s) v (result s) (typedText s) (mounted s)
          (scanInterval s) (typeInterval s) (index s).
Definition setResult (v : option RiskData.t) (s : State) : State :=
  mkState (phase s) (scanIndex s) v (typedText s) (mounted s)
          (scanInterval s) (typeInterval s) (index s).
Definition setTypedText (v : string) (s : State) : State :=
  mkState (phase s) (scanIndex s) (result s) v (mounted s)
          (scanInterval s) (typeInterval s) (index s).
Definition setMounted (v : bool) (s : State) : State :=
  mkState (phase s) (scanIndex s) (result s) (typedText s) v
          (scanInterval s) (typeInterval s) (index s).
Definition setScanInterval (v : option nat) (s : State) : State :=
  mkState (phase s) (scanIndex s) (result s) (typedText s) (mounted s)
          v (typeInterval s) (index s).
Definition setTypeInterval (v : option nat) (s : State) : State :=
  mkState (phase s) (scanIndex s) (result s) (typedText s) (mounted s)
          (scanInterval s) v (index s).
Definition setIndex (v : nat) (s : State) : State :=
  mkState (phase s) (scanIndex s) (result s) (typedText s) (mounted s)
          (scanInterval s) (typeInterval s) v.

(** The timer callbacks of the component, in the order the script reaches
    them: the scanning interval (800 ms), the timeout that enters the
    analyzing phase (500 ms), the typing interval (30 ms), the timeout that
    enters the complete phase (500 ms), the timeout that calls [onComplete]
    (1000 ms). *)
Inductive Handler : Type := ScanTick | ToAnalyzing | TypeTick | Settle | Emit.

Abbreviation World := (world Handler State RiskData.t).

(** A set-state call: dropped once the component is unmounted. *)
Definition setState (f : State -> State) (w : World) : World :=
  if mounted (comp w) then setComp f w else w.

(** The effect on [[phase, onComplete, skipAnimation]]. *)
Definition typingEffect (p : Props) (w : World) : World :=
  match phase (comp w) with
  | analyzing =>
      if skipAnimation p then w
      else
        let '(id, w1) := setInterval TypeTick 30 (setComp (setIndex 0) w) in
        setComp (setTypeInterval (Some id)) w1
  | _ => w
  end.

(** Its cleanup. *)
Definition typingCleanup (w : World) : World :=
  setComp (setTypeInterval None) (clearInterval (typeInterval (comp w)) w).

(** Unmounting runs the registered cleanups: [clearInterval(scanInterval)]
    and [clearInterval(typeInterval)]. *)
Definition unmount (w : World) : World :=
  let w1 := clearInterval (scanInterval (comp w)) w in
  let w2 := typingCleanup w1 in
  setComp (setMounted false) (setComp (setScanInterval None) w2).

(** What the component puts on screen: the observation text, the status
    line of the scanning phase, the hazard line from the analyzing phase on
    (the typed text, then [result.hazard]), and category, confidence and
    keywords in the complete phase. *)
Record View : Type := mkView {
  observationText : string;
  statusLine : option string;
  hazardLine : option (option string);
  details : option RiskData.t
}.

(** The render; [None] is a render that throws. The component returns
    [null] while inactive in its scripted first phase. Otherwise it reads
    [observation.description], and in the complete phase [result.hazard],
    both without a guard, and puts [result.category] in child position. *)
Definition render (p : Props) (s : State) : option (React.rendered View) :=
  let hidden :=
    negb (isActive p)
    && match phase s with scanning => true | _ => false end
    && negb (skipAnimation p) in
  if hidden then Some React.Null
  else
    match observation p with
    | None => None
    | Some o =>
        match phase s with
        | scanning =>
            Some (React.Element
                    {| observationText := Observation.description o;
                       statusLine := scanningPhrases !! scanIndex s;
                       hazardLine := None; details := None |})
        | analyzing =>
            Some (React.Element
                    {| observationText := Observation.description o;
                       statusLine := None;
                       hazardLine := Some (Some (typedText s));
                       details := None |})
        | complete =>
            match result s with
            | None => None
            | Some r =>
                if React.childRenders (RiskData.category r) then
                  Some (React.Element
                          {| observationText := Observation.description o;
                             statusLine := None;
                             hazardLine := Some (RiskData.hazard r);
                             details := Some r |})
                else None
            end
        end
    end.

(** After a callback or an effect has run, React renders the component
    again (if it is still mounted); a render that throws tears the tree
    down. *)
Definition commit (p : Props) (w : World) : World :=
  if mounted (comp w) then
    match render p (comp w) with
    | Some _ => w
    | None => unmount w
    end
  else w.

(** What the timer callbacks do. *)
Definition callback (p : Props) (h : Handler) (w : World) : World :=
  match h with
  | ScanTick =>
      (* setScanIndex(prev => ...) *)
      if mounted (comp w) then
        if (length scanningPhrases - 1 <=? scanIndex (comp w))%nat then
          snd (setTimeout ToAnalyzing 500
                 (clearInterval (scanInterval (comp w)) w))
        else setComp (setScanIndex (scanIndex (comp w) + 1)) w
      else w
  | ToAnalyzing =>
      (* setPhase('analyzing') *)
      if mounted (comp w) then
        match phase (comp w) with
        | analyzing => w
        | _ => typingEffect p (typingCleanup (setComp (setPhase analyzing) w))
        end
      else w
  | TypeTick =>
      let fullText := hazardText p in
      let w1 := setState (setTypedText (string_slice0 fullText (index (comp w)))) w in
      let w2 := setComp (setIndex (index (comp w) + 1)) w1 in
      if (String.length fullText <? index (comp w2))%nat then
        snd (setTimeout Settle 500 (clearInterval (typeInterval (comp w2)) w2))
      else w2
  | Settle =>
      let w1 := setState (setResult (Some (analysisResult p))) w in
      let w2 :=
        if mounted (comp w1) then
          match phase (comp w1) with
          | complete => w1
          | _ => typingEffect p (typingCleanup (setComp (setPhase complete) w1))
          end
        else w1 in
      snd (setTimeout Emit 1000 w2)
  | Emit => onComplete (analysisResult p) w
  end.

(** A turn of the event loop: the callback, then the render. *)
Definition fire (p : Props) (h : Handler) (w : World) : World :=
  commit p (callback p h w).

(** The state cells of the first render. *)
Definition initialState (p : Props) : State :=
  {| phase := if skipAnimation p then complete else scanning;
     scanIndex := 0; result := None; typedText := "";
     mounted := true; scanInterval := None; typeInterval := None;
     index := 0 |}.

(** Mounting: the first render, on the initial state cells; then the three
    effects in order and the render of what they have set. When the first
    render throws, the component never mounts and no effect runs. *)
Definition mount (p : Props) : World :=
  let w0 : World :=
    {| now := 0; fresh := 0; queue := []; comp := initialState p;
       signals := [] |} in
  match render p (initialState p) with
  | None => setComp (setMounted false) w0
  | Some _ =>
      (* effect on [skipAnimation] *)
      let w1 :=
        if skipAnimation p then
          setComp (setTypedText (hazardText p))
                  (setComp (setResult (Some (analysisResult p))) w0)
        else w0 in
      (* effect on [isActive, skipAnimation] *)
      let w2 :=
        if negb (isActive p) || skipAnimation p then w1
        else
          let '(id, w) := setInterval ScanTick 800 w1 in
          setComp (setScanInterval (Some id)) w in
      commit p (typingEffect p w2)
  end.

End RiskAnalyzer.

(** ** components/agents/ScoreManager.jsx *)

Module ScoreManager.
Import JS Timers.

Inductive Phase : Type := evaluating | scoring | complete.

Record Props : Type := mkProps {
  riskData : option RiskData.t;
  isActive : bool;
  apiData : option ScoredHazard.t;
  skipAnimation : bool
}.

Definition evaluationSteps : list string :=
  [ "Calibrating severity matrix...";
    "Assessing injury potential...";
    "Calculating likelihood factors...";
    "Evaluating exposure frequency...";
    "Computing final risk score..." ].

Definition priorityMap : gmap string (string * string) :=
  list_to_map
    [ ("CRITICAL", ("Critical", "red"));
      ("HIGH", ("High", "orange"));
      ("MEDIUM", ("Medium", "yellow"));
      ("LOW", ("Low", "green")) ].

Definition mapPriorityToCategory (priority : option string)
  : property (string * string) :=
  match get priorityMap (property_key priority) with
  | Undefined => get priorityMap "MEDIUM"
  | found => found
  end.

Definition scoreResult (p : Props) : ScoreData.t :=
  match apiData p with
  | Some a =>
      {| ScoreData.severity := Some (number_or (ScoredHazard.severity a) 4);
         ScoreData.likelihood := Some (number_or (ScoredHazard.likelihood a) 3);
         ScoreData.riskScore :=
           Some (number_or (ScoredHazard.rpn a)
                   (to_number (ScoredHazard.severity a)
                    * to_number (ScoredHazard.likelihood a))%float);
         ScoreData.category :=
           Api.mapping_category (mapPriorityToCategory (ScoredHazard.priority a));
         ScoreData.color :=
           Api.mapping_color (mapPriorityToCategory (ScoredHazard.priority a)) |}
  | None =>
      {| ScoreData.severity := Some 4%float;
         ScoreData.likelihood := Some 3%float;
         ScoreData.riskScore := Some 12%float;
         ScoreData.category := Some "High";
         ScoreData.color := Some "orange" |}
  end.

(** The state cells, then what the effect closures hold: the ids of the three
    intervals and the two meter counters [sevVal] and [likVal]. *)
Record State : Type := mkState {
  phase : Phase;
  evalIndex : nat;
  severityValue : number;
  likelihoodValue : number;
  result : option ScoreData.t;
  mounted : bool;
  evalInterval : option nat;
  sevInterval : option nat;
  likInterval : option nat;
  sevVal : number;
  likVal : number
}.

Definition setPhase (v : Phase) (s : State) : State :=
  mkState v (evalIndex s) (severityValue s) (likelihoodValue s) (result s)
          (mounted s) (evalInterval s) (sevInterval s) (likInterval s)
          (sevVal s) (likVal s).
Definition setEvalIndex (v : nat) (s : State) : State :=
  mkState (phase s) v (severityValue s) (likelihoodValue s) (result s)
          (mounted s) (evalInterval s) (sevInterval s) (likInterval s)
          (sevVal s) (likVal s).
Definition setSeverityValue (v : number) (s : State) : State :=
  mkState (phase s) (evalIndex s) v (likelihoodValue s) (result s)
          (mounted s) (evalInterval s) (sevInterval s) (likInterval s)
          (sevVal s) (likVal s).
Definition setLikelihoodValue (v : number) (s : State) : State :=
  mkState (phase s) (evalIndex s) (severityValue s) v (result s)
          (mounted s) (evalInterval s) (sevInterval s) (likInterval s)
          (sevVal s) (likVal s).
Definition setResult (v : option ScoreData.t) (s : State) : State :=
  mkState (phase s) (evalIndex s) (severityValue s) (likelihoodValue s) v
          (mounted s) (evalInterval s) (sevInterval s) (likInterval s)
          (sevVal s) (likVal s).
Definition setMounted (v : bool) (s : State) : State :=
  mkState (phase s) (evalIndex s) (severityValue s) (likelihoodValue s)
          (result s) v (evalInterval s) (sevInterval s) (likInterval s)
          (sevVal s) (likVal s).
Definition setEvalInterval (v : option nat) (s : State) : State :=
  mkState (phase s) (evalIndex s) (severityValue s) (likelihoodValue s)
          (result s) (mounted s) v (sevInterval s) (likInterval s)
          (sevVal s) (likVal s).
Definition setSevInterval (v : option nat) (s : State) : State :=
  mkState (phase s) (evalIndex s) (severityValue s) (likelihoodValue s)
          (result s) (mounted s) (evalInterval s) v (likInterval s)
          (sevVal s) (likVal s).
Definition setLikInterval (v : option nat) (s : State) : State :=
  mkState (phase s) (evalIndex s) (severityValue s) (likelihoodValue s)
          (result s) (mounted s) (evalInterval s) (sevInterval s) v
          (sevVal s) (likVal s).
Definition setSevVal (v : number) (s : State) : State :=
  mkState (phase s) (evalIndex s) (severityValue s) (likelihoodValue s)
          (result s) (mounted s) (evalInterval s) (sevInterval s)
          (likInterval s) v (likVal s).
Definition setLikVal (v : number) (s : State) : State :=
  mkState (phase s) (evalIndex s) (severityValue s) (likelihoodValue s)
          (result s) (mounted s) (evalInterval s) (sevInterval s)
          (likInterval s) (sevVal s) v.

(** The timer callbacks: the evaluation interval (600 ms), the timeout that
    enters the scoring phase (500 ms), the severity meter interval (30 ms),
    the timeout that starts the likelihood meter (800 ms), the likelihood
    meter interval (30 ms), the timeout that enters the complete phase
    (500 ms), the timeout that calls [onComplete] (1000 ms). *)
Inductive Handler : Type :=
  EvalTick | ToScoring | SevTick | LikStart | LikTick | Settle | Emit.

Abbreviation World := (world Handler State ScoreData.t).

Definition setState (f : State -> State) (w : World) : World :=
  if mounted (comp w) then setComp f w else w.

(** The effects and timer callbacks close over [skipAnimation] and over the
    [scoreResult] object of the render that created them; they read
    [scoreResult.severity] and [scoreResult.likelihood] off that object. *)
Section Closures.
Variable skipAnimation : bool.
Variable scoreResult : ScoreData.t.

Definition severityOf : number := to_number (ScoreData.severity scoreResult).
Definition likelihoodOf : number := to_number (ScoreData.likelihood scoreResult).

(** The effect on [[phase, onComplete, skipAnimation]]; its cleanup is the
    empty function [() => {}]. *)
Definition scoringEffect (w : World) : World :=
  match phase (comp w) with
  | scoring =>
      if skipAnimation then w
      else
        let '(sev, w1) := setInterval SevTick 30 (setComp (setSevVal 0) w) in
        let w2 := setComp (setSevInterval (Some sev)) w1 in
        snd (setTimeout LikStart 800 w2)
  | _ => w
  end.

Definition fireOn (h : Handler) (w : World) : World :=
  match h with
  | EvalTick =>
      (* setEvalIndex(prev => ...) *)
      if mounted (comp w) then
        if (length evaluationSteps - 1 <=? evalIndex (comp w))%nat then
          snd (setTimeout ToScoring 500
                 (clearInterval (evalInterval (comp w)) w))
        else setComp (setEvalIndex (evalIndex (comp w) + 1)) w
      else w
  | ToScoring =>
      (* setPhase('scoring') *)
      if mounted (comp w) then
        match phase (comp w) with
        | scoring => w
        | _ => scoringEffect (setComp (setPhase scoring) w)
        end
      else w
  | SevTick =>
      let w1 := setComp (setSevVal (sevVal (comp w) + 0.1)%float) w in
      let w2 :=
        setState (setSeverityValue (Math_min (sevVal (comp w1)) severityOf)) w1 in
      if ge (sevVal (comp w2)) severityOf then
        clearInterval (sevInterval (comp w2)) w2
      else w2
  | LikStart =>
      let '(id, w1) := setInterval LikTick 30 (setComp (setLikVal 0) w) in
      setComp (setLikInterval (Some id)) w1
  | LikTick =>
      let w1 := setComp (setLikVal (likVal (comp w) + 0.1)%float) w in
      let w2 :=
        setState (setLikelihoodValue (Math_min (likVal (comp w1)) likelihoodOf)) w1 in
      if ge (likVal (comp w2)) likelihoodOf then
        snd (setTimeout Settle 500 (clearInterval (likInterval (comp w2)) w2))
      else w2
  | Settle =>
      let w1 := setState (setResult (Some scoreResult)) w in
      let w2 :=
        if mounted (comp w1) then
          match phase (comp w1) with
          | complete => w1
          | _ => scoringEffect (setComp (setPhase complete) w1)
          end
        else w1 in
      snd (setTimeout Emit 1000 w2)
  | Emit => onComplete scoreResult w
  end.

(** Mounting: the initial state cells, then the three effects in order.
    The render reads [result] only behind [result &&] and puts on screen
    numbers and strings of the component's own tables, so it does not
    throw and is left out. *)
Definition mountOn (isActive : bool) : World :=
  let s0 :=
    {| phase := if skipAnimation then complete else evaluating;
       evalIndex := 0; severityValue := 0; likelihoodValue := 0;
       result := None; mounted := true;
       evalInterval := None; sevInterval := None; likInterval := None;
       sevVal := 0; likVal := 0 |} in
  let w0 : World :=
    {| now := 0; fresh := 0; queue := []; comp := s0; signals := [] |} in
  (* effect on [skipAnimation] *)
  let w1 :=
    if skipAnimation then
      setComp (setLikelihoodValue likelihoodOf)
        (setComp (setSeverityValue severityOf)
           (setComp (setResult (Some scoreResult)) w0))
    else w0 in
  (* effect on [isActive, skipAnimation] *)
  let w2 :=
    if negb isActive || skipAnimation then w1
    else
      let '(id, w) := setInterval EvalTick 600 w1 in
      setComp (setEvalInterval (Some id)) w in
  scoringEffect w2.

End Closures.

Definition fire (p : Props) : Handler -> World -> World :=
  fireOn (skipAnimation p) (scoreResult p).

Definition mount (p : Props) : World :=
  mountOn (skipAnimation p) (scoreResult p) (isActive p).

(** Unmounting runs the registered cleanups: [clearInterval(evalInterval)]
    for the evaluation effect and the empty cleanup of the scoring effect. *)
Definition unmount (w : World) : World :=
  let w1 := clearInterval (evalInterval (comp w)) w in
  setComp (setMounted false) (setComp (setEvalInterval None) w1).

End ScoreManager.

(** ** components/agents/ActionPlanner.jsx *)

Module ActionPlanner.
Import JS Timers.

Inductive Phase : Type := planning | generating | complete.

Record Props : Type := mkProps {
  scoreData : option ScoreData.t;
  isActive : bool;
  apiData : option (list ActionPlan.t);
  skipAnimation : bool
}.

Definition planningSteps : list string :=
  [ "Consulting OSHA standards database...";
    "Matching hazard to corrective templates...";
    "Generating action recommendations...";
    "Attaching regulatory citations...";
    "Finalizing action plan..." ].

(** The inch mark (a double quote) of the first default description. *)
Definition inch : string := String (ascii_of_nat 34) EmptyString.

Definition defaultActionItems : list ActionItem.t :=
  [ {| ActionItem.id := IdNumber 1;
       ActionItem.title := "Install guardrails on scaffolding platform";
       ActionItem.description :=
         "Add standard guardrails (42" ++ inch ++ " top rail, 21" ++ inch
           ++ " mid rail) to all open sides";
       ActionItem.oshaCode := "OSHA 1926.451(g)(1)";
       ActionItem.priority := Str "Immediate";
       ActionItem.icon := Some Hammer;
       ActionItem.controlType := "ENGINEERING";
       ActionItem.responsibleRole := "safety_engineer";
       ActionItem.durationMinutes := 120;
       ActionItem.materials := Some [ "guardrails"; "fixings" ] |};
    {| ActionItem.id := IdNumber 2;
       ActionItem.title := "Perform daily stability check";
       ActionItem.description :=
         "Implement pre-shift inspection protocol for all scaffolding components";
       ActionItem.oshaCode := "OSHA 1926.451(f)(3)";
       ActionItem.priority := Str "Daily";
       ActionItem.icon := Some FileText;
       ActionItem.controlType := "ADMINISTRATIVE";
       ActionItem.responsibleRole := "supervisor";
       ActionItem.durationMinutes := 30;
       ActionItem.materials := Some [ "inspection_checklist" ] |};
    {| ActionItem.id := IdNumber 3;
       ActionItem.title := "Provide anti-slip footgear to workers";
       ActionItem.description :=
         "Issue slip-resistant footwear and verify proper fit before platform access";
       ActionItem.oshaCode := "OSHA 1926.95(a)";
       ActionItem.priority := Str "Before Next Shift";
       ActionItem.icon := Some Cog;
       ActionItem.controlType := "PPE";
       ActionItem.responsibleRole := "safety_officer";
       ActionItem.durationMinutes := 60;
       ActionItem.materials := Some [ "safety_boots" ] |} ].

Definition priorityMapping : gmap string string :=
  list_to_map
    [ ("ELIMINATION", "Immediate");
      ("SUBSTITUTION", "Immediate");
      ("ENGINEERING", "Before Next Shift");
      ("ADMINISTRATIVE", "Daily");
      ("PPE", "Before Next Shift") ].

Definition mapControlTypeToPriority (controlType : string) : value :=
  get_or priorityMapping controlType "Daily".

Definition iconMapping : gmap string Icon :=
  list_to_map
    [ ("ELIMINATION", Hammer);
      ("SUBSTITUTION", Hammer);
      ("ENGINEERING", Wrench);
      ("ADMINISTRATIVE", FileText);
      ("PPE", Cog) ].

Definition getIconForControlType (controlType : string) : Icon :=
  match get iconMapping controlType with
  | Own i => i
  | Inherited name => IconProto name
  | Undefined => Cog
  end.

(** One entry of the memoised [actionPlans]. *)
Record Plan : Type := mkPlan {
  id : string;
  planNumber : nat;
  standards : list string;
  costEstimate : option number;
  leadTimeDays : option number;
  tasks : list ActionItem.t
}.

Definition taskOfPlan (plan : ActionPlan.t) (planIdx taskIdx : nat)
    (task : Task.t) : ActionItem.t :=
  {| ActionItem.id := IdString (pretty planIdx ++ "-" ++ pretty taskIdx);
     ActionItem.title := Task.title task;
     ActionItem.description := Task.description task;
     ActionItem.oshaCode :=
       string_or (from_option head None (ActionPlan.standards_refs plan))
                 "OSHA General Duty";
     ActionItem.priority := mapControlTypeToPriority (Task.control_type task);
     ActionItem.icon := Some (getIconForControlType (Task.control_type task));
     ActionItem.controlType := Task.control_type task;
     ActionItem.responsibleRole := Task.responsible_role task;
     ActionItem.durationMinutes := Task.duration_minutes task;
     ActionItem.materials :=
       Some (default [] (Task.material_requirements task)) |}.

Definition planOfApi (planIdx : nat) (plan : ActionPlan.t) : Plan :=
  {| id := string_or (ActionPlan.plan_id plan) ("plan-" ++ pretty (planIdx + 1));
     planNumber := planIdx + 1;
     standards := default [] (ActionPlan.standards_refs plan);
     costEstimate := ActionPlan.cost_estimate plan;
     leadTimeDays := ActionPlan.lead_time_days plan;
     tasks := imap (taskOfPlan plan planIdx) (default [] (ActionPlan.tasks plan)) |}.

Definition defaultPlan : Plan :=
  {| id := "default-plan"; planNumber := 1; standards := [ "OSHA 1926.451" ];
     costEstimate := None; leadTimeDays := None;
     tasks := defaultActionItems |}.

Definition actionPlans (p : Props) : list Plan :=
  match apiData p with
  | Some (plan :: rest) => imap planOfApi (plan :: rest)
  | _ => [ defaultPlan ]
  end.

(** [actionPlans.flatMap(p => p.tasks)], the value handed to [onComplete]. *)
Definition allTasks (p : Props) : list ActionItem.t :=
  concat (map tasks (actionPlans p)).

(** The state cells, the ref [generatingStarted], then what the effect
    closures hold: the id of the planning interval and the [timeouts] array
    of the generating effect (empty when that effect has no cleanup
    registered). *)
Record State : Type := mkState {
  phase : Phase;
  planIndex : nat;
  visiblePlans : list Plan;
  isFinished : bool;
  generatingStarted : bool;
  mounted : bool;
  planInterval : option nat;
  timeouts : list nat
}.

Definition setPhase (v : Phase) (s : State) : State :=
  mkState v (planIndex s) (visiblePlans s) (isFinished s)
          (generatingStarted s) (mounted s) (planInterval s) (timeouts s).
Definition setPlanIndex (v : nat) (s : State) : State :=
  mkState (phase s) v (visiblePlans s) (isFinished s)
          (generatingStarted s) (mounted s) (planInterval s) (timeouts s).
Definition setVisiblePlans (v : list Plan) (s : State) : State :=
  mkState (phase s) (planIndex s) v (isFinished s)
          (generatingStarted s) (mounted s) (planInterval s) (timeouts s).
Definition setIsFinished (v : bool) (s : State) : State :=
  mkState (phase s) (planIndex s) (visiblePlans s) v
          (generatingStarted s) (mounted s) (planInterval s) (timeouts s).
Definition setGeneratingStarted (v : bool) (s : State) : State :=
  mkState (phase s) (planIndex s) (visiblePlans s) (isFinished s)
          v (mounted s) (planInterval s) (timeouts s).
Definition setMounted (v : bool) (s : State) : State :=
  mkState (phase s) (planIndex s) (visiblePlans s) (isFinished s)
          (generatingStarted s) v (planInterval s) (timeouts s).
Definition setPlanInterval (v : option nat) (s : State) : State :=
  mkState (phase s) (planIndex s) (visiblePlans s) (isFinished s)
          (generatingStarted s) (mounted s) v (timeouts s).
Definition setTimeouts (v : list nat) (s : State) : State :=
  mkState (phase s) (planIndex s) (visiblePlans s) (isFinished s)
          (generatingStarted s) (mounted s) (planInterval s) v.

(** The timer callbacks: the planning interval (700 ms), the timeout that
    enters the generating phase (500 ms), the timeout that reveals the plan
    at [index] ([index * 1200] ms), the timeout that enters the complete
    phase (800 ms), the timeout that calls [onComplete] (1000 ms). *)
Inductive Handler : Type :=
  PlanTick | ToGenerating | Reveal (index : nat) | Settle | Emit.

Abbreviation World := (world Handler State (list ActionItem.t)).

Definition setState (f : State -> State) (w : World) : World :=
  if mounted (comp w) then setComp f w else w.

(** [actionPlans.forEach((plan, index) => { timeouts.push(setTimeout(...,
    index * 1200)) })], from position [index] on. *)
Fixpoint scheduleReveals (plans : list Plan) (index : nat) (w : World) : World :=
  match plans with
  | [] => w
  | _ :: rest =>
      let '(id, w1) := setTimeout (Reveal index) (Z.of_nat index * 1200) w in
      scheduleReveals rest (S index)
        (setComp (setTimeouts (timeouts (comp w1) ++ [id])) w1)
  end.

(** The effect on [[phase, onComplete, actionPlans]], guarded by the ref. *)
Definition generatingEffect (p : Props) (w : World) : World :=
  match phase (comp w) with
  | generating =>
      if generatingStarted (comp w) then w
      else
        scheduleReveals (actionPlans p) 0
          (setComp (setTimeouts []) (setComp (setGeneratingStarted true) w))
  | _ => w
  end.

(** Its cleanup: [timeouts.forEach(t => clearTimeout(t))]. *)
Definition generatingCleanup (w : World) : World :=
  setComp (setTimeouts [])
    (fold_left (fun acc t => clearTimeout (Some t) acc) (timeouts (comp w)) w).

(** Unmounting runs the registered cleanups: [clearInterval(planInterval)]
    and [timeouts.forEach(t => clearTimeout(t))]. *)
Definition unmount (w : World) : World :=
  let w1 := clearInterval (planInterval (comp w)) w in
  let w2 := generatingCleanup w1 in
  setComp (setMounted false) (setComp (setPlanInterval None) w2).

(** [formatControlType]. *)
Definition controlTypeLabels : gmap string string :=
  list_to_map
    [ ("ELIMINATION", "Elimination");
      ("SUBSTITUTION", "Substitution");
      ("ENGINEERING", "Engineering");
      ("ADMINISTRATIVE", "Administrative");
      ("PPE", "PPE") ].

Definition formatControlType (controlType : string) : value :=
  get_or controlTypeLabels controlType controlType.

(** What the component puts on screen: the step of the planning phase, or
    the plans revealed so far out of how many. *)
Inductive View : Type :=
| Planning (step : option string)
| Plans (visible : list Plan) (total : nat).

(** A task of a visible plan renders [<task.icon />] and puts
    [task.priority] and [formatControlType(task.controlType)] in child
    position; the other values it shows are strings and numbers. *)
Definition taskRenders (task : ActionItem.t) : bool :=
  match ActionItem.icon task with
  | Some icon => React.componentRenders icon
  | None => false
  end
  && React.childRenders (ActionItem.priority task)
  && React.childRenders (formatControlType (ActionItem.controlType task)).

Definition planRenders (plan : Plan) : bool := forallb taskRenders (tasks plan).

(** The render; [None] is a render that throws. The component returns
    [null] while inactive in its scripted first phase; from the generating
    phase on it renders every visible plan. *)
Definition render (p : Props) (s : State) : option (React.rendered View) :=
  let hidden :=
    negb (isActive p)
    && match phase s with planning => true | _ => false end
    && negb (skipAnimation p) in
  if hidden then Some React.Null
  else
    match phase s with
    | planning =>
        Some (React.Element (Planning (planningSteps !! planIndex s)))
    | _ =>
        if forallb planRenders (visiblePlans s) then
          Some (React.Element
                  (Plans (visiblePlans s) (length (actionPlans p))))
        else None
    end.

(** After a callback or an effect has run, React renders the component
    again (if it is still mounted); a render that throws tears the tree
    down. *)
Definition commit (p : Props) (w : World) : World :=
  if mounted (comp w) then
    match render p (comp w) with
    | Some _ => w
    | None => unmount w
    end
  else w.

(** What the timer callbacks do. *)
Definition callback (p : Props) (h : Handler) (w : World) : World :=
  match h with
  | PlanTick =>
      (* setPlanIndex(prev => ...) *)
      if mounted (comp w) then
        if (length planningSteps - 1 <=? planIndex (comp w))%nat then
          snd (setTimeout ToGenerating 500
                 (clearInterval (planInterval (comp w)) w))
        else setComp (setPlanIndex (planIndex (comp w) + 1)) w
      else w
  | ToGenerating =>
      (* setPhase('generating') *)
      if mounted (comp w) then
        match phase (comp w) with
        | generating => w
        | _ => generatingEffect p
                 (generatingCleanup (setComp (setPhase generating) w))
        end
      else w
  | Reveal index =>
      let w1 :=
        match actionPlans p !! index with
        | Some plan =>
            setState (fun s => setVisiblePlans (visiblePlans s ++ [plan]) s) w
        | None => w
        end in
      if Nat.eqb index (length (actionPlans p) - 1) then
        snd (setTimeout Settle 800 w1)
      else w1
  | Settle =>
      let w1 :=
        if mounted (comp w) then
          match phase (comp w) with
          | complete => setComp (setIsFinished true) w
          | _ =>
              generatingEffect p
                (generatingCleanup
                   (setComp (setIsFinished true) (setComp (setPhase complete) w)))
          end
        else w in
      snd (setTimeout Emit 1000 w1)
  | Emit => onComplete (allTasks p) w
  end.

(** A turn of the event loop: the callback, then the render. *)
Definition fire (p : Props) (h : Handler) (w : World) : World :=
  commit p (callback p h w).

(** The state cells and the ref of the first render. *)
Definition initialState (p : Props) : State :=
  {| phase := if skipAnimation p then complete else planning;
     planIndex := 0; visiblePlans := []; isFinished := skipAnimation p;
     generatingStarted := skipAnimation p; mounted := true;
     planInterval := None; timeouts := [] |}.

(** Mounting: the first render, on the initial state cells (no plan is
    visible yet, so it does not throw); then the three effects and the
    render of what they have set. *)
Definition mount (p : Props) : World :=
  let w0 : World :=
    {| now := 0; fresh := 0; queue := []; comp := initialState p;
       signals := [] |} in
  match render p (initialState p) with
  | None => setComp (setMounted false) w0
  | Some _ =>
      (* effect on [skipAnimation, actionPlans] *)
      let w1 :=
        if skipAnimation p && (0 <? length (actionPlans p))%nat then
          setComp (setVisiblePlans (actionPlans p)) w0
        else w0 in
      (* effect on [isActive, skipAnimation] *)
      let w2 :=
        if negb (isActive p) || skipAnimation p then w1
        else
          let '(id, w) := setInterval PlanTick 700 w1 in
          setComp (setPlanInterval (Some id)) w in
      commit p (generatingEffect p w2)
  end.

End ActionPlanner.

(** ** pages/home.js *)

Module Home.
Import JS.

Inductive Stage : Type := FORM | RISK | SCORE | ACTION | SUMMARY.

(** [WORKFLOW_STAGES]. *)
Definition stageName (st : Stage) : string :=
  match st with
  | FORM => "form"
  | RISK => "risk"
  | SCORE => "score"
  | ACTION => "action"
  | SUMMARY => "summary"
  end.

(** The [useState] cells of [Home]. *)
Record State : Type := mkState {
  stage : Stage;
  observation : option Observation.t;
  riskData : option RiskData.t;
  scoreData : option ScoreData.t;
  actions : option (list ActionItem.t);
  completedSteps : list string;
  isSubmitting : bool;
  error : option string;
  pipelineResult : option PipelineResult.t;
  riskReady : bool;
  scoreReady : bool;
  actionReady : bool;
  viewingFromSummary : bool
}.

Definition initial : State :=
  {| stage := FORM; observation := None; riskData := None; scoreData := None;
     actions := None; completedSteps := []; isSubmitting := false;
     error := None; pipelineResult := None; riskReady := false;
     scoreReady := false; actionReady := false; viewingFromSummary := false |}.

Definition setStage (v : Stage) (s : State) : State :=
  mkState v (observation s) (riskData s) (scoreData s) (actions s)
          (completedSteps s) (isSubmitting s) (error s) (pipelineResult s)
          (riskReady s) (scoreReady s) (actionReady s) (viewingFromSummary s).
Definition setObservation (v : option Observation.t) (s : State) : State :=
  mkState (stage s) v (riskData s) (scoreData s) (actions s)
          (completedSteps s) (isSubmitting s) (error s) (pipelineResult s)
          (riskReady s) (scoreReady s) (actionReady s) (viewingFromSummary s).
Definition setRiskData (v : option RiskData.t) (s : State) : State :=
  mkState (stage s) (observation s) v (scoreData s) (actions s)
          (completedSteps s) (isSubmitting s) (error s) (pipelineResult s)
          (riskReady s) (scoreReady s) (actionReady s) (viewingFromSummary s).
Definition setScoreData (v : option ScoreData.t) (s : State) : State :=
  mkState (stage s) (observation s) (riskData s) v (actions s)
          (completedSteps s) (isSubmitting s) (error s) (pipelineResult s)
          (riskReady s) (scoreReady s) (actionReady s) (viewingFromSummary s).
Definition setActions (v : option (list ActionItem.t)) (s : State) : State :=
  mkState (stage s) (observation s) (riskData s) (scoreData s) v
          (completedSteps s) (isSubmitting s) (error s) (pipelineResult s)
          (riskReady s) (scoreReady s) (actionReady s) (viewingFromSummary s).
Definition setCompletedSteps (v : list string) (s : State) : State :=
  mkState (stage s) (observation s) (riskData s) (scoreData s) (actions s)
          v (isSubmitting s) (error s) (pipelineResult s)
          (riskReady s) (scoreReady s) (actionReady s) (viewingFromSummary s).
Definition setIsSubmitting (v : bool) (s : State) : State :=
  mkState (stage s) (observation s) (riskData s) (scoreData s) (actions s)
          (completedSteps s) v (error s) (pipelineResult s)
          (riskReady s) (scoreReady s) (actionReady s) (viewingFromSummary s).
Definition setError (v : option string) (s : State) : State :=
  mkState (stage s) (observation s) (riskData s) (scoreData s) (actions s)
          (completedSteps s) (isSubmitting s) v (pipelineResult s)
          (riskReady s) (scoreReady s) (actionReady s) (viewingFromSummary s).
Definition setPipelineResult (v : option PipelineResult.t) (s : State) : State :=
  mkState (stage s) (observation s) (riskData s) (scoreData s) (actions s)
          (completedSteps s) (isSubmitting s) (error s) v
          (riskReady s) (scoreReady s) (actionReady s) (viewingFromSummary s).
Definition setRiskReady (v : bool) (s : State) : State :=
  mkState (stage s) (observation s) (riskData s) (scoreData s) (actions s)
          (completedSteps s) (isSubmitting s) (error s) (pipelineResult s)
          v (scoreReady s) (actionReady s) (viewingFromSummary s).
Definition setScoreReady (v : bool) (s : State) : State :=
  mkState (stage s) (observation s) (riskData s) (scoreData s) (actions s)
          (completedSteps s) (isSubmitting s) (error s) (pipelineResult s)
          (riskReady s) v (actionReady s) (viewingFromSummary s).
Definition setActionReady (v : bool) (s : State) : State :=
  mkState (stage s) (observation s) (riskData s) (scoreData s) (actions s)
          (completedSteps s) (isSubmitting s) (error s) (pipelineResult s)
          (riskReady s) (scoreReady s) v (viewingFromSummary s).
Definition setViewingFromSummary (v : bool) (s : State) : State :=
  mkState (stage s) (observation s) (riskData s) (scoreData s) (actions s)
          (completedSteps s) (isSubmitting s) (error s) (pipelineResult s)
          (riskReady s) (scoreReady s) (actionReady s) v.

(** [handleObservationSubmit] up to its [await]. *)
Definition submitStart (data : Observation.t) (s : State) : State :=
  setError None (setIsSubmitting true (setObservation (Some data) s)).

(** [handleObservationSubmit] from the point where the backend call has
    settled: the rest of [try], or [catch], and then [finally]. *)
Definition submitSettle (settled : string + PipelineResult.t) (s : State)
  : State :=
  let s1 :=
    match settled with
    | inr result => setStage RISK (setPipelineResult (Some result) s)
    | inl message => setError (Some message) s
    end in
  setIsSubmitting false s1.

(** [handleObservationSubmit] as a whole, for the backend outcome [o]. *)
Definition handleObservationSubmit (data : Observation.t) (o : Api.Outcome)
    (s : State) : State :=
  submitSettle (Api.analyzeObservation data o) (submitStart data s).

(** [handleRiskComplete]. With backend hazards and no observation, reading
    [observation.description] throws before any state is set. *)
Definition handleRiskComplete (data : RiskData.t) (s : State) : State :=
  match pipelineResult s with
  | Some {| PipelineResult.hazards := hazard :: _ |} =>
      match observation s with
      | Some obs =>
          setRiskReady true
            (setRiskData (Some (Api.transformHazardToRiskData hazard obs)) s)
      | None => s
      end
  | _ => setRiskReady true (setRiskData (Some data) s)
  end.

Definition handleContinueToScore (s : State) : State :=
  setRiskReady false
    (setStage SCORE (setCompletedSteps (completedSteps s ++ [ "risk" ]) s)).

Definition handleScoreComplete (data : ScoreData.t) (s : State) : State :=
  match pipelineResult s with
  | Some {| PipelineResult.scored_hazards := scored :: _ |} =>
      setScoreReady true
        (setScoreData (Some (Api.transformScoredHazardToScoreData scored)) s)
  | _ => setScoreReady true (setScoreData (Some data) s)
  end.

Definition handleContinueToAction (s : State) : State :=
  setScoreReady false
    (setStage ACTION (setCompletedSteps (completedSteps s ++ [ "score" ]) s)).

(** [handleActionComplete]. When the transformation throws, no state is
    set. *)
Definition handleActionComplete (data : list ActionItem.t) (s : State)
  : State :=
  match pipelineResult s with
  | Some {| PipelineResult.action_plans := plan :: _ |} =>
      match Api.transformActionPlanToActions plan with
      | Some transformed => setActionReady true (setActions (Some transformed) s)
      | None => s
      end
  | _ => setActionReady true (setActions (Some data) s)
  end.

Definition handleContinueToSummary (s : State) : State :=
  setActionReady false
    (setStage SUMMARY (setCompletedSteps (completedSteps s ++ [ "action" ]) s)).

Definition handleReset (s : State) : State :=
  setViewingFromSummary false
    (setActionReady false
       (setScoreReady false
          (setRiskReady false
             (setError None
                (setPipelineResult None
                   (setCompletedSteps []
                      (setActions None
                         (setScoreData None
                            (setRiskData None
                               (setObservation None (setStage FORM s))))))))))).

Definition handleViewAgent (agentType : string) (s : State) : State :=
  let s1 := setViewingFromSummary true s in
  if String.eqb agentType "risk" then setRiskReady true (setStage RISK s1)
  else if String.eqb agentType "score" then setScoreReady true (setStage SCORE s1)
  else if String.eqb agentType "action" then setActionReady true (setStage ACTION s1)
  else s1.

Definition handleBackToSummary (s : State) : State :=
  setStage SUMMARY (setViewingFromSummary false s).

(** [a === b] on stages, which are the strings of [WORKFLOW_STAGES]. *)
Definition isStage (a b : Stage) : bool :=
  String.eqb (stageName a) (stageName b).

(** The props [Home] hands to the three animators. *)
Definition riskProps (s : State) : RiskAnalyzer.Props :=
  {| RiskAnalyzer.observation := observation s;
     RiskAnalyzer.isActive := isStage (stage s) RISK;
     RiskAnalyzer.apiData :=
       match pipelineResult s with
       | Some r => head (PipelineResult.hazards r)
       | None => None
       end;
     RiskAnalyzer.skipAnimation := viewingFromSummary s |}.

Definition scoreProps (s : State) : ScoreManager.Props :=
  {| ScoreManager.riskData := riskData s;
     ScoreManager.isActive := isStage (stage s) SCORE;
     ScoreManager.apiData :=
       match pipelineResult s with
       | Some r => head (PipelineResult.scored_hazards r)
       | None => None
       end;
     ScoreManager.skipAnimation := viewingFromSummary s |}.

Definition actionProps (s : State) : ActionPlanner.Props :=
  {| ActionPlanner.scoreData := scoreData s;
     ActionPlanner.isActive := isStage (stage s) ACTION;
     ActionPlanner.apiData := option_map PipelineResult.action_plans (pipelineResult s);
     ActionPlanner.skipAnimation := viewingFromSummary s |}.

(** What can happen to [Home]: a form submission and its settling, an
    [onComplete] call from an animator, a click on one of the buttons. *)
Inductive Event : Type :=
| Submit (data : Observation.t)
| Settled (data : Observation.t) (o : Api.Outcome)
| RiskComplete (data : RiskData.t)
| ScoreComplete (data : ScoreData.t)
| ActionComplete (data : list ActionItem.t)
| ContinueToScore
| ContinueToAction
| ContinueToSummary
| ViewAgent (agentType : string)
| BackToSummary
| Reset.

(** When the page as [Home] renders it offers the event. The form is
    rendered in stage FORM and its button is disabled while submitting; a
    call settles while it is outstanding; each stage renders, once its ready
    flag is set, the "Back to Summary" button in review mode and the continue
    button otherwise; the summary card offers reset and the agent views. An
    [onComplete] call is not tied to what is rendered. What the animation
    library keeps on screen while a stage fades out is not part of this. *)
Definition offered (e : Event) (s : State) : bool :=
  match e with
  | Submit _ => isStage (stage s) FORM && negb (isSubmitting s)
  | Settled _ _ => isSubmitting s
  | RiskComplete _ | ScoreComplete _ | ActionComplete _ => true
  | ContinueToScore =>
      isStage (stage s) RISK && riskReady s && negb (viewingFromSummary s)
  | ContinueToAction =>
      isStage (stage s) SCORE && scoreReady s && negb (viewingFromSummary s)
  | ContinueToSummary =>
      isStage (stage s) ACTION && actionReady s && negb (viewingFromSummary s)
  | ViewAgent _ => isStage (stage s) SUMMARY
  | BackToSummary =>
      viewingFromSummary s &&
      (isStage (stage s) RISK && riskReady s
       || isStage (stage s) SCORE && scoreReady s
       || isStage (stage s) ACTION && actionReady s)
  | Reset => isStage (stage s) SUMMARY
  end.

Definition handle (e : Event) (s : State) : State :=
  match e with
  | Submit data => submitStart data s
  | Settled data o => submitSettle (Api.analyzeObservation data o) s
  | RiskComplete data => handleRiskComplete data s
  | ScoreComplete data => handleScoreComplete data s
  | ActionComplete data => handleActionComplete data s
  | ContinueToScore => handleContinueToScore s
  | ContinueToAction => handleContinueToAction s
  | ContinueToSummary => handleContinueToSummary s
  | ViewAgent agentType => handleViewAgent agentType s
  | BackToSummary => handleBackToSummary s
  | Reset => handleReset s
  end.

(** The states of [Home] a user can bring about. *)
Inductive reachable : State -> Prop :=
| reachable_initial : reachable initial
| reachable_step e s :
    reachable s -> offered e s = true -> reachable (handle e s).

(** The page as the user finds it: [Home] in some state with the animator
    of its stage on screen, or nothing at all once a render has thrown. *)
Inductive Page : Type :=
| Shown (s : State)
| TornDown.

(** Entering the Risk stage from the summary, letting the animator mounted
    there run for [fuel] turns of the event loop with its [onComplete] calls
    delivered to [handleRiskComplete], and going back. [Home] never unmounts
    the animator in that time, so an animator that is no longer mounted has
    thrown in a render. *)
Definition viewRiskAndReturn (fuel : nat) (s : State) : Page :=
  let s1 := handleViewAgent "risk" s in
  let p := riskProps s1 in
  let w := Timers.run (RiskAnalyzer.fire p) fuel (RiskAnalyzer.mount p) in
  if RiskAnalyzer.mounted (Timers.comp w) then
    Shown (handleBackToSummary
             (fold_left (fun acc data => handleRiskComplete data acc)
                        (Timers.signals w) s1))
  else TornDown.

End Home.

(** ** The scenarios the specification names *)

Module Scenario.

Definition observation : Observation.t :=
  {| Observation.site := "Building A - 3rd Floor";
     Observation.potential := "HAZARD";
     Observation.type := "UNSAFE_CONDITION";
     Observation.description := "worker on unguarded scaffold";
     Observation.tradeCategoryId := None;
     Observation.tradePartnerId := None;
     Observation.photoId := None;
     Observation.observedAt := None |}.

Definition hazard : Hazard.t :=
  {| Hazard.description := Some "Unguarded scaffold edge";
     Hazard.taxonomy_ref := Some "HAZ-FALL-001";
     Hazard.confidence := Some 0.92%float |}.

(** A scored hazard with no [rpn] field. *)
Definition scored : ScoredHazard.t :=
  {| ScoredHazard.severity := Some 5%float;
     ScoredHazard.likelihood := Some 5%float;
     ScoredHazard.rpn := None;
     ScoredHazard.priority := Some "CRITICAL" |}.

Definition response : PipelineResult.t :=
  {| PipelineResult.hazards := [ hazard ];
     PipelineResult.scored_hazards := [ scored ];
     PipelineResult.action_plans := [] |}.

(** [Home] after the observation was submitted and the backend answered. *)
Definition submitted : Home.State :=
  Home.handleObservationSubmit observation (Api.Ok response) Home.initial.

(** [Home] in the Risk stage once the scripted animator has reported. *)
Definition riskShown : Home.State :=
  Home.handleRiskComplete
    (RiskAnalyzer.analysisResult (Home.riskProps submitted)) submitted.

(** [Home] in the Score stage once the scripted animator has reported. *)
Definition scoreShown : Home.State :=
  let s := Home.handleContinueToScore riskShown in
  Home.handleScoreComplete (ScoreManager.scoreResult (Home.scoreProps s)) s.

(** A task, for plans that need one. *)
Definition task : Task.t :=
  {| Task.title := "Install guardrails";
     Task.description := "Add guardrails to all open sides";
     Task.control_type := "ENGINEERING";
     Task.responsible_role := "safety_engineer";
     Task.duration_minutes := 120;
     Task.material_requirements := Some [ "guardrails" ] |}.

(** A plan whose first standards reference is the empty string. *)
Definition planWithEmptyReference : ActionPlan.t :=
  {| ActionPlan.plan_id := Some "plan-a";
     ActionPlan.standards_refs := Some [ ""; "OSHA 1926.451" ];
     ActionPlan.cost_estimate := None;
     ActionPlan.lead_time_days := None;
     ActionPlan.tasks := Some [ task ] |}.

Definition plan : ActionPlan.t :=
  {| ActionPlan.plan_id := Some "plan-b";
     ActionPlan.standards_refs := Some [ "OSHA 1926.451" ];
     ActionPlan.cost_estimate := None;
     ActionPlan.lead_time_days := None;
     ActionPlan.tasks := Some [ task; task ] |}.

(** [Home] in the Action stage once the scripted animator has reported, and
    then at the summary. *)
Definition actionShown : Home.State :=
  let s := Home.handleContinueToAction scoreShown in
  Home.handleActionComplete (ActionPlanner.allTasks (Home.actionProps s)) s.

Definition atSummary : Home.State := Home.handleContinueToSummary actionShown.

(** The three animators as [Home] mounts them on the way to the summary
    (scripted mode), and the Score and Action animators as mounted on
    re-entry from the summary (immediate mode). *)
Definition riskScripted : RiskAnalyzer.Props := Home.riskProps submitted.

Definition scoreScripted : ScoreManager.Props :=
  Home.scoreProps (Home.handleContinueToScore riskShown).

Definition actionScripted : ActionPlanner.Props :=
  Home.actionProps (Home.handleContinueToAction scoreShown).

Definition scoreReviewed : ScoreManager.Props :=
  Home.scoreProps (Home.handleViewAgent "score" atSummary).

Definition actionReviewed : ActionPlanner.Props :=
  Home.actionProps (Home.handleViewAgent "action" atSummary).

(** An animator run up to [deadline] (milliseconds after mounting) and
    unmounted there, and the same world after the event loop has run on. *)
Definition riskInterrupted (deadline : Z) : RiskAnalyzer.World :=
  RiskAnalyzer.unmount
    (Timers.run_until (RiskAnalyzer.fire riskScripted) 200 deadline
       (RiskAnalyzer.mount riskScripted)).

Definition scoreInterrupted (deadline : Z) : ScoreManager.World :=
  ScoreManager.unmount
    (Timers.run_until (ScoreManager.fire scoreScripted) 200 deadline
       (ScoreManager.mount scoreScripted)).

Definition actionInterrupted (deadline : Z) : ActionPlanner.World :=
  ActionPlanner.unmount
    (Timers.run_until (ActionPlanner.fire actionScripted) 200 deadline
       (ActionPlanner.mount actionScripted)).

End Scenario.


(** ** The scripts of the Risk and Action animators, turn by turn *)

(** The worlds a Risk animator passes through when it is mounted active in
    scripted mode with the props [obs] and [api]. *)
Module RiskScript.
Import JS Timers RiskAnalyzer.

Section Worlds.
Variable obs : option Observation.t.
Variable api : option Hazard.t.

Let p : Props := mkProps obs true api false.
Let text : string := hazardText p.

(** The text shown after [k] turns of the typing interval. *)
Definition typedAfter (k : nat) : string :=
  match k with
  | O => EmptyString
  | S j => string_slice0 text j
  end.

(** When the typing interval fires for the [k]-th time (counting from 0):
    every 30 ms from 4530 ms on. *)
Fixpoint typingDue (k : nat) : Z :=
  match k with
  | O => 4530
  | S j => typingDue j + 30
  end.

(** The world after the analyzing phase was entered and the typing interval
    has fired [k] times. *)
Definition typingWorld (k : nat) : World :=
  {| now := match k with O => 4500 | S j => typingDue j end;
     fresh := 3;
     queue := [ {| tid := 2; due := typingDue k; every := Some 30%Z;
                   handler := TypeTick |} ];
     comp := mkState analyzing 4 None (typedAfter k) true (Some 0) (Some 2) k;
     signals := [] |}.

(** The world once the whole text is typed and the settle timeout is armed,
    the world once the complete phase is entered and the report timeout is
    armed, and the world after the report. *)
Definition settleWorld : World :=
  let n := String.length text in
  {| now := typingDue n; fresh := 4;
     queue := [ {| tid := 3; due := typingDue n + 500; every := None;
                   handler := Settle |} ];
     comp := mkState analyzing 4 None text true (Some 0) (Some 2) (S n);
     signals := [] |}.

Definition reportWorld : World :=
  let n := String.length text in
  {| now := typingDue n + 500; fresh := 5;
     queue := [ {| tid := 4; due := typingDue n + 500 + 1000; every := None;
                   handler := Emit |} ];
     comp := mkState complete 4 (Some (analysisResult p)) text true
                     (Some 0) None (S n);
     signals := [] |}.

Definition restWorld : World :=
  let n := String.length text in
  {| now := typingDue n + 500 + 1000; fresh := 5; queue := [];
     comp := mkState complete 4 (Some (analysisResult p)) text true
                     (Some 0) None (S n);
     signals := [ analysisResult p ] |}.

End Worlds.

End RiskScript.

(** The worlds an Action animator passes through when it is mounted active
    in scripted mode with the props [score] and [api]. *)
Module ActionScript.
Import JS Timers ActionPlanner.

(** The timeout that reveals the plan at [i]. *)
Definition revealTimer (i : nat) : timer Handler :=
  {| tid := 2 + i; due := 4000 + Z.of_nat i * 1200; every := None;
     handler := Reveal i |}.

(** The world while the generating effect has armed the first [i] reveal
    timeouts. *)
Definition armingWorld (i : nat) : World :=
  {| now := 4000; fresh := 2 + i;
     queue := map revealTimer (seq 0 i);
     comp := mkState generating 4 [] false true true (Some 0)
                     (map (Nat.add 2) (seq 0 i));
     signals := [] |}.

Section Worlds.
Variable score : option ScoreData.t.
Variable api : option (list ActionPlan.t).

Let p : Props := mkProps score true api false.
Let plans : list Plan := actionPlans p.
Let n : nat := length plans.

(** The world after the first [j] plans were revealed. *)
Definition revealedWorld (j : nat) : World :=
  {| now := match j with O => 4000 | S i => 4000 + Z.of_nat i * 1200 end;
     fresh := 2 + n;
     queue := map revealTimer (seq j (n - j));
     comp := mkState generating 4 (take j plans) false true true (Some 0)
                     (map (Nat.add 2) (seq 0 n));
     signals := [] |}.

(** The world once every plan is revealed and the settle timeout is armed,
    the world once the complete phase is entered and the report timeout is
    armed, and the world after the report. *)
Definition lastReveal : Z := 4000 + Z.of_nat (n - 1) * 1200.

Definition settleWorld : World :=
  {| now := lastReveal; fresh := 3 + n;
     queue := [ {| tid := 2 + n; due := lastReveal + 800; every := None;
                   handler := Settle |} ];
     comp := mkState generating 4 plans false true true (Some 0)
                     (map (Nat.add 2) (seq 0 n));
     signals := [] |}.

Definition reportWorld : World :=
  {| now := lastReveal + 800; fresh := 4 + n;
     queue := [ {| tid := 3 + n; due := lastReveal + 800 + 1000; every := None;
                   handler := Emit |} ];
     comp := mkState complete 4 plans true true true (Some 0) [];
     signals := [] |}.

Definition restWorld : World :=
  {| now := lastReveal + 800 + 1000; fresh := 4 + n; queue := [];
     comp := mkState complete 4 plans true true true (Some 0) [];
     signals := [ allTasks p ] |}.

End Worlds.

End ActionScript.

(** ** Notions the facts are stated with *)

Module Notions.
Import JS.

(** The [detail] the backend provides with a failed call: the member of
    that name of a JSON error body, when it is a string. *)
Definition detailOf (o : Api.Outcome) : option string :=
  match o with
  | Api.NotOk _ (Api.Json body) =>
      match json_member "detail" body with
      | Some (JString detail) => Some detail
      | _ => None
      end
  | _ => None
  end.

(** The HTTP status of a failed call, when there was a response. *)
Definition statusOf (o : Api.Outcome) : option nat :=
  match o with
  | Api.NotOk status _ => Some status
  | _ => None
  end.

(** The failures C6 speaks of: a network error or a non-2xx response. *)
Definition isFailure (o : Api.Outcome) : bool :=
  match o with
  | Api.FetchRejected _ | Api.NotOk _ _ => true
  | _ => false
  end.

(** Where the page is in its stage sequence fixes the history: empty up to
    the Risk stage, then one name longer after each continue, and complete
    from the summary on (review mode included). *)
Definition historyAt (s : Home.State) : list string :=
  if Home.viewingFromSummary s then [ "risk"; "score"; "action" ]
  else
    match Home.stage s with
    | Home.FORM | Home.RISK => []
    | Home.SCORE => [ "risk" ]
    | Home.ACTION => [ "risk"; "score" ]
    | Home.SUMMARY => [ "risk"; "score"; "action" ]
    end.

Definition wellStaged (s : Home.State) : Prop :=
  Home.completedSteps s = historyAt s
  /\ (Home.stage s = Home.FORM -> Home.viewingFromSummary s = false)
  /\ (Home.isSubmitting s = true -> Home.stage s = Home.FORM).

(** The ratings of the risk matrix: whole numbers from 1 to 5. *)
Definition rating (x : option number) : Prop :=
  In x [ Some 1%float; Some 2%float; Some 3%float; Some 4%float; Some 5%float ].


(** The result a Score animator reports carries ratings when the backend
    fields do (an absent or zero field is replaced by 4 and 3). *)
Definition ratedOrAbsent (x : option number) : Prop :=
  x = None \/ x = Some 0%float \/ rating x.

(** No render of the Risk animator throws on these props: the observation
    is there, and the category of the result is not the one inherited
    member that is an object. *)
Definition riskRenders (p : RiskAnalyzer.Props) : bool :=
  match RiskAnalyzer.observation p with
  | Some _ =>
      React.childRenders (RiskData.category (RiskAnalyzer.analysisResult p))
  | None => false
  end.

(** No render of the Action animator throws on these props: every task of
    every plan renders. *)
Definition actionRenders (p : ActionPlanner.Props) : bool :=
  forallb ActionPlanner.planRenders (ActionPlanner.actionPlans p).

(** The string is written in ASCII, where the bytes of the model are the
    UTF-16 code units [length] and [slice] count. *)
Definition isAscii (s : string) : Prop :=
  Forall (fun c => nat_of_ascii c < 128) (list_ascii_of_string s).

(** From the world [w0] on, the event loop driven by [fire] makes the one
    report [r]: at every turn the reports made so far are none or that one,
    and from some turn on the report is made and no timer is armed. *)
Definition reportsOnce {H K R : Type}
    (fire : H -> Timers.world H K R -> Timers.world H K R)
    (w0 : Timers.world H K R) (r : R) : Prop :=
  (forall m,
     Timers.signals (Timers.run fire m w0) = []
     \/ Timers.signals (Timers.run fire m w0) = [ r ])
  /\ exists n, forall m, n <= m ->
       Timers.queue (Timers.run fire m w0) = []
       /\ Timers.signals (Timers.run fire m w0) = [ r ].

(** From the world [w0] on, no report is ever made and no timer is armed. *)
Definition reportsNever {H K R : Type}
    (fire : H -> Timers.world H K R -> Timers.world H K R)
    (w0 : Timers.world H K R) : Prop :=
  forall m,
    Timers.signals (Timers.run fire m w0) = (@nil R)
    /\ Timers.queue (Timers.run fire m w0) = [].

End Notions.


(** ** What [Home] renders around the animators *)

Module HomeView.
Import JS.



End HomeView.

(** ** components/agents/AgentTimeline.jsx *)

Module AgentTimeline.
Import JS.







End AgentTimeline.

(** ** The display helpers of ActionPlanner.jsx *)

Module ActionFormat.
Import JS.

(** ASCII upper-casing of one character, the counterpart of
    [JS.lower_ascii]. *)
Definition upper_ascii (c : ascii) : ascii :=
  let n := nat_of_ascii c in
  if (97 <=? n)%nat && (n <=? 122)%nat then ascii_of_nat (n - 32) else c.

Definition underscore : ascii := ascii_of_nat 95.
Definition space : ascii := ascii_of_nat 32.

(** [s.split('_')]: never the empty array. *)
Fixpoint split (s : string) : list string :=
  match s with
  | EmptyString => [ EmptyString ]
  | String c rest =>
      if Ascii.eqb c underscore then EmptyString :: split rest
      else
        match split rest with
        | word :: words => String c word :: words
        | [] => [ String c EmptyString ]
        end
  end.

(** [word.charAt(0).toUpperCase() + word.slice(1)]. *)
Definition capitalize (word : string) : string :=
  match word with
  | EmptyString => EmptyString
  | String c rest => String (upper_ascii c) rest
  end.

(** [words.join(' ')]. *)
Fixpoint join (words : list string) : string :=
  match words with
  | [] => EmptyString
  | [ word ] => word
  | word :: rest => word ++ String space (join rest)
  end.

(** [formatRole]; an absent or empty role is falsy. *)
Definition formatRole (role : option string) : string :=
  match role with
  | Some r =>
      if truthy_string r then join (map capitalize (split r)) else "Assigned"
  | None => "Assigned"
  end.

(** [totalTasks]: [actionPlans.reduce((sum, plan) => sum + plan.tasks.length,
    0)]. *)
Definition totalTasks (p : ActionPlanner.Props) : nat :=
  fold_left (fun sum plan => sum + length (ActionPlanner.tasks plan))
            (ActionPlanner.actionPlans p) 0.

End ActionFormat.

(** ** [Home] with its animators wired in *)

(** [Home] renders the animator of the current stage with its [onComplete]
    prop bound to the stage's handler. *)
Module Workflow.
Import JS.

(** The Risk animator mounted for the state [s], run for [fuel] turns of the
    event loop, its [onComplete] calls delivered to [handleRiskComplete];
    and the same for the other two stages. *)
Definition playRisk (fuel : nat) (s : Home.State) : Home.State :=
  let p := Home.riskProps s in
  fold_left (fun acc data => Home.handleRiskComplete data acc)
    (Timers.signals
       (Timers.run (RiskAnalyzer.fire p) fuel (RiskAnalyzer.mount p))) s.

Definition playScore (fuel : nat) (s : Home.State) : Home.State :=
  let p := Home.scoreProps s in
  fold_left (fun acc data => Home.handleScoreComplete data acc)
    (Timers.signals
       (Timers.run (ScoreManager.fire p) fuel (ScoreManager.mount p))) s.

Definition playAction (fuel : nat) (s : Home.State) : Home.State :=
  let p := Home.actionProps s in
  fold_left (fun acc data => Home.handleActionComplete data acc)
    (Timers.signals
       (Timers.run (ActionPlanner.fire p) fuel (ActionPlanner.mount p))) s.

(** The animator of the current stage played, if the stage has one. *)
Definition play (fuel : nat) (s : Home.State) : Home.State :=
  match Home.stage s with
  | Home.RISK => playRisk fuel s
  | Home.SCORE => playScore fuel s
  | Home.ACTION => playAction fuel s
  | _ => s
  end.

(** A user action: it has an effect only when the page offers it. *)
Definition click (e : Home.Event) (s : Home.State) : Home.State :=
  if Home.offered e s then Home.handle e s else s.

Definition clicks (es : list Home.Event) (s : Home.State) : Home.State :=
  fold_left (fun acc e => click e acc) es s.

(** The states of [Home] along a submission answered with [result], each
    stage played and left by its continue button; what is on screen
    meanwhile is the matter of [journey] below. *)
Definition driveToSummary (fuel : nat) (data : Observation.t)
    (result : PipelineResult.t) : Home.State :=
  let s1 :=
    click (Home.Settled data (Api.Ok result))
      (click (Home.Submit data) Home.initial) in
  let s2 := click Home.ContinueToScore (play fuel s1) in
  let s3 := click Home.ContinueToAction (play fuel s2) in
  click Home.ContinueToSummary (play fuel s3).

(** The animator of the stage of [s] mounted and played for [fuel] turns
    of the event loop, its reports delivered: the page is torn down when a
    render of the animator has thrown in that time. [Home] does not unmount
    the animator while it plays, so that is when the animator is no longer
    mounted. The Score animator reads [result] behind a guard and shows
    strings and numbers only: no render of it throws. The summary card is
    not among the sources; the page at the summary counts as shown. *)
Definition show (fuel : nat) (s : Home.State) : Home.Page :=
  match Home.stage s with
  | Home.RISK =>
      let p := Home.riskProps s in
      if RiskAnalyzer.mounted
           (Timers.comp
              (Timers.run (RiskAnalyzer.fire p) fuel (RiskAnalyzer.mount p)))
      then Home.Shown (playRisk fuel s)
      else Home.TornDown
  | Home.ACTION =>
      let p := Home.actionProps s in
      if ActionPlanner.mounted
           (Timers.comp
              (Timers.run (ActionPlanner.fire p) fuel (ActionPlanner.mount p)))
      then Home.Shown (playAction fuel s)
      else Home.TornDown
  | _ => Home.Shown (play fuel s)
  end.

(** What the user does next, if the page is still there. *)
Definition andThen (page : Home.Page) (next : Home.State -> Home.Page)
  : Home.Page :=
  match page with
  | Home.Shown s => next s
  | Home.TornDown => Home.TornDown
  end.

(** From the summary: view an agent, let the animator mounted there play,
    press "Back to Summary". *)
Definition visit (fuel : nat) (agentType : string) (s : Home.State)
  : Home.Page :=
  andThen (show fuel (Home.handleViewAgent agentType s))
          (fun s1 => Home.Shown (click Home.BackToSummary s1)).

(** A submission answered with [result], then each stage played and left by
    its continue button, as long as the page is there. *)
Definition journey (fuel : nat) (data : Observation.t)
    (result : PipelineResult.t) : Home.Page :=
  let s1 :=
    click (Home.Settled data (Api.Ok result))
      (click (Home.Submit data) Home.initial) in
  andThen (show fuel s1) (fun t1 =>
  andThen (show fuel (click Home.ContinueToScore t1)) (fun t2 =>
  andThen (show fuel (click Home.ContinueToAction t2)) (fun t3 =>
  Home.Shown (click Home.ContinueToSummary t3)))).

End Workflow.

(** ** Further notions the facts are stated with *)

Module Notions2.
Import JS.

(** The fields an item of the Action animator and an item of the
    transformation layer have in common. *)
Definition sharedFields (item : ActionItem.t)
  : string * string * string * value * string * string * Z :=
  (ActionItem.title item, ActionItem.description item,
   ActionItem.oshaCode item, ActionItem.priority item,
   ActionItem.controlType item, ActionItem.responsibleRole item,
   ActionItem.durationMinutes item).

(** The response is one every stage can get through: the ratings of the
    first scored hazard are on the scale, zero or absent, and the
    transformation of the first action plan does not throw. *)
Definition playable (result : PipelineResult.t) : Prop :=
  match PipelineResult.scored_hazards result with
  | a :: _ =>
      Notions.ratedOrAbsent (ScoredHazard.severity a)
      /\ Notions.ratedOrAbsent (ScoredHazard.likelihood a)
  | [] => True
  end
  /\ match PipelineResult.action_plans result with
     | plan :: _ => is_Some (Api.transformActionPlanToActions plan)
     | [] => True
     end.

(** The Action stage with a first plan whose transformation throws, and no
    way on. *)
Definition stuckInAction (s : Home.State) : Prop :=
  Home.stage s = Home.ACTION
  /\ Home.viewingFromSummary s = false
  /\ Home.actionReady s = false
  /\ Home.isSubmitting s = false
  /\ exists result plan rest,
       Home.pipelineResult s = Some result
       /\ PipelineResult.action_plans result = plan :: rest
       /\ Api.transformActionPlanToActions plan = None.

(** What the stages have produced is there: an outstanding call and a
    stored response have their observation, every stage after FORM has the
    response, a ready flag has its result, and a stage that was left (or the
    review of one) has its result. *)
Definition resultsPresent (s : Home.State) : Prop :=
  (Home.isSubmitting s = true -> is_Some (Home.observation s))
  /\ (is_Some (Home.pipelineResult s) -> is_Some (Home.observation s))
  /\ (Home.stage s <> Home.FORM -> is_Some (Home.pipelineResult s))
  /\ (Home.riskReady s = true -> is_Some (Home.riskData s))
  /\ (Home.scoreReady s = true -> is_Some (Home.scoreData s))
  /\ (Home.actionReady s = true -> is_Some (Home.actions s))
  /\ (Home.viewingFromSummary s = true \/ Home.stage s = Home.SCORE
      \/ Home.stage s = Home.ACTION \/ Home.stage s = Home.SUMMARY ->
      is_Some (Home.riskData s))
  /\ (Home.viewingFromSummary s = true \/ Home.stage s = Home.ACTION
      \/ Home.stage s = Home.SUMMARY ->
      is_Some (Home.scoreData s))
  /\ (Home.viewingFromSummary s = true \/ Home.stage s = Home.SUMMARY ->
      is_Some (Home.actions s)).

(** The callbacks of the Score animator that are armed from the scoring
    phase on. *)
Definition scoringCallback (h : ScoreManager.Handler) : bool :=
  match h with
  | ScoreManager.EvalTick | ScoreManager.ToScoring => false
  | _ => true
  end.

(** Two worlds of the Score animator agree on what its timers and closures
    can tell apart: the clock, the next timer id, the queue, the reports
    made, and the interval ids and meter counters the closures hold. The
    state cells and the mounted flag may differ. *)
Definition sameTimers (w w' : ScoreManager.World) : Prop :=
  Timers.now w = Timers.now w'
  /\ Timers.fresh w = Timers.fresh w'
  /\ Timers.queue w = Timers.queue w'
  /\ Timers.signals w = Timers.signals w'
  /\ ScoreManager.sevInterval (Timers.comp w)
     = ScoreManager.sevInterval (Timers.comp w')
  /\ ScoreManager.likInterval (Timers.comp w)
     = ScoreManager.likInterval (Timers.comp w')
  /\ ScoreManager.sevVal (Timers.comp w) = ScoreManager.sevVal (Timers.comp w')
  /\ ScoreManager.likVal (Timers.comp w) = ScoreManager.likVal (Timers.comp w').

(** The evaluation phase of the Score animator is over: its interval, the
    first timer armed, is no longer in the queue, and only callbacks of the
    scoring phase are. *)
Definition scoringBegun (w : ScoreManager.World) : Prop :=
  ScoreManager.evalInterval (Timers.comp w) = Some 0
  /\ 0 < Timers.fresh w
  /\ Forall (fun t => scoringCallback (Timers.handler t) = true
                      /\ Timers.tid t <> 0)
            (Timers.queue w).

End Notions2.

(* ===================================================================== *)
(** * Part II: facts *)
(* ===================================================================== *)

(** ** The transformation layer *)

Import JS Notions.

(** C1. A scored hazard that carries severity and likelihood but no [rpn]:
    [transformScoredHazardToScoreData] copies the absent [rpn], and
    [handleScoreComplete] stores that output over the animator's value. So
    for every such hazard the stored riskScore is [undefined]; for
    [{severity:5, likelihood:5, priority:"CRITICAL"}] the animator computed
    25 and the stored view-model has category "Critical" and no riskScore. *)
Theorem score_without_rpn_is_undefined :
  (forall severity likelihood priority rest hazards plans data s,
     let scored :=
       {| ScoredHazard.severity := Some severity;
          ScoredHazard.likelihood := Some likelihood;
          ScoredHazard.rpn := None;
          ScoredHazard.priority := priority |} in
     let response :=
       {| PipelineResult.hazards := hazards;
          PipelineResult.scored_hazards := scored :: rest;
          PipelineResult.action_plans := plans |} in
     option_map ScoreData.riskScore
       (Home.scoreData
          (Home.handleScoreComplete data
             (Home.setPipelineResult (Some response) s))) = Some None)
  /\ ScoreData.riskScore
       (ScoreManager.scoreResult
          (Home.scoreProps (Home.handleContinueToScore Scenario.riskShown)))
     = Some 25%float
  /\ Home.scoreData Scenario.scoreShown
     = Some {| ScoreData.severity := Some 5%float;
               ScoreData.likelihood := Some 5%float;
               ScoreData.riskScore := None;
               ScoreData.category := Some "Critical";
               ScoreData.color := Some "red" |}.
Proof.
  split; [| split].
  - intros. reflexivity.
  - vm_compute. reflexivity.
  - vm_compute. reflexivity.
Qed.

(** C4. Two descriptions that match no vocabulary term, and two that match
    exactly one: the transformation layer returns no keyword at all for the
    first pair (no fallback set) and a single keyword for the second; the
    Risk animator's copy returns its three fallback terms for the first pair
    and a single keyword for the second. *)
Theorem keywords_fewer_than_three :
  Api.extractKeywords (Some "Wet floor") (Some "spill near entrance") = []
  /\ Api.extractKeywords (Some "Open flame") (Some "fire near door") = [ "fire" ]
  /\ RiskAnalyzer.extractKeywords (Some "Wet floor") (Some "spill near entrance")
     = [ "safety"; "hazard"; "risk" ]
  /\ RiskAnalyzer.extractKeywords (Some "Open flame") (Some "fire near door")
     = [ "fire" ].
Proof. repeat split; vm_compute; reflexivity. Qed.

(** The transformation layer never returns more than five keywords, and
    returns only vocabulary terms, in vocabulary order. *)
Lemma extractKeywords_at_most_five hazardDesc observationDesc :
  length (Api.extractKeywords hazardDesc observationDesc) <= 5
  /\ sublist (Api.extractKeywords hazardDesc observationDesc)
             Api.commonSafetyTerms.
Proof.
  unfold Api.extractKeywords, slice0.
  set (found := List.filter _ _).
  split.
  - rewrite length_take. lia.
  - transitivity found.
    + apply sublist_take.
    + subst found. generalize Api.commonSafetyTerms as l.
      induction l as [|x l IH]; simpl; [constructor|].
      destruct (includes _ x); [by apply sublist_skip | by apply sublist_cons].
Qed.



(** C9. The lookups never throw (they are total functions), but a code that
    names a member of [Object.prototype] is not sent to the default: for
    the code "constructor" both taxonomy lookups and both control-type
    lookups hand back the inherited member instead of "General Safety" and
    "Daily". *)
Theorem lookup_of_inherited_name_misses_default :
  Api.mapTaxonomyToCategory (Some "constructor") = ProtoMember "constructor"
  /\ RiskAnalyzer.mapTaxonomyToCategory (Some "constructor")
     = ProtoMember "constructor"
  /\ ActionPlanner.mapControlTypeToPriority "constructor"
     = ProtoMember "constructor"
  /\ ActionItem.priority
       (Api.actionOfTask [] 0
          {| Task.title := "t"; Task.description := "d";
             Task.control_type := "constructor";
             Task.responsible_role := "r"; Task.duration_minutes := 5;
             Task.material_requirements := None |})
     = ProtoMember "constructor"
  /\ Api.mapTaxonomyToCategory (Some "constructor") <> Str "General Safety"
  /\ ActionPlanner.mapControlTypeToPriority "constructor" <> Str "Daily".
Proof. repeat split; try (vm_compute; reflexivity); vm_compute; discriminate. Qed.

(** A lookup table with a default: every key that is neither an own
    property of the table nor a member of [Object.prototype] is sent to the
    default. *)
Lemma get_or_default (table : gmap string string) key fallback :
  table !! key = None ->
  key ∉ Object_prototype_keys ->
  get_or table key fallback = Str fallback.
Proof.
  intros Hnone Hproto. unfold get_or, get. rewrite Hnone.
  by rewrite bool_decide_eq_false_2.
Qed.

(** The five control types go to their priority buckets. *)
Lemma control_type_buckets :
  ActionPlanner.mapControlTypeToPriority "ELIMINATION" = Str "Immediate"
  /\ ActionPlanner.mapControlTypeToPriority "SUBSTITUTION" = Str "Immediate"
  /\ ActionPlanner.mapControlTypeToPriority "ENGINEERING" = Str "Before Next Shift"
  /\ ActionPlanner.mapControlTypeToPriority "PPE" = Str "Before Next Shift"
  /\ ActionPlanner.mapControlTypeToPriority "ADMINISTRATIVE" = Str "Daily"
  /\ ActionPlanner.mapControlTypeToPriority "UNKNOWN" = Str "Daily"
  /\ Api.mapTaxonomyToCategory (Some "HAZ-NONE-999") = Str "General Safety".
Proof. repeat split; vm_compute; reflexivity. Qed.

(** C10, as worded, fails when the first standards reference is the empty
    string: the list is non-empty, yet the item carries the fixed string and
    not that first reference. *)
Lemma empty_first_reference_gets_default :
  ActionPlan.tasks Scenario.planWithEmptyReference = Some [ Scenario.task ]
  /\ ActionPlan.standards_refs Scenario.planWithEmptyReference
     = Some [ ""; "OSHA 1926.451" ]
  /\ option_map (map ActionItem.oshaCode)
       (Api.transformActionPlanToActions Scenario.planWithEmptyReference)
     = Some [ "OSHA General Duty" ]
  /\ option_map (map ActionItem.oshaCode)
       (Api.transformActionPlanToActions Scenario.planWithEmptyReference)
     <> Some [ "" ].
Proof. repeat split; vm_compute; try reflexivity; discriminate. Qed.

(** The items [imap] builds, position by position. *)
Lemma imap_actionOfTask_lookup refs tasks i :
  imap (Api.actionOfTask refs) tasks !! i
  = Api.actionOfTask refs i <$> tasks !! i.
Proof. apply list_lookup_imap. Qed.

(** C10, amended. For every action plan whose [tasks] and [standards_refs]
    fields are lists, [transformActionPlanToActions] returns a list of the
    length of [tasks] whose item at position [i] is built from the task at
    position [i], has id [i + 1], and has as oshaCode the first standards
    reference when there is one and it is not the empty string, else the
    fixed string "OSHA General Duty". *)
Theorem transformActionPlanToActions_shape plan tasks refs :
  ActionPlan.tasks plan = Some tasks ->
  ActionPlan.standards_refs plan = Some refs ->
  exists items,
    Api.transformActionPlanToActions plan = Some items
    /\ length items = length tasks
    /\ forall i task,
         tasks !! i = Some task ->
         exists item,
           items !! i = Some item
           /\ ActionItem.id item = IdNumber (i + 1)
           /\ ActionItem.title item = Task.title task
           /\ ActionItem.description item = Task.description task
           /\ ActionItem.controlType item = Task.control_type task
           /\ ActionItem.oshaCode item
              = match refs with
                | first :: _ =>
                    if String.eqb first "" then "OSHA General Duty" else first
                | [] => "OSHA General Duty"
                end.
Proof.
  intros Htasks Hrefs.
  exists (imap (Api.actionOfTask refs) tasks).
  split; [| split].
  - unfold Api.transformActionPlanToActions. rewrite Htasks, Hrefs.
    by destruct tasks.
  - apply length_imap.
  - intros i task Hi. exists (Api.actionOfTask refs i task).
    rewrite imap_actionOfTask_lookup, Hi. simpl.
    repeat split.
    unfold Api.firstStandardOr, string_or, truthy_string.
    destruct refs as [|first rest]; simpl; [reflexivity|].
    by destruct (String.eqb first "").
Qed.

(** The shape of the items of a plan with two tasks and one reference. *)
Lemma transformActionPlanToActions_shape_witness :
  exists items,
    Api.transformActionPlanToActions Scenario.plan = Some items
    /\ length items = 2
    /\ forall i task,
         [ Scenario.task; Scenario.task ] !! i = Some task ->
         exists item,
           items !! i = Some item
           /\ ActionItem.id item = IdNumber (i + 1)
           /\ ActionItem.title item = Task.title task
           /\ ActionItem.description item = Task.description task
           /\ ActionItem.controlType item = Task.control_type task
           /\ ActionItem.oshaCode item = "OSHA 1926.451".
Proof.
  exact (transformActionPlanToActions_shape Scenario.plan
           [ Scenario.task; Scenario.task ] [ "OSHA 1926.451" ]
           eq_refl eq_refl).
Defined.

(** ** The orchestrator *)

(** C6, as worded, fails: no fallback message, even one that may depend on
    the HTTP status, serves every failure without a [detail]. A 500 response
    whose body is not JSON records "Unknown error", a 500 response whose JSON
    body is an object without [detail] records "API request failed with
    status 500". *)
Lemma no_single_fallback_message :
  ~ (exists fallback : option nat -> string,
       forall data o,
         isFailure o = true ->
         let s := Home.handleObservationSubmit data o Home.initial in
         Home.stage s = Home.FORM
         /\ Home.isSubmitting s = false
         /\ Home.error s = Some (default (fallback (statusOf o)) (detailOf o))).
Proof.
  intros (fallback & H).
  destruct (H Scenario.observation (Api.NotOk 500 Api.NotJson) eq_refl)
    as (_ & _ & H1).
  destruct (H Scenario.observation (Api.NotOk 500 (Api.Json (JObject [])))
              eq_refl)
    as (_ & _ & H2).
  vm_compute in H1, H2. congruence.
Qed.

(** C6, amended. Whatever the state before the submission and whatever the
    failure (a rejected [fetch], or a non-2xx response with any body at
    all), the stage is left as it was (FORM, where the form is rendered),
    the submitting flag ends false, no response is stored and a message is
    recorded. The message is: the message of the rejection when [fetch]
    itself rejects; "Unknown error" for a non-2xx response whose body is not
    JSON; and for a non-2xx response whose body is JSON other than [null],
    the [detail] member of the body when that is a non-empty string, and
    "API request failed with status N" (N the status) when the body has no
    [detail] member or a falsy one. *)
Theorem failed_submission data o s :
  isFailure o = true ->
  let s' := Home.handleObservationSubmit data o s in
  Home.stage s' = Home.stage s
  /\ Home.isSubmitting s' = false
  /\ Home.pipelineResult s' = Home.pipelineResult s
  /\ is_Some (Home.error s')
  /\ (forall message,
        o = Api.FetchRejected message -> Home.error s' = Some message)
  /\ (forall status,
        o = Api.NotOk status Api.NotJson ->
        Home.error s' = Some "Unknown error")
  /\ (forall status body,
        o = Api.NotOk status (Api.Json body) ->
        body <> JNull ->
        (forall detail,
           json_member "detail" body = Some (JString detail) ->
           detail <> "" ->
           Home.error s' = Some detail)
        /\ (truthy_json (json_member "detail" body) = false ->
            Home.error s'
            = Some ("API request failed with status " ++ pretty status))).
Proof.
  intros Hfail s'. subst s'.
  destruct o as [message | status [| body] | message | result];
    try discriminate Hfail.
  - repeat split; try done; intros; simplify_eq; done.
  - repeat split; try done; intros; simplify_eq; done.
  - split; [reflexivity |]. split; [reflexivity |]. split; [reflexivity |].
    split; [by eexists |]. split; [intros; discriminate |].
    split; [intros; discriminate |].
    intros status' body' [= <- <-] Hnull.
    cbn [Home.handleObservationSubmit Home.submitSettle Home.submitStart
         Api.analyzeObservation].
    unfold Api.failureMessage.
    destruct body as [| b | n shown | str | items | members];
      try done; cbn -[pretty]; split; try done;
      try (intros detail Hd; discriminate Hd).
    + intros detail Hd Hne. rewrite Hd. cbn.
      unfold truthy_string. apply String.eqb_neq in Hne. by rewrite Hne.
    + intros Hfalsy. by rewrite Hfalsy.
Qed.

(** A 422 response whose body carries a [detail] beside other members. *)
Lemma failed_submission_witness :
  let o :=
    Api.NotOk 422
      (Api.Json
         (JObject [ ("detail", JString "description too short");
                    ("code", JNumber 7%float "7") ])) in
  let s' := Home.handleObservationSubmit Scenario.observation o Home.initial in
  Home.stage s' = Home.FORM
  /\ Home.isSubmitting s' = false
  /\ Home.pipelineResult s' = None
  /\ Home.error s' = Some "description too short".
Proof.
  intros o s'.
  destruct (failed_submission Scenario.observation o Home.initial eq_refl)
    as (Hstage & Hflag & Hresult & _ & _ & _ & Hbody).
  destruct (Hbody 422 _ eq_refl ltac:(discriminate)) as [Hdetail _].
  split; [exact Hstage | split; [exact Hflag | split; [exact Hresult |]]].
  exact (Hdetail "description too short" eq_refl ltac:(discriminate)).
Defined.

Lemma isStage_true a b : Home.isStage a b = true -> a = b.
Proof. by destruct a, b. Qed.

Ltac stage_facts :=
  repeat match goal with
         | H : _ && _ = true |- _ => apply andb_prop in H as [? ?]
         | H : _ || _ = true |- _ => apply orb_prop in H as [? | ?]
         | H : negb _ = true |- _ => apply negb_true_iff in H
         | H : Home.isStage _ _ = true |- _ => apply isStage_true in H
         end.

Lemma handleRiskComplete_keeps data s :
  Home.completedSteps (Home.handleRiskComplete data s) = Home.completedSteps s
  /\ Home.stage (Home.handleRiskComplete data s) = Home.stage s
  /\ Home.viewingFromSummary (Home.handleRiskComplete data s)
     = Home.viewingFromSummary s
  /\ Home.isSubmitting (Home.handleRiskComplete data s) = Home.isSubmitting s.
Proof.
  unfold Home.handleRiskComplete.
  destruct (Home.pipelineResult s) as [[[|h hs] ? ?]|];
    destruct (Home.observation s); by repeat split.
Qed.

Lemma handleScoreComplete_keeps data s :
  Home.completedSteps (Home.handleScoreComplete data s) = Home.completedSteps s
  /\ Home.stage (Home.handleScoreComplete data s) = Home.stage s
  /\ Home.viewingFromSummary (Home.handleScoreComplete data s)
     = Home.viewingFromSummary s
  /\ Home.isSubmitting (Home.handleScoreComplete data s) = Home.isSubmitting s.
Proof.
  unfold Home.handleScoreComplete.
  destruct (Home.pipelineResult s) as [[? [|h hs] ?]|]; by repeat split.
Qed.

Lemma handleActionComplete_keeps data s :
  Home.completedSteps (Home.handleActionComplete data s) = Home.completedSteps s
  /\ Home.stage (Home.handleActionComplete data s) = Home.stage s
  /\ Home.viewingFromSummary (Home.handleActionComplete data s)
     = Home.viewingFromSummary s
  /\ Home.isSubmitting (Home.handleActionComplete data s) = Home.isSubmitting s.
Proof.
  unfold Home.handleActionComplete.
  destruct (Home.pipelineResult s) as [[? ? [|h hs]]|]; try by repeat split.
  destruct (Api.transformActionPlanToActions h); by repeat split.
Qed.

Lemma wellStaged_initial : wellStaged Home.initial.
Proof. by repeat split. Qed.

Lemma wellStaged_step e s :
  wellStaged s -> Home.offered e s = true -> wellStaged (Home.handle e s).
Proof.
  unfold wellStaged, historyAt.
  destruct e; simpl;
    try (destruct (handleRiskComplete_keeps data s) as (-> & -> & -> & ->); tauto);
    try (destruct (handleScoreComplete_keeps data s) as (-> & -> & -> & ->); tauto);
    try (destruct (handleActionComplete_keeps data s) as (-> & -> & -> & ->); tauto);
    destruct s as [st obs rd sd ac cs sub err pr rr sr ar vs]; simpl;
    intros (Hhist & Hform & Hsub) Hoff; stage_facts; subst;
    try (destruct (Api.analyzeObservation data o));
    unfold Home.handleViewAgent;
    repeat match goal with
           | |- context [String.eqb ?a ?b] => destruct (String.eqb a b)
           end;
    simpl in *;
    repeat match goal with
           | H : true = true -> _ |- _ => specialize (H eq_refl)
           | H : ?x = ?x -> _ |- _ => specialize (H eq_refl)
           end;
    subst; simpl in *;
    try (repeat split; (reflexivity || discriminate || congruence || tauto)).
  all: repeat split; intros; try discriminate; try reflexivity;
    try (by destruct vs);
    match goal with
    | Hs : ?b = true -> _, H : ?b = true |- _ => by specialize (Hs H)
    end.
Qed.

Lemma reachable_wellStaged s : Home.reachable s -> wellStaged s.
Proof.
  induction 1 as [| e s _ IH Hoff];
    [apply wellStaged_initial | by apply wellStaged_step].
Qed.




(** The scenario's states are states the page can reach. *)
Lemma reachable_by e s t :
  Home.reachable s -> Home.offered e s = true -> Home.handle e s = t ->
  Home.reachable t.
Proof. intros Hs Hoff <-. by apply Home.reachable_step. Qed.

Ltac reach e s :=
  apply (reachable_by e s);
  [| vm_compute; reflexivity | vm_compute; reflexivity].

Lemma riskShown_reachable : Home.reachable Scenario.riskShown.
Proof.
  reach (Home.RiskComplete (RiskAnalyzer.analysisResult Scenario.riskScripted))
        Scenario.submitted.
  reach (Home.Settled Scenario.observation (Api.Ok Scenario.response))
        (Home.handle (Home.Submit Scenario.observation) Home.initial).
  reach (Home.Submit Scenario.observation) Home.initial.
  apply Home.reachable_initial.
Qed.

Lemma atSummary_reachable : Home.reachable Scenario.atSummary.
Proof.
  reach Home.ContinueToSummary Scenario.actionShown.
  reach (Home.ActionComplete (ActionPlanner.allTasks Scenario.actionScripted))
        (Home.handleContinueToAction Scenario.scoreShown).
  reach Home.ContinueToAction Scenario.scoreShown.
  reach (Home.ScoreComplete (ScoreManager.scoreResult Scenario.scoreScripted))
        (Home.handleContinueToScore Scenario.riskShown).
  reach Home.ContinueToScore Scenario.riskShown.
  apply riskShown_reachable.
Qed.

(** ** The event loop *)

Section LoopFacts.
Context {H K R : Type} (fire : H -> Timers.world H K R -> Timers.world H K R).

Lemma run_quiescent fuel w :
  Timers.queue w = [] -> Timers.run fire fuel w = w.
Proof.
  intros Hq. destruct fuel as [|fuel]; [reflexivity|].
  simpl. unfold Timers.step. by rewrite Hq.
Qed.

Lemma run_plus n m w :
  Timers.run fire (n + m) w = Timers.run fire m (Timers.run fire n w).
Proof.
  revert w. induction n as [|n IH]; intros w; [reflexivity|].
  simpl. destruct (Timers.step fire w) as [w'|] eqn:Hstep; [apply IH|].
  unfold Timers.step in Hstep.
  destruct (Timers.queue w) eqn:Hq; [|discriminate].
  symmetry. by apply run_quiescent.
Qed.

Lemma run_S n w w' :
  Timers.step fire w = Some w' ->
  Timers.run fire (S n) w = Timers.run fire n w'.
Proof. intros Hs. simpl. by rewrite Hs. Qed.

(** Once the loop has come to rest, more fuel changes nothing. *)
Lemma run_settled n m w :
  Timers.queue (Timers.run fire n w) = [] ->
  n <= m ->
  Timers.run fire m w = Timers.run fire n w.
Proof.
  intros Hq Hle. replace m with (n + (m - n)) by lia.
  rewrite run_plus. by apply run_quiescent.
Qed.

(** Reports are only ever added: when every handler only appends to the
    reports made so far, so does every run of the loop. *)
Hypothesis fire_appends :
  forall h w, exists l, Timers.signals (fire h w) = (Timers.signals w ++ l)%list.

Lemma step_appends w w' :
  Timers.step fire w = Some w' ->
  exists l, Timers.signals w' = (Timers.signals w ++ l)%list.
Proof.
  unfold Timers.step. destruct (Timers.queue w) as [|t q]; [discriminate|].
  intros [= <-].
  match goal with
  | |- context [fire ?h ?w0] => destruct (fire_appends h w0) as [l Hl]
  end.
  exists l. by rewrite Hl.
Qed.

Lemma run_appends n w :
  exists l, Timers.signals (Timers.run fire n w) = (Timers.signals w ++ l)%list.
Proof.
  revert w. induction n as [|n IH]; intros w.
  - exists []. by rewrite app_nil_r.
  - simpl. destruct (Timers.step fire w) as [w'|] eqn:Hstep.
    + destruct (step_appends _ _ Hstep) as [l1 Hl1].
      destruct (IH w') as [l2 Hl2].
      exists (l1 ++ l2)%list. by rewrite Hl2, Hl1, app_assoc.
    + exists []. by rewrite app_nil_r.
Qed.

(** So a run that ends with the single report [r] never held anything but
    no report or that one report on the way. *)
Lemma run_at_most n m w r :
  Timers.signals (Timers.run fire n w) = [ r ] ->
  m <= n ->
  Timers.signals (Timers.run fire m w) = []
  \/ Timers.signals (Timers.run fire m w) = [ r ].
Proof.
  intros Hn Hm. replace n with (m + (n - m)) in Hn by lia.
  rewrite run_plus in Hn.
  destruct (run_appends (n - m) (Timers.run fire m w)) as [l Hl].
  rewrite Hn in Hl.
  destruct (Timers.signals (Timers.run fire m w)) as [|x [|y xs]];
    [by left | right | discriminate Hl].
  simpl in Hl. by injection Hl as -> _.
Qed.

(** A run that has come to rest with the single report [r] made. *)
Lemma reportsOnce_intro n w r :
  Timers.queue (Timers.run fire n w) = [] ->
  Timers.signals (Timers.run fire n w) = [ r ] ->
  reportsOnce fire w r.
Proof.
  intros Hq Hsig. split.
  - intros m. destruct (Nat.le_gt_cases m n) as [Hle | Hgt].
    + by apply (run_at_most n m w r).
    + right. by rewrite (run_settled n m w Hq ltac:(lia)).
  - exists n. intros m Hm. by rewrite (run_settled n m w Hq Hm).
Qed.

End LoopFacts.

Lemma reportsNever_intro {H K R : Type}
    (fire : H -> Timers.world H K R -> Timers.world H K R) w :
  Timers.queue w = [] -> Timers.signals w = [] -> reportsNever fire w.
Proof. intros Hq Hsig m. by rewrite (run_quiescent fire m w Hq). Qed.

(** C8, on the code. In every state of [Home] the page can reach at the
    summary, "risk" is in the history and the summary offers to view the
    Risk stage. Doing so mounts the Risk animator with [skipAnimation] set:
    its first render is in the complete phase with [result] still [null]
    (the effect that sets it runs only after a render), and reads
    [result.hazard]. That render throws, so the page is torn down and there
    is no summary to return to, however long one waits. The two handlers by
    themselves do what the claim says: they leave the history and the three
    results alone and end at SUMMARY. *)
Theorem view_risk_tears_the_page_down fuel s :
  Home.reachable s ->
  Home.stage s = Home.SUMMARY ->
  let s1 := Home.handleViewAgent "risk" s in
  let p := Home.riskProps s1 in
  In "risk" (Home.completedSteps s)
  /\ Home.offered (Home.ViewAgent "risk") s = true
  /\ RiskAnalyzer.phase (RiskAnalyzer.initialState p) = RiskAnalyzer.complete
  /\ RiskAnalyzer.result (RiskAnalyzer.initialState p) = None
  /\ RiskAnalyzer.render p (RiskAnalyzer.initialState p) = None
  /\ RiskAnalyzer.mounted (Timers.comp (RiskAnalyzer.mount p)) = false
  /\ Home.viewRiskAndReturn fuel s = Home.TornDown
  /\ (let s' := Home.handleBackToSummary s1 in
      Home.completedSteps s' = Home.completedSteps s
      /\ Home.riskData s' = Home.riskData s
      /\ Home.scoreData s' = Home.scoreData s
      /\ Home.actions s' = Home.actions s
      /\ Home.stage s' = Home.SUMMARY).
Proof.
  intros Hreach Hstage s1 p.
  destruct (reachable_wellStaged s Hreach) as (Hhist & _ & _).
  assert (Hrender :
            RiskAnalyzer.render p (RiskAnalyzer.initialState p) = None).
  { unfold RiskAnalyzer.render. simpl.
    by destruct (Home.observation s). }
  assert (Hmount : RiskAnalyzer.mount p
                   = Timers.setComp (RiskAnalyzer.setMounted false)
                       {| Timers.now := 0; Timers.fresh := 0;
                          Timers.queue := [];
                          Timers.comp := RiskAnalyzer.initialState p;
                          Timers.signals := [] |}).
  { unfold RiskAnalyzer.mount. by rewrite Hrender. }
  split.
  { rewrite Hhist. unfold historyAt. rewrite Hstage.
    destruct (Home.viewingFromSummary s); simpl; tauto. }
  split; [simpl; by rewrite Hstage |].
  split; [reflexivity |]. split; [reflexivity |].
  split; [exact Hrender |].
  split; [by rewrite Hmount |].
  split; [| by repeat split].
  assert (Hq : Timers.queue (RiskAnalyzer.mount p) = [])
    by (by rewrite Hmount).
  unfold Home.viewRiskAndReturn. fold s1. fold p.
  rewrite (run_quiescent (RiskAnalyzer.fire p) fuel _ Hq).
  by rewrite Hmount.
Qed.

(** The scenario's state at the summary, the Risk stage viewed and an hour
    of turns waited. *)
Lemma view_risk_tears_the_page_down_witness :
  In "risk" (Home.completedSteps Scenario.atSummary)
  /\ Home.viewRiskAndReturn 3600 Scenario.atSummary = Home.TornDown.
Proof.
  pose proof (view_risk_tears_the_page_down 3600 Scenario.atSummary
                atSummary_reachable eq_refl) as H.
  split; [exact (proj1 H) |].
  exact (proj1 (proj2 (proj2 (proj2 (proj2 (proj2 (proj2 H))))))).
Defined.

(** ** The stage animators *)

(** *** Reports are only ever added *)

Section SignalFacts.
Context {H K R : Type}.
Implicit Types (w : Timers.world H K R) (h : H).

Lemma signals_setComp f w :
  Timers.signals (Timers.setComp f w) = Timers.signals w.
Proof. reflexivity. Qed.

Lemma signals_clearTimer id w :
  Timers.signals (Timers.clearTimer id w) = Timers.signals w.
Proof. by destruct id. Qed.

Lemma signals_arm h delay repeat w :
  Timers.signals (snd (Timers.arm h delay repeat w)) = Timers.signals w.
Proof. reflexivity. Qed.

End SignalFacts.

Create Rewrite HintDb signals.
#[local] Hint Rewrite @signals_setComp @signals_clearTimer @signals_arm : signals.

Ltac signals_cases :=
  repeat match goal with
         | |- context [if ?b then _ else _] => destruct b
         | |- context [match ?x with _ => _ end] => destruct x
         end;
  cbn [snd]; autorewrite with signals; try reflexivity.

Ltac signals_kept :=
  exists []; rewrite app_nil_r; signals_cases; fail.

Lemma risk_setState_signals f w :
  Timers.signals (RiskAnalyzer.setState f w) = Timers.signals w.
Proof. unfold RiskAnalyzer.setState. signals_cases. Qed.

Lemma risk_typingEffect_signals p w :
  Timers.signals (RiskAnalyzer.typingEffect p w) = Timers.signals w.
Proof.
  unfold RiskAnalyzer.typingEffect, Timers.setInterval.
  rewrite (surjective_pairing (Timers.arm _ _ _ _)). signals_cases.
Qed.

Lemma risk_typingCleanup_signals w :
  Timers.signals (RiskAnalyzer.typingCleanup w) = Timers.signals w.
Proof.
  unfold RiskAnalyzer.typingCleanup, Timers.clearInterval. signals_cases.
Qed.

#[local] Hint Rewrite risk_setState_signals risk_typingEffect_signals
  risk_typingCleanup_signals : signals.

Lemma risk_unmount_signals w :
  Timers.signals (RiskAnalyzer.unmount w) = Timers.signals w.
Proof.
  unfold RiskAnalyzer.unmount, Timers.clearInterval. cbn zeta.
  by autorewrite with signals.
Qed.

Lemma risk_commit_signals p w :
  Timers.signals (RiskAnalyzer.commit p w) = Timers.signals w.
Proof.
  unfold RiskAnalyzer.commit.
  destruct (RiskAnalyzer.mounted (Timers.comp w)); [| reflexivity].
  destruct (RiskAnalyzer.render p (Timers.comp w)); [reflexivity |].
  apply risk_unmount_signals.
Qed.

#[local] Hint Rewrite risk_unmount_signals risk_commit_signals : signals.

Lemma risk_fire_appends p h w :
  exists l,
    Timers.signals (RiskAnalyzer.fire p h w) = (Timers.signals w ++ l)%list.
Proof.
  unfold RiskAnalyzer.fire. rewrite risk_commit_signals.
  destruct h; cbn [RiskAnalyzer.callback];
    unfold Timers.setTimeout, Timers.clearInterval;
    try signals_kept.
  by eexists.
Qed.

Lemma score_setState_signals f w :
  Timers.signals (ScoreManager.setState f w) = Timers.signals w.
Proof. unfold ScoreManager.setState. signals_cases. Qed.

Lemma score_scoringEffect_signals skip w :
  Timers.signals (ScoreManager.scoringEffect skip w) = Timers.signals w.
Proof.
  unfold ScoreManager.scoringEffect, Timers.setInterval, Timers.setTimeout.
  rewrite (surjective_pairing (Timers.arm ScoreManager.SevTick _ _ _)).
  signals_cases.
Qed.

#[local] Hint Rewrite score_setState_signals score_scoringEffect_signals
  : signals.

Lemma score_fire_appends skip r h w :
  exists l,
    Timers.signals (ScoreManager.fireOn skip r h w)
    = (Timers.signals w ++ l)%list.
Proof.
  destruct h; cbn [ScoreManager.fireOn];
    unfold Timers.setTimeout, Timers.setInterval, Timers.clearInterval;
    try rewrite (surjective_pairing (Timers.arm ScoreManager.LikTick _ _ _));
    try signals_kept.
  by eexists.
Qed.

Lemma action_setState_signals f w :
  Timers.signals (ActionPlanner.setState f w) = Timers.signals w.
Proof. unfold ActionPlanner.setState. signals_cases. Qed.

Lemma action_scheduleReveals_signals plans i w :
  Timers.signals (ActionPlanner.scheduleReveals plans i w) = Timers.signals w.
Proof.
  revert i w. induction plans as [|plan rest IH]; intros i w; [reflexivity|].
  cbn [ActionPlanner.scheduleReveals]. unfold Timers.setTimeout.
  rewrite (surjective_pairing (Timers.arm _ _ _ _)), IH.
  by autorewrite with signals.
Qed.

Lemma action_clear_all_signals ids (w : ActionPlanner.World) :
  Timers.signals
    (fold_left (fun acc t => Timers.clearTimeout (Some t) acc) ids w)
  = Timers.signals w.
Proof.
  revert w. induction ids as [|i ids IH]; intros w; [reflexivity|].
  cbn [fold_left]. by rewrite IH.
Qed.

#[local] Hint Rewrite action_setState_signals action_scheduleReveals_signals
  action_clear_all_signals : signals.

Lemma action_generatingEffect_signals p w :
  Timers.signals (ActionPlanner.generatingEffect p w) = Timers.signals w.
Proof. unfold ActionPlanner.generatingEffect. signals_cases. Qed.

Lemma action_generatingCleanup_signals w :
  Timers.signals (ActionPlanner.generatingCleanup w) = Timers.signals w.
Proof. unfold ActionPlanner.generatingCleanup. signals_cases. Qed.

#[local] Hint Rewrite action_generatingEffect_signals
  action_generatingCleanup_signals : signals.

Lemma action_unmount_signals w :
  Timers.signals (ActionPlanner.unmount w) = Timers.signals w.
Proof.
  unfold ActionPlanner.unmount, Timers.clearInterval. cbn zeta.
  by autorewrite with signals.
Qed.

Lemma action_commit_signals p w :
  Timers.signals (ActionPlanner.commit p w) = Timers.signals w.
Proof.
  unfold ActionPlanner.commit.
  destruct (ActionPlanner.mounted (Timers.comp w)); [| reflexivity].
  destruct (ActionPlanner.render p (Timers.comp w)); [reflexivity |].
  apply action_unmount_signals.
Qed.

#[local] Hint Rewrite action_unmount_signals action_commit_signals : signals.

Lemma action_fire_appends p h w :
  exists l,
    Timers.signals (ActionPlanner.fire p h w) = (Timers.signals w ++ l)%list.
Proof.
  unfold ActionPlanner.fire. rewrite action_commit_signals.
  destruct h; cbn [ActionPlanner.callback];
    unfold Timers.setTimeout, Timers.clearInterval;
    try signals_kept.
  by eexists.
Qed.


(** *** The Risk animator's script, turn by turn *)

Section RiskScriptFacts.
Import Timers RiskAnalyzer RiskScript.
Variable o : Observation.t.
Variable api : option Hazard.t.

Let p : Props := mkProps (Some o) true api false.
Let text : string := hazardText p.
Let typingWorld := RiskScript.typingWorld (Some o) api.
Let settleWorld := RiskScript.settleWorld (Some o) api.
Let reportWorld := RiskScript.reportWorld (Some o) api.
Let restWorld := RiskScript.restWorld (Some o) api.

(** The category of the result can be put on screen. *)
Hypothesis Hcategory :
  React.childRenders (RiskData.category (analysisResult p)) = true.

(** Five turns of the scanning interval and the timeout that follows. *)
Lemma scan_phase : run (fire p) 6 (mount p) = typingWorld 0.
Proof. reflexivity. Qed.

Lemma typing_step k :
  k < String.length text ->
  step (fire p) (typingWorld k) = Some (typingWorld (S k)).
Proof.
  intros Hk. unfold step, typingWorld. simpl.
  unfold fire. cbn [callback]. unfold setState. simpl. fold text.
  destruct (String.length text <? k + 1)%nat eqn:E.
  { apply Nat.ltb_lt in E. lia. }
  rewrite Nat.add_1_r. reflexivity.
Qed.

Lemma string_slice0_all s : string_slice0 s (String.length s) = s.
Proof.
  unfold string_slice0. induction s as [|c s IH]; [reflexivity|].
  simpl. by rewrite IH.
Qed.

Lemma typing_last :
  step (fire p) (typingWorld (String.length text)) = Some settleWorld.
Proof.
  unfold step, typingWorld, settleWorld. simpl.
  unfold fire. cbn [callback]. unfold setState. simpl. fold text.
  destruct (String.length text <? String.length text + 1)%nat eqn:E.
  2: { apply Nat.ltb_ge in E. lia. }
  rewrite Nat.add_1_r, string_slice0_all. reflexivity.
Qed.

Lemma typing_phase k :
  k <= String.length text ->
  run (fire p) (String.length text - k) (typingWorld k)
  = typingWorld (String.length text).
Proof.
  intros Hk. remember (String.length text - k) as d eqn:Hd.
  revert k Hk Hd. induction d as [|d IH]; intros k Hk Hd.
  - replace k with (String.length text) by lia. reflexivity.
  - rewrite (run_S _ _ _ _ (typing_step k ltac:(lia))).
    apply IH; lia.
Qed.

Lemma settle_step : step (fire p) settleWorld = Some reportWorld.
Proof.
  unfold step, settleWorld, RiskScript.settleWorld. simpl.
  unfold fire. cbn [callback]. unfold setState. simpl.
  unfold commit, render. simpl. by rewrite Hcategory.
Qed.

Lemma report_step : step (fire p) reportWorld = Some restWorld.
Proof.
  unfold step, reportWorld, RiskScript.reportWorld. simpl.
  unfold fire. cbn [callback]. unfold onComplete. simpl.
  unfold commit, render. simpl. fold p. by rewrite Hcategory.
Qed.

(** The whole script: after [length text + 9] turns the loop is at rest with
    exactly one report made. *)
Lemma risk_script :
  run (fire p) (String.length text + 9) (mount p) = restWorld.
Proof.
  replace (String.length text + 9)
    with (6 + ((String.length text - 0) + (1 + (1 + 1)))) by lia.
  rewrite run_plus, scan_phase, run_plus, typing_phase by lia.
  rewrite (run_S _ _ _ _ typing_last).
  rewrite (run_S _ _ _ _ settle_step).
  rewrite (run_S _ _ _ _ report_step).
  reflexivity.
Qed.

(** A Risk animator unmounted once its text is typed out, while the settle
    timeout is armed, makes its report two turns of the event loop later. *)
Lemma risk_unmounted_while_settling :
  signals (unmount settleWorld) = []
  /\ phase (comp (unmount settleWorld)) = analyzing
  /\ mounted (comp (unmount settleWorld)) = false
  /\ signals (run (fire p) 2 (unmount settleWorld)) = [ analysisResult p ]
  /\ queue (run (fire p) 2 (unmount settleWorld)) = [].
Proof. by repeat split. Qed.

End RiskScriptFacts.

(** The props that render are those with an observation and a category
    that can be put on screen. *)
Lemma riskRenders_inv p :
  riskRenders p = true ->
  exists o,
    RiskAnalyzer.observation p = Some o
    /\ React.childRenders
         (RiskData.category (RiskAnalyzer.analysisResult p)) = true.
Proof.
  unfold riskRenders. destruct (RiskAnalyzer.observation p) as [o|];
    [| discriminate].
  intros Hcat. by exists o.
Qed.

(** A Risk animator activated in scripted mode, on props that render, makes
    exactly one report, with [analysisResult], and then rests. *)
Lemma risk_scripted_once p :
  RiskAnalyzer.skipAnimation p = false ->
  RiskAnalyzer.isActive p = true ->
  riskRenders p = true ->
  reportsOnce (RiskAnalyzer.fire p) (RiskAnalyzer.mount p)
    (RiskAnalyzer.analysisResult p).
Proof.
  intros Hskip Hactive Hrenders.
  destruct (riskRenders_inv p Hrenders) as (o & Hobs & Hcat).
  destruct p as [obs act api skip]. simpl in Hskip, Hactive, Hobs.
  subst skip act obs.
  set (p := RiskAnalyzer.mkProps (Some o) true api false) in *.
  apply (reportsOnce_intro _ (risk_fire_appends p)
           (String.length (RiskAnalyzer.hazardText p) + 9));
    unfold p; by rewrite (risk_script o api Hcat).
Qed.

(** A Risk animator activated in immediate mode starts in its complete
    phase with no result yet: its first render throws, so it never mounts,
    arms no timer and makes no report. *)
Lemma risk_immediate_dead p :
  RiskAnalyzer.skipAnimation p = true ->
  RiskAnalyzer.render p (RiskAnalyzer.initialState p) = None
  /\ RiskAnalyzer.mount p
     = {| Timers.now := 0; Timers.fresh := 0; Timers.queue := [];
          Timers.comp :=
            RiskAnalyzer.setMounted false (RiskAnalyzer.initialState p);
          Timers.signals := [] |}.
Proof.
  intros Hskip.
  assert (Hrender : RiskAnalyzer.render p (RiskAnalyzer.initialState p) = None).
  { unfold RiskAnalyzer.render, RiskAnalyzer.initialState.
    rewrite Hskip. simpl. rewrite andb_false_r.
    by destruct (RiskAnalyzer.observation p). }
  split; [exact Hrender |].
  unfold RiskAnalyzer.mount. by rewrite Hrender.
Qed.

(** *** The Score animator's script *)

(** With both meters climbing to a rating, 200 turns of the loop bring the
    script to rest with exactly one report (the longest script, both ratings
    5, takes 112 turns). *)
Lemma score_script r :
  rating (ScoreData.severity r) ->
  rating (ScoreData.likelihood r) ->
  let w :=
    Timers.run (ScoreManager.fireOn false r) 200
      (ScoreManager.mountOn false r true) in
  Timers.queue w = [] /\ Timers.signals w = [ r ].
Proof.
  destruct r as [severity likelihood riskScore category color].
  unfold rating. cbn [ScoreData.severity ScoreData.likelihood In].
  intros Hs Hl.
  repeat (destruct Hs as [<- | Hs]; [| try contradiction]);
    repeat (destruct Hl as [<- | Hl]; [| try contradiction]);
    vm_compute; split; reflexivity.
Qed.

Lemma scoreResult_rated p :
  match ScoreManager.apiData p with
  | Some a =>
      ratedOrAbsent (ScoredHazard.severity a)
      /\ ratedOrAbsent (ScoredHazard.likelihood a)
  | None => True
  end ->
  rating (ScoreData.severity (ScoreManager.scoreResult p))
  /\ rating (ScoreData.likelihood (ScoreManager.scoreResult p)).
Proof.
  unfold ScoreManager.scoreResult, ratedOrAbsent, rating.
  destruct (ScoreManager.apiData p) as [[sev lik rpn prio]|]; simpl.
  - intros [Hs Hl]. split.
    + destruct Hs as [-> | [-> | Hs]]; simpl; [tauto | vm_compute; tauto |].
      simpl in Hs. intuition (subst; vm_compute; tauto).
    + destruct Hl as [-> | [-> | Hl]]; simpl; [tauto | vm_compute; tauto |].
      simpl in Hl. intuition (subst; vm_compute; tauto).
  - intros _. tauto.
Qed.

(** A Score animator activated in scripted mode, with ratings from the
    backend or none, makes exactly one report, with [scoreResult], and then
    rests. *)
Lemma score_scripted_once p :
  ScoreManager.skipAnimation p = false ->
  ScoreManager.isActive p = true ->
  match ScoreManager.apiData p with
  | Some a =>
      ratedOrAbsent (ScoredHazard.severity a)
      /\ ratedOrAbsent (ScoredHazard.likelihood a)
  | None => True
  end ->
  reportsOnce (ScoreManager.fire p) (ScoreManager.mount p)
    (ScoreManager.scoreResult p).
Proof.
  intros Hskip Hactive Hrated.
  destruct (scoreResult_rated p Hrated) as [Hs Hl].
  destruct (score_script _ Hs Hl) as [Hq Hsig].
  unfold ScoreManager.fire, ScoreManager.mount. rewrite Hskip, Hactive.
  exact (reportsOnce_intro _ (score_fire_appends false _) 200 _ _ Hq Hsig).
Qed.

Lemma score_immediate_silent p :
  ScoreManager.skipAnimation p = true ->
  reportsNever (ScoreManager.fire p) (ScoreManager.mount p)
  /\ ScoreManager.result (Timers.comp (ScoreManager.mount p))
     = Some (ScoreManager.scoreResult p)
  /\ ScoreManager.phase (Timers.comp (ScoreManager.mount p))
     = ScoreManager.complete.
Proof.
  intros Hskip. unfold ScoreManager.mount. rewrite Hskip.
  assert (Hmount :
    ScoreManager.mountOn true (ScoreManager.scoreResult p) (ScoreManager.isActive p)
    = ScoreManager.mountOn true (ScoreManager.scoreResult p) true).
  { unfold ScoreManager.mountOn. by rewrite !orb_true_r. }
  rewrite Hmount. split; [by apply reportsNever_intro | by split].
Qed.

(** *** The Action animator's script, turn by turn *)

Section QueueFacts.
Context {H : Type}.

(** A timer due no earlier than every queued timer goes to the end. *)
Lemma enqueue_last (t : Timers.timer H) q :
  Forall (fun u => (Timers.due u <= Timers.due t)%Z) q ->
  Timers.enqueue t q = (q ++ [ t ])%list.
Proof.
  induction 1 as [|u q Hu _ IH]; [reflexivity|].
  simpl. destruct (Timers.due t <? Timers.due u)%Z eqn:E.
  - apply Z.ltb_lt in E. lia.
  - by rewrite IH.
Qed.

End QueueFacts.

Section ActionScriptFacts.
Import Timers ActionPlanner ActionScript.
Variable score : option ScoreData.t.
Variable api : option (list ActionPlan.t).

Let p : Props := mkProps score true api false.
Let plans : list Plan := actionPlans p.
Let n : nat := length plans.
Let revealTimer := ActionScript.revealTimer.
Let armingWorld := ActionScript.armingWorld.
Let revealedWorld := ActionScript.revealedWorld score api.
Let settleWorldA := ActionScript.settleWorld score api.
Let reportWorldA := ActionScript.reportWorld score api.
Let restWorldA := ActionScript.restWorld score api.

(** Every task of every plan can be put on screen. *)
Hypothesis Hrenders : forallb planRenders plans = true.

(** Then no render throws while the plans on screen are among them. *)
Lemma commit_renders (w : World) :
  forallb planRenders (visiblePlans (comp w)) = true -> commit p w = w.
Proof.
  intros Hvisible. unfold commit, render. rewrite Hvisible.
  destruct (mounted (comp w)); [| reflexivity].
  destruct (phase (comp w)); reflexivity.
Qed.

Lemma take_renders j : forallb planRenders (take j plans) = true.
Proof.
  apply forallb_forall. intros plan Hin.
  apply (proj1 (forallb_forall _ _) Hrenders).
  apply list_elem_of_In. apply list_elem_of_In in Hin.
  by apply (subseteq_take j plans).
Qed.

Lemma actionPlans_nonempty : 0 < n.
Proof.
  unfold n, plans, actionPlans. simpl.
  destruct api as [[|plan rest]|]; simpl; lia.
Qed.

(** Five turns of the planning interval, then the timeout that enters the
    generating phase and arms one reveal timeout per plan. *)
Lemma arming rest i :
  scheduleReveals rest i (armingWorld i) = armingWorld (i + length rest).
Proof.
  revert i. induction rest as [|plan rest IH]; intros i.
  - simpl. by rewrite Nat.add_0_r.
  - simpl. unfold setTimeout, arm. simpl.
    rewrite enqueue_last.
    2: { apply Forall_forall. intros u Hu. apply list_elem_of_In in Hu.
         apply in_map_iff in Hu as (k & <- & Hk). apply in_seq in Hk.
         simpl. lia. }
    replace (i + S (length rest)) with (S i + length rest) by lia.
    rewrite <- IH. f_equal. unfold armingWorld, ActionScript.armingWorld.
    rewrite !seq_S, !map_app. reflexivity.
Qed.

Lemma planning_phase : run (fire p) 6 (mount p) = revealedWorld 0.
Proof.
  change (commit p (scheduleReveals plans 0 (armingWorld 0))
          = revealedWorld 0).
  rewrite arming, commit_renders by reflexivity.
  unfold armingWorld, revealedWorld, ActionScript.armingWorld,
    ActionScript.revealedWorld. simpl.
  fold p plans n. by rewrite Nat.sub_0_r.
Qed.

Lemma reveal_step j :
  S j < n ->
  step (fire p) (revealedWorld j) = Some (revealedWorld (S j)).
Proof.
  intros Hj. unfold step, revealedWorld, ActionScript.revealedWorld.
  fold p plans n.
  replace (n - j) with (S (n - S j)) by lia. simpl.
  unfold fire. cbn [callback].
  destruct (lookup_lt_is_Some_2 plans j ltac:(fold n; lia)) as [plan Hplan].
  fold plans. rewrite Hplan. fold n.
  destruct (Nat.eqb j (n - 1)) eqn:E.
  { apply Nat.eqb_eq in E. lia. }
  unfold setState. simpl.
  rewrite commit_renders.
  - simpl. by rewrite (take_S_r _ _ _ Hplan).
  - simpl. rewrite <- (take_S_r _ _ _ Hplan). apply take_renders.
Qed.

Lemma reveal_last :
  step (fire p) (revealedWorld (n - 1)) = Some settleWorldA.
Proof.
  pose proof actionPlans_nonempty as Hn.
  unfold step, revealedWorld, ActionScript.revealedWorld.
  fold p plans n.
  replace (n - (n - 1)) with 1 by lia. simpl.
  unfold fire. cbn [callback].
  destruct (lookup_lt_is_Some_2 plans (n - 1) ltac:(fold n; lia)) as [plan Hplan].
  fold plans. rewrite Hplan. fold n.
  rewrite Nat.eqb_refl.
  unfold setState, setTimeout, arm, settleWorldA, ActionScript.settleWorld,
    ActionScript.lastReveal. simpl. fold p plans n.
  rewrite commit_renders.
  2: { simpl. rewrite <- (take_S_r _ _ _ Hplan). apply take_renders. }
  simpl. rewrite <- (take_S_r _ _ _ Hplan).
  replace (S (n - 1)) with n by lia.
  rewrite take_ge by (fold n; lia).
  destruct n as [|k] eqn:En; [lia|]. simpl.
  rewrite Nat.sub_0_r. reflexivity.
Qed.

Lemma reveal_phase j :
  j <= n - 1 ->
  run (fire p) (n - 1 - j) (revealedWorld j) = revealedWorld (n - 1).
Proof.
  intros Hj. remember (n - 1 - j) as d eqn:Hd.
  revert j Hj Hd. induction d as [|d IH]; intros j Hj Hd.
  - replace j with (n - 1) by lia. reflexivity.
  - rewrite (run_S _ _ _ _ (reveal_step j ltac:(lia))).
    apply IH; lia.
Qed.

(** Clearing timers changes nothing while no timer is armed. *)
Lemma clear_all_quiescent (ids : list nat) (w : World) :
  queue w = [] ->
  fold_left (fun acc t => clearTimeout (Some t) acc) ids w = w.
Proof.
  intros Hq. induction ids as [|i ids IH]; [reflexivity|].
  cbn [fold_left].
  assert (Hclear : clearTimeout (Some i) w = w).
  { destruct w as [t f q c s]. simpl in Hq. subst q. reflexivity. }
  rewrite Hclear. exact IH.
Qed.

Lemma settle_stepA : step (fire p) settleWorldA = Some reportWorldA.
Proof.
  unfold step, settleWorldA, ActionScript.settleWorld. simpl.
  unfold fire. cbn [callback]. simpl.
  unfold generatingCleanup. simpl.
  rewrite clear_all_quiescent by reflexivity.
  by rewrite commit_renders by exact Hrenders.
Qed.

Lemma report_stepA : step (fire p) reportWorldA = Some restWorldA.
Proof.
  unfold step, reportWorldA, ActionScript.reportWorld. simpl.
  unfold fire. cbn [callback]. unfold onComplete. simpl.
  by rewrite commit_renders by exact Hrenders.
Qed.

(** The whole script: after [n + 8] turns, [n] the number of plans, the
    loop is at rest with exactly one report made. *)
Lemma action_script : run (fire p) (n + 8) (mount p) = restWorldA.
Proof.
  pose proof actionPlans_nonempty as Hn.
  replace (n + 8) with (6 + ((n - 1 - 0) + (1 + (1 + 1)))) by lia.
  rewrite run_plus, planning_phase, run_plus, reveal_phase by lia.
  rewrite (run_S _ _ _ _ reveal_last).
  rewrite (run_S _ _ _ _ settle_stepA).
  rewrite (run_S _ _ _ _ report_stepA).
  reflexivity.
Qed.

End ActionScriptFacts.

(** An Action animator activated in scripted mode, on plans that render,
    makes exactly one report, with the tasks of all plans, and then rests. *)
Lemma action_scripted_once p :
  ActionPlanner.skipAnimation p = false ->
  ActionPlanner.isActive p = true ->
  actionRenders p = true ->
  reportsOnce (ActionPlanner.fire p) (ActionPlanner.mount p)
    (ActionPlanner.allTasks p).
Proof.
  destruct p as [score act api skip]. simpl. intros -> -> Hrenders.
  set (p := ActionPlanner.mkProps score true api false).
  apply (reportsOnce_intro _ (action_fire_appends p)
           (length (ActionPlanner.actionPlans p) + 8));
    unfold p; by rewrite (action_script score api Hrenders).
Qed.

(** An Action animator activated in immediate mode has all its plans on
    screen after its first effects, and no timer armed. *)
Lemma action_immediate_mount p :
  ActionPlanner.skipAnimation p = true ->
  ActionPlanner.mount p
  = ActionPlanner.commit p
      {| Timers.now := 0; Timers.fresh := 0; Timers.queue := [];
         Timers.comp :=
           ActionPlanner.mkState ActionPlanner.complete 0
             (ActionPlanner.actionPlans p) true true true None [];
         Timers.signals := [] |}.
Proof.
  destruct p as [score act api skip]. simpl. intros ->.
  assert (Hlen : (0 <? length (ActionPlanner.actionPlans
                                 (ActionPlanner.mkProps score act api true)))%nat
                 = true).
  { apply Nat.ltb_lt. unfold ActionPlanner.actionPlans. simpl.
    destruct api as [[|plan rest]|]; simpl; lia. }
  unfold ActionPlanner.mount, ActionPlanner.render, ActionPlanner.initialState.
  cbn [ActionPlanner.skipAnimation ActionPlanner.isActive ActionPlanner.phase
       ActionPlanner.visiblePlans forallb negb andb orb].
  rewrite Hlen, andb_false_r, orb_true_r. reflexivity.
Qed.

(** When its plans render it stays like that and makes no report. *)
Lemma action_immediate_silent p :
  ActionPlanner.skipAnimation p = true ->
  actionRenders p = true ->
  reportsNever (ActionPlanner.fire p) (ActionPlanner.mount p)
  /\ ActionPlanner.mounted (Timers.comp (ActionPlanner.mount p)) = true
  /\ ActionPlanner.visiblePlans (Timers.comp (ActionPlanner.mount p))
     = ActionPlanner.actionPlans p
  /\ ActionPlanner.phase (Timers.comp (ActionPlanner.mount p))
     = ActionPlanner.complete.
Proof.
  intros Hskip Hrenders. rewrite (action_immediate_mount p Hskip).
  unfold ActionPlanner.commit, ActionPlanner.render. simpl.
  rewrite Hskip. simpl. rewrite andb_false_r.
  unfold actionRenders in Hrenders. rewrite Hrenders.
  split; [by apply reportsNever_intro | by repeat split].
Qed.

(** When one of them does not, the render that follows throws: the
    animator is torn down, with no timer armed and no report made. *)
Lemma action_immediate_dead p :
  ActionPlanner.skipAnimation p = true ->
  actionRenders p = false ->
  reportsNever (ActionPlanner.fire p) (ActionPlanner.mount p)
  /\ ActionPlanner.mounted (Timers.comp (ActionPlanner.mount p)) = false.
Proof.
  intros Hskip Hrenders. rewrite (action_immediate_mount p Hskip).
  unfold ActionPlanner.commit, ActionPlanner.render. simpl.
  rewrite Hskip. simpl. rewrite andb_false_r.
  unfold actionRenders in Hrenders. rewrite Hrenders.
  split; [by apply reportsNever_intro | reflexivity].
Qed.

(** What an animator shows or reports depends on the backend data and the
    observation only, not on the mode it is activated in. *)
Lemma result_independent_of_mode :
  (forall obs api active skip,
     RiskAnalyzer.analysisResult (RiskAnalyzer.mkProps obs active api skip)
     = RiskAnalyzer.analysisResult (RiskAnalyzer.mkProps obs true api false))
  /\ (forall risk api active skip,
        ScoreManager.scoreResult (ScoreManager.mkProps risk active api skip)
        = ScoreManager.scoreResult (ScoreManager.mkProps risk true api false))
  /\ (forall score api active skip,
        ActionPlanner.actionPlans (ActionPlanner.mkProps score active api skip)
        = ActionPlanner.actionPlans (ActionPlanner.mkProps score true api false)).
Proof. by repeat split. Qed.

(** *** Deactivation *)

(** C2. Each animator, mounted in scripted mode as [Home] mounts it, and
    unmounted before its complete phase: the Risk animator 5400 ms in (in the
    analyzing phase, the text typed out), the Score animator 3600 ms in (in
    the scoring phase), the Action animator 4400 ms in (in the generating
    phase, the last plan revealed). In each case no report has been made at
    that point, every timer due by then has fired, timers are still armed
    after the cleanups have run, and when the event loop has run on the
    animator has made its report. *)
Theorem unmounted_animator_still_reports :
  (RiskAnalyzer.phase (Timers.comp (Scenario.riskInterrupted 5400))
   = RiskAnalyzer.analyzing
   /\ RiskAnalyzer.mounted (Timers.comp (Scenario.riskInterrupted 5400)) = false
   /\ Timers.signals (Scenario.riskInterrupted 5400) = []
   /\ Timers.allDueAfter 5400 (Scenario.riskInterrupted 5400) = true
   /\ map Timers.handler (Timers.queue (Scenario.riskInterrupted 5400))
      = [ RiskAnalyzer.Settle ]
   /\ Timers.signals
        (Timers.run (RiskAnalyzer.fire Scenario.riskScripted) 200
           (Scenario.riskInterrupted 5400))
      = [ RiskAnalyzer.analysisResult Scenario.riskScripted ])
  /\ (ScoreManager.phase (Timers.comp (Scenario.scoreInterrupted 3600))
      = ScoreManager.scoring
      /\ ScoreManager.mounted (Timers.comp (Scenario.scoreInterrupted 3600)) = false
      /\ Timers.signals (Scenario.scoreInterrupted 3600) = []
      /\ Timers.allDueAfter 3600 (Scenario.scoreInterrupted 3600) = true
      /\ map Timers.handler (Timers.queue (Scenario.scoreInterrupted 3600))
         = [ ScoreManager.SevTick; ScoreManager.LikStart ]
      /\ Timers.signals
           (Timers.run (ScoreManager.fire Scenario.scoreScripted) 200
              (Scenario.scoreInterrupted 3600))
         = [ ScoreManager.scoreResult Scenario.scoreScripted ])
  /\ (ActionPlanner.phase (Timers.comp (Scenario.actionInterrupted 4400))
      = ActionPlanner.generating
      /\ ActionPlanner.mounted (Timers.comp (Scenario.actionInterrupted 4400)) = false
      /\ Timers.signals (Scenario.actionInterrupted 4400) = []
      /\ Timers.allDueAfter 4400 (Scenario.actionInterrupted 4400) = true
      /\ map Timers.handler (Timers.queue (Scenario.actionInterrupted 4400))
         = [ ActionPlanner.Settle ]
      /\ Timers.signals
           (Timers.run (ActionPlanner.fire Scenario.actionScripted) 200
              (Scenario.actionInterrupted 4400))
         = [ ActionPlanner.allTasks Scenario.actionScripted ]).
Proof. repeat split; vm_compute; reflexivity. Qed.

(** Unmounted in its first phase, each animator has every timer cleared and
    never reports. *)
Lemma unmounted_in_first_phase_is_silent :
  Timers.queue (Scenario.riskInterrupted 2000) = []
  /\ Timers.signals (Scenario.riskInterrupted 2000) = []
  /\ Timers.queue (Scenario.scoreInterrupted 2000) = []
  /\ Timers.signals (Scenario.scoreInterrupted 2000) = []
  /\ Timers.queue (Scenario.actionInterrupted 2000) = []
  /\ Timers.signals (Scenario.actionInterrupted 2000) = [].
Proof. repeat split; vm_compute; reflexivity. Qed.

(** *** Reports per activation *)

(** C3, as worded, fails for immediate mode: the Score animator that
    [Home] mounts when the Score stage is re-entered from the summary is in
    immediate mode and active, and never makes a report, however long the
    event loop runs. *)
Lemma review_activation_makes_no_report :
  ScoreManager.skipAnimation Scenario.scoreReviewed = true
  /\ ScoreManager.isActive Scenario.scoreReviewed = true
  /\ ~ (exists m,
          length (Timers.signals
                    (Timers.run (ScoreManager.fire Scenario.scoreReviewed) m
                       (ScoreManager.mount Scenario.scoreReviewed))) = 1).
Proof.
  split; [reflexivity |]. split; [reflexivity |].
  intros [m Hm].
  destruct (score_immediate_silent Scenario.scoreReviewed eq_refl)
    as [Hnever _].
  destruct (Hnever m) as [Hsig _].
  rewrite Hsig in Hm. discriminate Hm.
Qed.

(** C3, amended. Every activation of a stage animator in scripted mode, on
    data it can put on screen (Risk: an observation and a category that
    render; Score: the backend's severity and likelihood on the 1-to-5
    scale, zero or absent; Action: tasks that render), makes exactly one
    report, carrying the animator's result: at every turn of the event loop
    the reports made are none or that one, and from some turn on that report
    is made and no timer is armed. Every activation of the Score animator,
    and of the Action animator on tasks that render, in immediate mode makes
    no report at all: the animator shows at once, in its complete phase, the
    result that the same inputs give in scripted mode, and arms no timer;
    the stage is marked ready by [handleViewAgent] itself, which is also
    what puts the animator in immediate mode. *)
Theorem reports_per_activation :
  (forall p,
     RiskAnalyzer.skipAnimation p = false ->
     RiskAnalyzer.isActive p = true ->
     riskRenders p = true ->
     reportsOnce (RiskAnalyzer.fire p) (RiskAnalyzer.mount p)
       (RiskAnalyzer.analysisResult p))
  /\ (forall p,
        ScoreManager.skipAnimation p = false ->
        ScoreManager.isActive p = true ->
        match ScoreManager.apiData p with
        | Some a =>
            ratedOrAbsent (ScoredHazard.severity a)
            /\ ratedOrAbsent (ScoredHazard.likelihood a)
        | None => True
        end ->
        reportsOnce (ScoreManager.fire p) (ScoreManager.mount p)
          (ScoreManager.scoreResult p))
  /\ (forall p,
        ActionPlanner.skipAnimation p = false ->
        ActionPlanner.isActive p = true ->
        actionRenders p = true ->
        reportsOnce (ActionPlanner.fire p) (ActionPlanner.mount p)
          (ActionPlanner.allTasks p))
  /\ (forall p,
        ScoreManager.skipAnimation p = true ->
        reportsNever (ScoreManager.fire p) (ScoreManager.mount p)
        /\ ScoreManager.result (Timers.comp (ScoreManager.mount p))
           = Some (ScoreManager.scoreResult p)
        /\ ScoreManager.phase (Timers.comp (ScoreManager.mount p))
           = ScoreManager.complete)
  /\ (forall p,
        ActionPlanner.skipAnimation p = true ->
        actionRenders p = true ->
        reportsNever (ActionPlanner.fire p) (ActionPlanner.mount p)
        /\ ActionPlanner.mounted (Timers.comp (ActionPlanner.mount p)) = true
        /\ ActionPlanner.visiblePlans (Timers.comp (ActionPlanner.mount p))
           = ActionPlanner.actionPlans p
        /\ ActionPlanner.phase (Timers.comp (ActionPlanner.mount p))
           = ActionPlanner.complete)
  /\ (forall risk api active skip,
        ScoreManager.scoreResult (ScoreManager.mkProps risk active api skip)
        = ScoreManager.scoreResult (ScoreManager.mkProps risk true api false))
  /\ (forall score api active skip,
        ActionPlanner.actionPlans (ActionPlanner.mkProps score active api skip)
        = ActionPlanner.actionPlans (ActionPlanner.mkProps score true api false))
  /\ (forall s,
        Home.riskReady (Home.handleViewAgent "risk" s) = true
        /\ Home.scoreReady (Home.handleViewAgent "score" s) = true
        /\ Home.actionReady (Home.handleViewAgent "action" s) = true
        /\ ScoreManager.skipAnimation
             (Home.scoreProps (Home.handleViewAgent "score" s)) = true
        /\ ActionPlanner.skipAnimation
             (Home.actionProps (Home.handleViewAgent "action" s)) = true).
Proof.
  split; [exact risk_scripted_once |].
  split; [exact score_scripted_once |].
  split; [exact action_scripted_once |].
  split; [exact score_immediate_silent |].
  split; [exact action_immediate_silent |].
  split; [reflexivity |]. split; [reflexivity |].
  intros s. by repeat split.
Qed.

(** The three animators as mounted on the way to the summary, and the
    Score and Action animators as mounted on re-entry from the summary. *)
Lemma reports_per_activation_witness :
  reportsOnce (RiskAnalyzer.fire Scenario.riskScripted)
    (RiskAnalyzer.mount Scenario.riskScripted)
    (RiskAnalyzer.analysisResult Scenario.riskScripted)
  /\ reportsOnce (ScoreManager.fire Scenario.scoreScripted)
       (ScoreManager.mount Scenario.scoreScripted)
       (ScoreManager.scoreResult Scenario.scoreScripted)
  /\ reportsOnce (ActionPlanner.fire Scenario.actionScripted)
       (ActionPlanner.mount Scenario.actionScripted)
       (ActionPlanner.allTasks Scenario.actionScripted)
  /\ reportsNever (ScoreManager.fire Scenario.scoreReviewed)
       (ScoreManager.mount Scenario.scoreReviewed)
  /\ reportsNever (ActionPlanner.fire Scenario.actionReviewed)
       (ActionPlanner.mount Scenario.actionReviewed).
Proof.
  split; [| split; [| split; [| split]]].
  - exact (proj1 reports_per_activation Scenario.riskScripted
             eq_refl eq_refl eq_refl).
  - refine (proj1 (proj2 reports_per_activation) Scenario.scoreScripted
              eq_refl eq_refl _).
    vm_compute. tauto.
  - exact (proj1 (proj2 (proj2 reports_per_activation))
             Scenario.actionScripted eq_refl eq_refl eq_refl).
  - exact (proj1 (proj1 (proj2 (proj2 (proj2 reports_per_activation)))
                    Scenario.scoreReviewed eq_refl)).
  - exact (proj1 (proj1 (proj2 (proj2 (proj2 (proj2 reports_per_activation))))
                    Scenario.actionReviewed eq_refl eq_refl)).
Defined.

(* ===================================================================== *)
(** * Part II, continued: further facts about the code *)
(* ===================================================================== *)

Import Notions2.

(** ** The animators' results against the transformation layer *)

(** The 3-to-5 clamp of the transformation layer's [extractKeywords] has no
    effect: the result is the first five matching terms. *)
Lemma api_extractKeywords_first_five hazardDesc observationDesc :
  Api.extractKeywords hazardDesc observationDesc
  = take 5
      (List.filter
         (fun term =>
            includes
              (toLowerCase (template_string hazardDesc ++ " "
                            ++ template_string observationDesc)) term)
         Api.commonSafetyTerms).
Proof.
  unfold Api.extractKeywords, slice0.
  set (found := List.filter _ _).
  destruct (Nat.le_gt_cases 5 (length found)) as [Hlen | Hlen].
  - by replace (Nat.min 5 (Nat.max 3 (length found))) with 5 by lia.
  - rewrite !take_ge by lia. reflexivity.
Qed.

Lemma string_or_empty s : string_or (Some s) "" = s.
Proof.
  unfold string_or, truthy_string.
  destruct (String.eqb_spec s ""); by subst.
Qed.

Lemma animator_keywords d o :
  RiskAnalyzer.extractKeywords (Some d) (Some o)
  = match Api.extractKeywords (Some d) (Some o) with
    | [] => [ "safety"; "hazard"; "risk" ]
    | keywords => keywords
    end.
Proof.
  rewrite api_extractKeywords_first_five.
  unfold RiskAnalyzer.extractKeywords, slice0.
  rewrite !string_or_empty. cbn [template_string].
  change RiskAnalyzer.commonSafetyTerms with Api.commonSafetyTerms.
  destruct (List.filter _ Api.commonSafetyTerms) as [|term found];
    reflexivity.
Qed.

(** X1. For a hazard description and an observation description that are
    both present, the Risk animator's keywords are the transformation
    layer's whenever those are not empty, and the three fallback terms
    otherwise; either way they are at most five terms of the shared
    vocabulary, in its order. *)
Theorem keywords_of_the_two_copies d o :
  RiskAnalyzer.extractKeywords (Some d) (Some o)
  = match Api.extractKeywords (Some d) (Some o) with
    | [] => [ "safety"; "hazard"; "risk" ]
    | keywords => keywords
    end
  /\ length (Api.extractKeywords (Some d) (Some o)) <= 5
  /\ sublist (Api.extractKeywords (Some d) (Some o)) Api.commonSafetyTerms.
Proof.
  split; [apply animator_keywords | apply extractKeywords_at_most_five].
Qed.

(** X2. When the backend hazard has a non-empty description and a confidence
    that is neither zero nor NaN, and some vocabulary term matches, the
    result the Risk animator shows and reports is exactly the view-model the
    transformation layer derives (the one [Home] stores). *)
Theorem risk_animator_agrees_with_transformation h obs d c active skip :
  Hazard.description h = Some d ->
  d <> "" ->
  Hazard.confidence h = Some c ->
  truthy_number c = true ->
  Api.extractKeywords (Some d) (Some (Observation.description obs)) <> [] ->
  RiskAnalyzer.analysisResult
    (RiskAnalyzer.mkProps (Some obs) active (Some h) skip)
  = Api.transformHazardToRiskData h obs.
Proof.
  intros Hd Hne Hc Htruthy Hkeys.
  unfold RiskAnalyzer.analysisResult, RiskAnalyzer.hazardText,
    Api.transformHazardToRiskData.
  cbn [RiskAnalyzer.apiData RiskAnalyzer.observation option_map].
  rewrite Hd, Hc. cbn [to_number number_or]. rewrite Htruthy.
  rewrite animator_keywords.
  destruct (Api.extractKeywords _ _) as [|k ks] eqn:E; [done |].
  unfold string_or, truthy_string.
  destruct (String.eqb_spec d ""); [done |]. reflexivity.
Qed.

(** The scenario's hazard and observation. *)
Lemma risk_animator_agrees_with_transformation_witness :
  RiskAnalyzer.analysisResult
    (RiskAnalyzer.mkProps (Some Scenario.observation) true
       (Some Scenario.hazard) false)
  = Api.transformHazardToRiskData Scenario.hazard Scenario.observation.
Proof.
  apply (risk_animator_agrees_with_transformation Scenario.hazard
           Scenario.observation "Unguarded scaffold edge" 0.92%float).
  - reflexivity.
  - discriminate.
  - reflexivity.
  - vm_compute. reflexivity.
  - vm_compute. discriminate.
Defined.

(** X3. When the backend's scored hazard carries a severity, a likelihood
    and an rpn that are neither zero nor NaN, the result the Score animator
    shows and reports is exactly the view-model the transformation layer
    derives, whatever the priority. *)
Theorem score_animator_agrees_with_transformation a sev lik rpn risk active skip :
  ScoredHazard.severity a = Some sev -> truthy_number sev = true ->
  ScoredHazard.likelihood a = Some lik -> truthy_number lik = true ->
  ScoredHazard.rpn a = Some rpn -> truthy_number rpn = true ->
  ScoreManager.scoreResult (ScoreManager.mkProps risk active (Some a) skip)
  = Api.transformScoredHazardToScoreData a.
Proof.
  intros Hs Hts Hl Htl Hr Htr.
  unfold ScoreManager.scoreResult, Api.transformScoredHazardToScoreData.
  cbn [ScoreManager.apiData]. rewrite Hs, Hl, Hr. cbn [number_or].
  by rewrite Hts, Htl, Htr.
Qed.

Lemma score_animator_agrees_with_transformation_witness :
  let a :=
    {| ScoredHazard.severity := Some 4%float;
       ScoredHazard.likelihood := Some 3%float;
       ScoredHazard.rpn := Some 12%float;
       ScoredHazard.priority := Some "HIGH" |} in
  ScoreManager.scoreResult (ScoreManager.mkProps None true (Some a) false)
  = Api.transformScoredHazardToScoreData a.
Proof.
  intros a.
  apply (score_animator_agrees_with_transformation a 4%float 3%float 12%float);
    solve [ reflexivity | vm_compute; reflexivity ].
Defined.

(** X4. For a plan whose [tasks] and [standards_refs] are lists, the items
    the Action animator builds (at any plan position) and the items the
    transformation layer derives agree, position by position, on title,
    description, OSHA code, priority, control type, responsible role and
    duration; they differ only in id, icon and materials default. *)
Theorem action_items_agree_with_transformation plan tasks refs planIdx :
  ActionPlan.tasks plan = Some tasks ->
  ActionPlan.standards_refs plan = Some refs ->
  exists items,
    Api.transformActionPlanToActions plan = Some items
    /\ map sharedFields
         (ActionPlanner.tasks (ActionPlanner.planOfApi planIdx plan))
       = map sharedFields items.
Proof.
  intros Htasks Hrefs.
  exists (imap (Api.actionOfTask refs) tasks). split.
  - unfold Api.transformActionPlanToActions. rewrite Htasks, Hrefs.
    by destruct tasks.
  - cbn [ActionPlanner.planOfApi ActionPlanner.tasks]. rewrite Htasks.
    change (default [] (Some tasks)) with tasks. apply list_eq. intros i.
    rewrite !list_lookup_fmap, !list_lookup_imap.
    destruct (tasks !! i) as [task|]; [| reflexivity].
    cbn [fmap option_fmap option_map]. f_equal.
    unfold sharedFields, ActionPlanner.taskOfPlan, Api.actionOfTask,
      Api.firstStandardOr. cbn. by rewrite Hrefs.
Qed.

Lemma action_items_agree_with_transformation_witness :
  exists items,
    Api.transformActionPlanToActions Scenario.plan = Some items
    /\ map sharedFields
         (ActionPlanner.tasks (ActionPlanner.planOfApi 0 Scenario.plan))
       = map sharedFields items.
Proof.
  exact (action_items_agree_with_transformation Scenario.plan
           [ Scenario.task; Scenario.task ] [ "OSHA 1926.451" ] 0
           eq_refl eq_refl).
Defined.

(** X5. A scored hazard whose priority is absent, or is a string that is
    neither one of the four priorities nor the name of a member of
    [Object.prototype], is shown as "Medium" in yellow, by the
    transformation layer and by the Score animator alike. *)
Theorem unknown_priority_is_medium a risk active skip :
  property_key (ScoredHazard.priority a)
    ∉ [ "CRITICAL"; "HIGH"; "MEDIUM"; "LOW" ] ->
  property_key (ScoredHazard.priority a) ∉ Object_prototype_keys ->
  let stored := Api.transformScoredHazardToScoreData a in
  let shown :=
    ScoreManager.scoreResult (ScoreManager.mkProps risk active (Some a) skip) in
  ScoreData.category stored = Some "Medium"
  /\ ScoreData.color stored = Some "yellow"
  /\ ScoreData.category shown = Some "Medium"
  /\ ScoreData.color shown = Some "yellow".
Proof.
  intros Hkey Hproto.
  assert (Hget : get Api.priorityCategoryMap
                   (property_key (ScoredHazard.priority a)) = Undefined).
  { unfold get, Api.priorityCategoryMap.
    rewrite not_elem_of_list_to_map_1; [| exact Hkey].
    by rewrite bool_decide_eq_false_2. }
  unfold Api.transformScoredHazardToScoreData, ScoreManager.scoreResult.
  cbn [ScoreManager.apiData ScoreData.category ScoreData.color].
  change ScoreManager.mapPriorityToCategory with Api.priorityMapping.
  unfold Api.priorityMapping. rewrite Hget. by repeat split.
Qed.

Lemma unknown_priority_is_medium_witness :
  let a :=
    {| ScoredHazard.severity := Some 2%float;
       ScoredHazard.likelihood := Some 2%float;
       ScoredHazard.rpn := Some 4%float;
       ScoredHazard.priority := Some "URGENT" |} in
  ScoreData.category (Api.transformScoredHazardToScoreData a) = Some "Medium"
  /\ ScoreData.color (Api.transformScoredHazardToScoreData a) = Some "yellow"
  /\ ScoreData.category
       (ScoreManager.scoreResult (ScoreManager.mkProps None true (Some a) false))
     = Some "Medium"
  /\ ScoreData.color
       (ScoreManager.scoreResult (ScoreManager.mkProps None true (Some a) false))
     = Some "yellow".
Proof.
  intros a.
  apply (unknown_priority_is_medium a None true false);
    by apply (bool_decide_unpack _).
Defined.

(** ** More about the orchestrator *)

Lemma resultsPresent_initial : resultsPresent Home.initial.
Proof.
  unfold resultsPresent. simpl.
  repeat split; intros H; try discriminate H; try done;
    try (by destruct H as [[] ?]); intuition discriminate.
Qed.

Ltac present_solve :=
  repeat split; intros;
  repeat match goal with
         | |- is_Some (Some _) => by eexists
         | H : is_Some None |- _ => by destruct H
         | H : ?x <> ?x |- _ => by destruct H
         end;
  try discriminate; try tauto; try (intuition (discriminate || congruence)).

Lemma resultsPresent_step e s :
  wellStaged s -> resultsPresent s -> Home.offered e s = true ->
  resultsPresent (Home.handle e s).
Proof.
  intros (Hhist & Hform & Hsub) HP Hoff. unfold resultsPresent in *.
  destruct s as [st obs rd sd ac cs sub err pr rr sr ar vs]. simpl in *.
  destruct e; simpl in Hoff |- *; stage_facts; subst; simpl in *.
  2: destruct (Api.analyzeObservation data o); simpl.
  all: unfold Home.handleRiskComplete, Home.handleScoreComplete,
         Home.handleActionComplete, Home.handleViewAgent; simpl.
  all: repeat match goal with
              | |- context [String.eqb ?a ?b] => destruct (String.eqb a b)
              end; simpl.
  all: try solve [present_solve].
  - destruct pr as [[[|h hs] ? ?]|]; simpl; destruct obs; simpl; present_solve.
  - destruct pr as [[? [|h hs] ?]|]; simpl; present_solve.
  - destruct pr as [[? ? [|h hs]]|]; simpl;
      try (destruct (Api.transformActionPlanToActions h); simpl);
      present_solve.
Qed.

Lemma reachable_resultsPresent s : Home.reachable s -> resultsPresent s.
Proof.
  induction 1 as [| e s Hs IH Hoff]; [apply resultsPresent_initial |].
  apply resultsPresent_step; [by apply reachable_wellStaged | done | done].
Qed.

(** X6. With backend responses of the shape [PipelineResult.t] gives them
    (an object whose hazards, scored hazards and action plans are arrays of
    objects), in every state the page can reach: past the form, the backend
    response and the observation are stored; a ready flag that is set has
    its result stored; and at the summary, and in the review of a stage,
    all three results are there. *)
Theorem results_are_there_when_shown s :
  Home.reachable s ->
  (Home.stage s <> Home.FORM ->
   is_Some (Home.pipelineResult s) /\ is_Some (Home.observation s))
  /\ (Home.riskReady s = true -> is_Some (Home.riskData s))
  /\ (Home.scoreReady s = true -> is_Some (Home.scoreData s))
  /\ (Home.actionReady s = true -> is_Some (Home.actions s))
  /\ (Home.stage s = Home.SUMMARY \/ Home.viewingFromSummary s = true ->
      is_Some (Home.riskData s) /\ is_Some (Home.scoreData s)
      /\ is_Some (Home.actions s)).
Proof.
  intros Hreach.
  destruct (reachable_resultsPresent s Hreach)
    as (_ & Hobs & Hpr & Hrr & Hsr & Har & Hrisk & Hscore & Hact).
  split; [| split; [| split; [| split]]]; try assumption.
  - intros Hst. split; [by apply Hpr | apply Hobs; by apply Hpr].
  - intros H. split; [| split].
    + apply Hrisk. tauto.
    + apply Hscore. tauto.
    + apply Hact. tauto.
Qed.

(** The scenario's state at the summary. *)
Lemma results_are_there_when_shown_witness :
  is_Some (Home.riskData Scenario.atSummary)
  /\ is_Some (Home.scoreData Scenario.atSummary)
  /\ is_Some (Home.actions Scenario.atSummary).
Proof.
  exact (proj2 (proj2 (proj2 (proj2
           (results_are_there_when_shown Scenario.atSummary
              atSummary_reachable))))
           (or_introl eq_refl)).
Defined.

(** X7. Wherever the page offers the reset (at the summary), resetting gives
    exactly the initial state: although [handleReset] does not touch the
    submitting flag, no call is outstanding there. *)
Theorem reset_gives_the_initial_state s :
  Home.reachable s ->
  Home.offered Home.Reset s = true ->
  Home.handle Home.Reset s = Home.initial.
Proof.
  intros Hreach Hoff.
  destruct (reachable_wellStaged s Hreach) as (_ & _ & Hsub).
  simpl in Hoff. apply isStage_true in Hoff.
  destruct s as [st obs rd sd ac cs sub err pr rr sr ar vs]. simpl in *.
  subst st. destruct sub; [by specialize (Hsub eq_refl) |]. reflexivity.
Qed.

Lemma reset_gives_the_initial_state_witness :
  Home.handle Home.Reset Scenario.atSummary = Home.initial.
Proof.
  exact (reset_gives_the_initial_state Scenario.atSummary
           atSummary_reachable eq_refl).
Defined.



(** ** [Home] with its animators wired in *)

(** In immediate mode no animator arms a timer or makes a report, whether
    it renders or not. *)
Lemma risk_immediate_never p :
  RiskAnalyzer.skipAnimation p = true ->
  reportsNever (RiskAnalyzer.fire p) (RiskAnalyzer.mount p).
Proof.
  intros Hskip. destruct (risk_immediate_dead p Hskip) as [_ ->].
  by apply reportsNever_intro.
Qed.

Lemma action_immediate_never p :
  ActionPlanner.skipAnimation p = true ->
  reportsNever (ActionPlanner.fire p) (ActionPlanner.mount p).
Proof.
  intros Hskip. destruct (actionRenders p) eqn:Hrenders.
  - exact (proj1 (action_immediate_silent p Hskip Hrenders)).
  - exact (proj1 (action_immediate_dead p Hskip Hrenders)).
Qed.

(** In review mode the mounted animator makes no report, so playing it
    changes nothing. *)
Lemma play_review fuel s :
  Home.viewingFromSummary s = true -> Workflow.play fuel s = s.
Proof.
  intros Hv.
  unfold Workflow.play, Workflow.playRisk, Workflow.playScore,
    Workflow.playAction.
  destruct (Home.stage s); try reflexivity; cbv zeta.
  - destruct (risk_immediate_never (Home.riskProps s) Hv fuel) as [-> _].
    reflexivity.
  - destruct (score_immediate_silent (Home.scoreProps s) Hv) as [Hnever _].
    destruct (Hnever fuel) as [-> _]. reflexivity.
  - destruct (action_immediate_never (Home.actionProps s) Hv fuel) as [-> _].
    reflexivity.
Qed.

(** What is on screen in review mode: the Risk stage tears the page down,
    the Score stage is shown, the Action stage is shown when its tasks
    render. *)
Lemma show_review fuel s :
  Home.viewingFromSummary s = true ->
  Workflow.show fuel s
  = match Home.stage s with
    | Home.RISK => Home.TornDown
    | Home.ACTION =>
        if actionRenders (Home.actionProps s) then Home.Shown s
        else Home.TornDown
    | _ => Home.Shown s
    end.
Proof.
  intros Hv. pose proof (play_review fuel s Hv) as Hplay.
  unfold Workflow.show.
  destruct (Home.stage s) eqn:Hst; cbv zeta; try (by rewrite Hplay).
  - destruct (risk_immediate_dead (Home.riskProps s) Hv) as [_ Hmount].
    pose proof (risk_immediate_never (Home.riskProps s) Hv 0) as [_ Hq].
    cbn [Timers.run] in Hq.
    rewrite (run_quiescent _ fuel _ Hq).
    by rewrite Hmount.
  - unfold Workflow.play in Hplay. rewrite Hst in Hplay. rewrite Hplay.
    pose proof (action_immediate_never (Home.actionProps s) Hv 0) as [_ Hq].
    cbn [Timers.run] in Hq.
    rewrite (run_quiescent _ fuel _ Hq).
    destruct (actionRenders (Home.actionProps s)) eqn:Hrenders.
    + destruct (action_immediate_silent (Home.actionProps s) Hv Hrenders)
        as (_ & -> & _).
      reflexivity.
    + destruct (action_immediate_dead (Home.actionProps s) Hv Hrenders)
        as (_ & ->).
      reflexivity.
Qed.

(** X9. From a state at the summary, for any number of turns of the event
    loop: viewing the Score agent, letting the animator mounted there play
    with its reports delivered, and pressing "Back to Summary" ends at the
    summary outside review mode, with the history, the three results, the
    observation, the response and the error as they were; the ready flag of
    the viewed stage is left set, the other two are as they were. The same
    goes for the Action agent when the tasks of its plans render; when one
    does not, and whenever the Risk agent is viewed, the page is torn
    down. *)
Theorem view_any_agent_round_trip fuel agentType s :
  Home.stage s = Home.SUMMARY ->
  let s1 := Home.handleViewAgent agentType s in
  let s' := Home.handleBackToSummary s1 in
  (agentType = "risk" -> Workflow.visit fuel agentType s = Home.TornDown)
  /\ (agentType = "score" -> Workflow.visit fuel agentType s = Home.Shown s')
  /\ (agentType = "action" ->
      Workflow.visit fuel agentType s
      = if actionRenders (Home.actionProps s1) then Home.Shown s'
        else Home.TornDown)
  /\ (agentType = "score" \/ agentType = "action" ->
      Home.stage s' = Home.SUMMARY
      /\ Home.viewingFromSummary s' = false
      /\ Home.completedSteps s' = Home.completedSteps s
      /\ Home.riskData s' = Home.riskData s
      /\ Home.scoreData s' = Home.scoreData s
      /\ Home.actions s' = Home.actions s
      /\ Home.observation s' = Home.observation s
      /\ Home.pipelineResult s' = Home.pipelineResult s
      /\ Home.error s' = Home.error s
      /\ Home.isSubmitting s' = Home.isSubmitting s
      /\ Home.riskReady s' = Home.riskReady s
      /\ Home.scoreReady s'
         = Home.scoreReady s || String.eqb agentType "score"
      /\ Home.actionReady s'
         = Home.actionReady s || String.eqb agentType "action").
Proof.
  intros Hstage s1 s'.
  assert (Hv : Home.viewingFromSummary s1 = true).
  { unfold s1, Home.handleViewAgent.
    repeat match goal with
           | |- context [String.eqb ?a ?b] => destruct (String.eqb a b)
           end; reflexivity. }
  unfold Workflow.visit. fold s1. rewrite (show_review fuel s1 Hv).
  split; [| split; [| split]].
  - intros ->. reflexivity.
  - intros ->. reflexivity.
  - intros ->. cbn [Home.stage s1 Home.handleViewAgent String.eqb].
    simpl Home.stage.
    destruct (actionRenders (Home.actionProps s1)); reflexivity.
  - intros [-> | ->]; cbn; rewrite ?orb_true_r, ?orb_false_r;
      by repeat split.
Qed.

(** The Score stage viewed from the scenario's summary. *)
Lemma view_any_agent_round_trip_witness :
  Workflow.visit 50 "score" Scenario.atSummary
  = Home.Shown (Home.handleBackToSummary
                  (Home.handleViewAgent "score" Scenario.atSummary)).
Proof.
  exact (proj1 (proj2 (view_any_agent_round_trip 50 "score" Scenario.atSummary
                         eq_refl))
           eq_refl).
Defined.

(** A scripted animator on data that renders is still mounted when its
    script has come to rest. *)
Lemma risk_scripted_rest p :
  RiskAnalyzer.skipAnimation p = false ->
  RiskAnalyzer.isActive p = true ->
  riskRenders p = true ->
  exists n, forall fuel, n <= fuel ->
    Timers.signals
      (Timers.run (RiskAnalyzer.fire p) fuel (RiskAnalyzer.mount p))
    = [ RiskAnalyzer.analysisResult p ]
    /\ RiskAnalyzer.mounted
         (Timers.comp
            (Timers.run (RiskAnalyzer.fire p) fuel (RiskAnalyzer.mount p)))
       = true.
Proof.
  intros Hskip Hactive Hrenders.
  destruct (riskRenders_inv p Hrenders) as (o & Hobs & Hcat).
  destruct p as [obs act api skip]. simpl in Hskip, Hactive, Hobs.
  subst skip act obs.
  set (p := RiskAnalyzer.mkProps (Some o) true api false) in *.
  pose proof (risk_script o api Hcat) as Hscript. fold p in Hscript.
  exists (String.length (RiskAnalyzer.hazardText p) + 9). intros fuel Hf.
  rewrite (run_settled (RiskAnalyzer.fire p) _ fuel _
             ltac:(by rewrite Hscript) Hf).
  by rewrite Hscript.
Qed.

Lemma action_scripted_rest p :
  ActionPlanner.skipAnimation p = false ->
  ActionPlanner.isActive p = true ->
  actionRenders p = true ->
  exists n, forall fuel, n <= fuel ->
    Timers.signals
      (Timers.run (ActionPlanner.fire p) fuel (ActionPlanner.mount p))
    = [ ActionPlanner.allTasks p ]
    /\ ActionPlanner.mounted
         (Timers.comp
            (Timers.run (ActionPlanner.fire p) fuel (ActionPlanner.mount p)))
       = true.
Proof.
  destruct p as [score act api skip]. simpl. intros -> -> Hrenders.
  set (p := ActionPlanner.mkProps score true api false) in *.
  pose proof (action_script score api Hrenders) as Hscript. fold p in Hscript.
  exists (length (ActionPlanner.actionPlans p) + 8). intros fuel Hf.
  rewrite (run_settled (ActionPlanner.fire p) _ fuel _
             ltac:(by rewrite Hscript) Hf).
  by rewrite Hscript.
Qed.

Lemma show_scripted_risk s :
  Home.stage s = Home.RISK -> Home.viewingFromSummary s = false ->
  riskRenders (Home.riskProps s) = true ->
  exists n, forall fuel, n <= fuel ->
    Workflow.show fuel s
    = Home.Shown
        (Home.handleRiskComplete
           (RiskAnalyzer.analysisResult (Home.riskProps s)) s).
Proof.
  intros Hst Hv Hrenders.
  destruct (risk_scripted_rest (Home.riskProps s)) as [n Hn].
  { exact Hv. }
  { cbn. by rewrite Hst. }
  { exact Hrenders. }
  exists n. intros fuel Hf.
  unfold Workflow.show. rewrite Hst. unfold Workflow.playRisk. cbv zeta.
  destruct (Hn fuel Hf) as [-> ->]. reflexivity.
Qed.

Lemma show_scripted_score s :
  Home.stage s = Home.SCORE -> Home.viewingFromSummary s = false ->
  match ScoreManager.apiData (Home.scoreProps s) with
  | Some a =>
      ratedOrAbsent (ScoredHazard.severity a)
      /\ ratedOrAbsent (ScoredHazard.likelihood a)
  | None => True
  end ->
  exists n, forall fuel, n <= fuel ->
    Workflow.show fuel s
    = Home.Shown
        (Home.handleScoreComplete
           (ScoreManager.scoreResult (Home.scoreProps s)) s).
Proof.
  intros Hst Hv Hrated.
  destruct (score_scripted_once (Home.scoreProps s)) as [_ [n Hn]].
  { exact Hv. }
  { cbn. by rewrite Hst. }
  { exact Hrated. }
  exists n. intros fuel Hf.
  unfold Workflow.show, Workflow.play. rewrite Hst.
  unfold Workflow.playScore. cbv zeta.
  destruct (Hn fuel Hf) as [_ ->]. reflexivity.
Qed.

Lemma show_scripted_action s :
  Home.stage s = Home.ACTION -> Home.viewingFromSummary s = false ->
  actionRenders (Home.actionProps s) = true ->
  exists n, forall fuel, n <= fuel ->
    Workflow.show fuel s
    = Home.Shown
        (Home.handleActionComplete
           (ActionPlanner.allTasks (Home.actionProps s)) s).
Proof.
  intros Hst Hv Hrenders.
  destruct (action_scripted_rest (Home.actionProps s)) as [n Hn].
  { exact Hv. }
  { cbn. by rewrite Hst. }
  { exact Hrenders. }
  exists n. intros fuel Hf.
  unfold Workflow.show. rewrite Hst. unfold Workflow.playAction. cbv zeta.
  destruct (Hn fuel Hf) as [-> ->]. reflexivity.
Qed.

Lemma click_reachable e s :
  Home.reachable s -> Home.reachable (Workflow.click e s).
Proof.
  intros Hs. unfold Workflow.click.
  destruct (Home.offered e s) eqn:E; [by apply Home.reachable_step | done].
Qed.

Lemma clicks_reachable es s :
  Home.reachable s -> Home.reachable (Workflow.clicks es s).
Proof.
  unfold Workflow.clicks. revert s.
  induction es as [|e es IH]; intros s Hs; [done |].
  cbn [fold_left]. apply IH. by apply click_reachable.
Qed.

Lemma play_reachable fuel s :
  Home.reachable s -> Home.reachable (Workflow.play fuel s).
Proof.
  intros Hs.
  unfold Workflow.play, Workflow.playRisk, Workflow.playScore,
    Workflow.playAction.
  destruct (Home.stage s); try done; cbv zeta.
  - generalize (Timers.signals
                  (Timers.run (RiskAnalyzer.fire (Home.riskProps s)) fuel
                     (RiskAnalyzer.mount (Home.riskProps s)))).
    intros l. revert s Hs.
    induction l as [|r l IH]; intros s Hs; [done |].
    cbn [fold_left]. apply IH.
    by apply (Home.reachable_step (Home.RiskComplete r)).
  - generalize (Timers.signals
                  (Timers.run (ScoreManager.fire (Home.scoreProps s)) fuel
                     (ScoreManager.mount (Home.scoreProps s)))).
    intros l. revert s Hs.
    induction l as [|r l IH]; intros s Hs; [done |].
    cbn [fold_left]. apply IH.
    by apply (Home.reachable_step (Home.ScoreComplete r)).
  - generalize (Timers.signals
                  (Timers.run (ActionPlanner.fire (Home.actionProps s)) fuel
                     (ActionPlanner.mount (Home.actionProps s)))).
    intros l. revert s Hs.
    induction l as [|r l IH]; intros s Hs; [done |].
    cbn [fold_left]. apply IH.
    by apply (Home.reachable_step (Home.ActionComplete r)).
Qed.

(** X10. A submission answered with a response of the shape
    [PipelineResult.t] gives it (an object whose hazards, scored hazards and
    action plans are arrays of objects), which every stage can get through
    and whose data every animator can put on screen (the category of the
    first hazard and the tasks of the plans render), is carried to the
    summary: with enough turns of the event loop for each animator, playing
    each stage and leaving it by its continue button never tears the page
    down and ends, in a state the page can reach, at the summary outside
    review mode with the three stages in the history in order and with the
    three results stored: those transformed from the first hazard, first
    scored hazard and first action plan of the response, and the animator's
    own default where the response has none. *)
Theorem submission_reaches_the_summary data result :
  playable result ->
  riskRenders
    (RiskAnalyzer.mkProps (Some data) true
       (head (PipelineResult.hazards result)) false) = true ->
  actionRenders
    (ActionPlanner.mkProps None true
       (Some (PipelineResult.action_plans result)) false) = true ->
  exists n, forall fuel, n <= fuel ->
    exists s,
      Workflow.journey fuel data result = Home.Shown s
      /\ Home.reachable s
      /\ Home.stage s = Home.SUMMARY
      /\ Home.viewingFromSummary s = false
      /\ Home.completedSteps s = [ "risk"; "score"; "action" ]
      /\ Home.observation s = Some data
      /\ Home.pipelineResult s = Some result
      /\ Home.error s = None
      /\ Home.riskData s
         = Some match PipelineResult.hazards result with
                | hazard :: _ => Api.transformHazardToRiskData hazard data
                | [] =>
                    RiskAnalyzer.analysisResult
                      (RiskAnalyzer.mkProps (Some data) true None false)
                end
      /\ Home.scoreData s
         = Some match PipelineResult.scored_hazards result with
                | scored :: _ => Api.transformScoredHazardToScoreData scored
                | [] =>
                    ScoreManager.scoreResult
                      (ScoreManager.mkProps None true None false)
                end
      /\ Home.actions s
         = match PipelineResult.action_plans result with
           | plan :: _ => Api.transformActionPlanToActions plan
           | [] => Some ActionPlanner.defaultActionItems
           end.
Proof.
  intros [Hrated Hplan] Hrisk Haction. destruct result as [hz sc pl].
  cbn [PipelineResult.hazards PipelineResult.scored_hazards
       PipelineResult.action_plans] in *.
  unfold Workflow.journey.
  set (s1 := Workflow.click (Home.Settled data (Api.Ok _)) _).
  destruct (show_scripted_risk s1 eq_refl eq_refl Hrisk) as [n1 H1].
  set (t1 := Home.handleRiskComplete _ s1) in H1.
  set (s2 := Workflow.click Home.ContinueToScore t1).
  assert (Hs2 : Home.stage s2 = Home.SCORE
                /\ Home.viewingFromSummary s2 = false).
  { destruct hz; by split. }
  destruct (show_scripted_score s2 (proj1 Hs2) (proj2 Hs2)) as [n2 H2].
  { destruct hz, sc; try exact I; exact Hrated. }
  set (t2 := Home.handleScoreComplete _ s2) in H2.
  set (s3 := Workflow.click Home.ContinueToAction t2).
  assert (Hs3 : Home.stage s3 = Home.ACTION
                /\ Home.viewingFromSummary s3 = false).
  { destruct hz, sc; by split. }
  destruct (show_scripted_action s3 (proj1 Hs3) (proj2 Hs3)) as [n3 H3].
  { destruct hz, sc; exact Haction. }
  set (t3 := Home.handleActionComplete _ s3) in H3.
  exists (n1 + n2 + n3). intros fuel Hf.
  exists (Workflow.click Home.ContinueToSummary t3).
  rewrite H1 by lia. cbn [Workflow.andThen]. fold s2.
  rewrite H2 by lia. cbn [Workflow.andThen]. fold s3.
  rewrite H3 by lia. cbn [Workflow.andThen].
  split; [reflexivity |].
  split.
  { apply click_reachable.
    apply (Home.reachable_step (Home.ActionComplete _) s3); [| reflexivity].
    apply click_reachable.
    apply (Home.reachable_step (Home.ScoreComplete _) s2); [| reflexivity].
    apply click_reachable.
    apply (Home.reachable_step (Home.RiskComplete _) s1); [| reflexivity].
    subst s1. do 2 apply click_reachable.
    apply Home.reachable_initial. }
  subst t3.
  destruct pl as [|plan pl].
  - destruct hz, sc; by repeat split.
  - destruct Hplan as [items Hitems].
    assert (Ht3 :
      Home.handleActionComplete
        (ActionPlanner.allTasks (Home.actionProps s3)) s3
      = Home.setActionReady true (Home.setActions (Some items) s3)).
    { unfold Home.handleActionComplete.
      replace (Home.pipelineResult s3)
        with (Some (PipelineResult.mk hz sc (plan :: pl)))
        by (destruct hz, sc; reflexivity).
      by rewrite Hitems. }
    rewrite Ht3, Hitems.
    destruct hz, sc; by repeat split.
Qed.

Lemma submission_reaches_the_summary_witness :
  playable Scenario.response
  /\ exists n, forall fuel, n <= fuel ->
       exists s,
         Workflow.journey fuel Scenario.observation Scenario.response
         = Home.Shown s
         /\ Home.stage s = Home.SUMMARY.
Proof.
  assert (H : playable Scenario.response).
  { split; [| exact I].
    split; right; right; do 4 right; left; reflexivity. }
  split; [exact H |].
  destruct (submission_reaches_the_summary Scenario.observation
              Scenario.response H eq_refl eq_refl) as [n Hn].
  exists n. intros fuel Hf. destruct (Hn fuel Hf) as (s & Hs & _ & Hst & _).
  by exists s.
Defined.

Lemma stuckInAction_step e s :
  stuckInAction s -> Home.offered e s = true -> stuckInAction (Home.handle e s).
Proof.
  intros (Hst & Hv & Hready & Hsub & result & plan & rest & Hpr & Hplans & Hthrow)
         Hoff.
  destruct s as [st obs rd sd ac cs sub err pr rr sr ar vs].
  cbn in Hst, Hv, Hready, Hsub, Hpr. subst st vs ar sub pr.
  destruct result as [hz sc pl]. cbn in Hplans. subst pl.
  destruct e; cbn in Hoff; try discriminate Hoff.
  - (* RiskComplete *)
    cbn. unfold Home.handleRiskComplete. cbn.
    destruct hz, obs; cbn;
      (repeat split; try reflexivity; by eexists _, _, _).
  - (* ScoreComplete *)
    cbn. unfold Home.handleScoreComplete. cbn.
    destruct sc; cbn;
      (repeat split; try reflexivity; by eexists _, _, _).
  - (* ActionComplete *)
    cbn. unfold Home.handleActionComplete. cbn. rewrite Hthrow.
    repeat split; try reflexivity; by eexists _, _, _.
Qed.

Lemma stuckInAction_click e s :
  stuckInAction s -> stuckInAction (Workflow.click e s).
Proof.
  intros Hs. unfold Workflow.click.
  destruct (Home.offered e s) eqn:E; [by apply stuckInAction_step | done].
Qed.

(** X11. A page in the Action stage whose response has a first action plan
    on which the transformation throws stays there: whatever the user does
    with the page and however often an animator reports, the ready flag is
    never set, so the stage, the absence of the continue button and the
    response all stay as they are. *)
Theorem stuck_in_action_for_good es fuel s :
  stuckInAction s ->
  stuckInAction (Workflow.clicks es s)
  /\ stuckInAction (Workflow.play fuel (Workflow.clicks es s))
  /\ Home.offered Home.ContinueToSummary
       (Workflow.play fuel (Workflow.clicks es s)) = false.
Proof.
  intros Hs.
  assert (Hclicks : stuckInAction (Workflow.clicks es s)).
  { unfold Workflow.clicks. revert s Hs.
    induction es as [|e es IH]; intros s Hs; [done |].
    cbn [fold_left]. apply IH. by apply stuckInAction_click. }
  assert (Hplay : stuckInAction (Workflow.play fuel (Workflow.clicks es s))).
  { revert Hclicks. generalize (Workflow.clicks es s). clear s Hs.
    intros s Hs. unfold Workflow.play.
    destruct Hs as (Hst & Hrest). rewrite Hst.
    assert (Hs : stuckInAction s) by (by split).
    unfold Workflow.playAction. cbv zeta.
    generalize (Timers.signals
                  (Timers.run (ActionPlanner.fire (Home.actionProps s)) fuel
                     (ActionPlanner.mount (Home.actionProps s)))).
    intros l. clear Hst Hrest. revert s Hs.
    induction l as [|r l IH]; intros s Hs; [done |].
    cbn [fold_left]. apply IH.
    by apply (stuckInAction_step (Home.ActionComplete r)). }
  split; [exact Hclicks | split; [exact Hplay |]].
  destruct Hplay as (_ & _ & Hready & _).
  cbn. rewrite Hready. by rewrite andb_false_r.
Qed.

Lemma stuck_in_action_for_good_witness :
  let plan :=
    {| ActionPlan.plan_id := Some "plan-c";
       ActionPlan.standards_refs := Some [ "OSHA 1926.451" ];
       ActionPlan.cost_estimate := None;
       ActionPlan.lead_time_days := None;
       ActionPlan.tasks := None |} in
  let result :=
    {| PipelineResult.hazards := [ Scenario.hazard ];
       PipelineResult.scored_hazards := [ Scenario.scored ];
       PipelineResult.action_plans := [ plan ] |} in
  let s := Workflow.driveToSummary 200 Scenario.observation result in
  Home.reachable s
  /\ stuckInAction
       (Workflow.play 200
          (Workflow.clicks
             [ Home.ContinueToSummary; Home.BackToSummary; Home.Reset;
               Home.ViewAgent "action"; Home.Submit Scenario.observation ]
             s)).
Proof.
  intros plan result s.
  split.
  { subst s. unfold Workflow.driveToSummary.
    do 3 (apply click_reachable; apply play_reachable).
    do 2 apply click_reachable.
    apply Home.reachable_initial. }
  assert (Hs : stuckInAction s).
  { split; [vm_compute; reflexivity |].
    split; [vm_compute; reflexivity |].
    split; [vm_compute; reflexivity |].
    split; [vm_compute; reflexivity |].
    exists result, plan, [].
    split; [vm_compute; reflexivity |].
    split; reflexivity. }
  exact (proj1 (proj2 (stuck_in_action_for_good _ 200 s Hs))).
Defined.

(** ** Unmounting an animator part-way *)

Section RiskUnmountFacts.
Import Timers RiskAnalyzer RiskScript.
Variable o : Observation.t.
Variable api : option Hazard.t.

Let p : Props := mkProps (Some o) true api false.
Let text : string := hazardText p.
Let typingWorld := RiskScript.typingWorld (Some o) api.
Let settleWorld := RiskScript.settleWorld (Some o) api.
Let reportWorld := RiskScript.reportWorld (Some o) api.
Let restWorld := RiskScript.restWorld (Some o) api.

Hypothesis Hcategory :
  React.childRenders (RiskData.category (analysisResult p)) = true.

Let scanned : run (fire p) 6 (mount p) = typingWorld 0 := scan_phase o api.
Let typed k (Hk : k < String.length text)
  : step (fire p) (typingWorld k) = Some (typingWorld (S k)) :=
  typing_step o api k Hk.
Let typedOut
  : step (fire p) (typingWorld (String.length text)) = Some settleWorld :=
  typing_last o api.
Let settled : step (fire p) settleWorld = Some reportWorld :=
  settle_step o api Hcategory.
Let scripted : run (fire p) (String.length text + 9) (mount p) = restWorld :=
  risk_script o api Hcategory.

Lemma typing_prefix k :
  k <= String.length text ->
  run (fire p) k (typingWorld 0) = typingWorld k.
Proof.
  induction k as [|k IH]; intros Hk; [reflexivity |].
  rewrite <- (Nat.add_1_r k) at 1.
  rewrite run_plus, IH by lia.
  exact (run_S _ 0 _ _ (typed k ltac:(lia))).
Qed.

(** Where the script stands after [m] turns of the event loop. *)
Lemma risk_world_at m :
  m <= 5
  \/ (exists k, k <= String.length text /\ m = 6 + k
                /\ run (fire p) m (mount p) = typingWorld k)
  \/ (m = String.length text + 7 /\ run (fire p) m (mount p) = settleWorld)
  \/ (m = String.length text + 8 /\ run (fire p) m (mount p) = reportWorld)
  \/ (String.length text + 9 <= m /\ run (fire p) m (mount p) = restWorld).
Proof.
  destruct (Nat.le_gt_cases m 5) as [H5 | H5]; [by left | right].
  destruct (Nat.le_gt_cases m (String.length text + 6)) as [Ht | Ht].
  { left. exists (m - 6). split; [lia | split; [lia |]].
    remember (m - 6) as j eqn:Hj.
    replace m with (6 + j) by lia.
    rewrite run_plus, scanned.
    apply typing_prefix. lia. }
  right.
  assert (Hsettle :
    run (fire p) (String.length text + 7) (mount p) = settleWorld).
  { replace (String.length text + 7)
      with (6 + (String.length text + 1)) by lia.
    rewrite run_plus, scanned, run_plus, typing_prefix by lia.
    exact (run_S _ 0 _ _ typedOut). }
  destruct (Nat.eq_dec m (String.length text + 7)) as [-> | H7].
  { left. by split. }
  right.
  destruct (Nat.eq_dec m (String.length text + 8)) as [-> | H8].
  { left. split; [done |].
    replace (String.length text + 8)
      with (String.length text + 7 + 1) by lia.
    rewrite run_plus, Hsettle.
    exact (run_S _ 0 _ _ settled). }
  right. split; [lia |].
  rewrite (run_settled _ (String.length text + 9) m).
  - exact scripted.
  - by rewrite scripted.
  - lia.
Qed.

Lemma risk_unmounted_early m k :
  m <= String.length text + 6 ->
  signals (run (fire p) k (unmount (run (fire p) m (mount p)))) = [].
Proof.
  intros Hm.
  destruct (risk_world_at m) as [H5 | [(j & Hj & -> & ->) | H]].
  - assert (Hone :
      queue (run (fire p) 1 (unmount (run (fire p) m (mount p)))) = []
      /\ signals (run (fire p) 1 (unmount (run (fire p) m (mount p)))) = []
      /\ signals (unmount (run (fire p) m (mount p))) = []).
    { do 6 (destruct m as [|m]; [by repeat split |]). lia. }
    destruct Hone as (Hq & Hsig & Hsig0).
    destruct k as [|k]; [exact Hsig0 |].
    rewrite (run_settled _ 1 (S k) _ Hq ltac:(lia)). exact Hsig.
  - by rewrite run_quiescent.
  - lia.
Qed.

Lemma risk_unmounted_late m :
  String.length text + 6 < m ->
  forall k, 2 <= k ->
    signals (run (fire p) k (unmount (run (fire p) m (mount p))))
    = [ analysisResult p ]
    /\ queue (run (fire p) k (unmount (run (fire p) m (mount p)))) = [].
Proof.
  intros Hm k Hk.
  assert (Htwo :
    queue (run (fire p) 2 (unmount (run (fire p) m (mount p)))) = []
    /\ signals (run (fire p) 2 (unmount (run (fire p) m (mount p))))
       = [ analysisResult p ]).
  { destruct (risk_world_at m)
      as [H5 | [(j & Hj & -> & _) | [[_ ->] | [[_ ->] | [_ ->]]]]];
      try lia; by split. }
  destruct Htwo as [Hq Hsig].
  rewrite (run_settled _ 2 k _ Hq Hk). by split.
Qed.

End RiskUnmountFacts.

(** X12. The Risk animator, on props that render and a hazard text in
    ASCII, reports exactly when it stays mounted until its text is typed
    out. Unmounted after [m] turns of the event loop, with [m] at most the
    length of the hazard text plus 6 (the scanning phase and the typing), it
    never reports; unmounted later, it reports its one result within two
    more turns and is then at rest. *)
Theorem risk_reports_iff_typed_out p m :
  RiskAnalyzer.skipAnimation p = false ->
  RiskAnalyzer.isActive p = true ->
  riskRenders p = true ->
  isAscii (RiskAnalyzer.hazardText p) ->
  let w :=
    RiskAnalyzer.unmount
      (Timers.run (RiskAnalyzer.fire p) m (RiskAnalyzer.mount p)) in
  (m <= String.length (RiskAnalyzer.hazardText p) + 6 ->
   forall k, Timers.signals (Timers.run (RiskAnalyzer.fire p) k w) = [])
  /\ (String.length (RiskAnalyzer.hazardText p) + 6 < m ->
      forall k, 2 <= k ->
        Timers.signals (Timers.run (RiskAnalyzer.fire p) k w)
        = [ RiskAnalyzer.analysisResult p ]
        /\ Timers.queue (Timers.run (RiskAnalyzer.fire p) k w) = []).
Proof.
  intros Hskip Hactive Hrenders _.
  destruct (riskRenders_inv p Hrenders) as (o & Hobs & Hcat).
  destruct p as [obs act api skip]. simpl in Hskip, Hactive, Hobs.
  subst skip act obs. cbv zeta. split.
  - intros Hm k. by apply risk_unmounted_early.
  - intros Hm k Hk. by apply risk_unmounted_late.
Qed.

Ltac ascii_text := unfold isAscii; repeat constructor; vm_compute; lia.

Lemma risk_reports_iff_typed_out_witness :
  Timers.signals
    (Timers.run (RiskAnalyzer.fire Scenario.riskScripted) 50
       (RiskAnalyzer.unmount
          (Timers.run (RiskAnalyzer.fire Scenario.riskScripted) 9
             (RiskAnalyzer.mount Scenario.riskScripted)))) = [].
Proof.
  exact (proj1 (risk_reports_iff_typed_out Scenario.riskScripted 9
                  eq_refl eq_refl eq_refl ltac:(ascii_text))
           ltac:(vm_compute; lia) 50).
Defined.

Lemma filter_filter_tid {H : Type} (i : nat) (ids : list nat)
    (q : list (Timers.timer H)) :
  List.filter (fun t => negb (existsb (Nat.eqb (Timers.tid t)) ids))
    (List.filter (fun t => negb (Nat.eqb (Timers.tid t) i)) q)
  = List.filter (fun t => negb (existsb (Nat.eqb (Timers.tid t)) (i :: ids))) q.
Proof.
  induction q as [|t q IH]; [reflexivity |].
  cbn [List.filter existsb].
  destruct (Nat.eqb (Timers.tid t) i); cbn [negb orb List.filter];
    [exact IH |].
  destruct (existsb (Nat.eqb (Timers.tid t)) ids); cbn [negb];
    by rewrite IH.
Qed.

(** [timeouts.forEach(t => clearTimeout(t))] removes from the queue exactly
    the timers whose id is in the array. *)
Lemma clear_all {H K R : Type} (ids : list nat) (w : Timers.world H K R) :
  fold_left (fun acc t => Timers.clearTimeout (Some t) acc) ids w
  = {| Timers.now := Timers.now w; Timers.fresh := Timers.fresh w;
       Timers.queue :=
         List.filter (fun t => negb (existsb (Nat.eqb (Timers.tid t)) ids))
           (Timers.queue w);
       Timers.comp := Timers.comp w; Timers.signals := Timers.signals w |}.
Proof.
  revert w. induction ids as [|i ids IH]; intros w.
  - destruct w as [t f q c s]. cbn. f_equal.
    induction q as [|u q IHq]; [reflexivity |]. cbn. by rewrite <- IHq.
  - cbn [fold_left]. rewrite IH. cbn. by rewrite filter_filter_tid.
Qed.

Lemma filter_none {A : Type} (f : A -> bool) (q : list A) :
  (forall t, In t q -> f t = false) -> List.filter f q = [].
Proof.
  induction q as [|t q IH]; intros Hall; [reflexivity |].
  cbn. rewrite (Hall t (or_introl eq_refl)).
  apply IH. intros u Hu. apply Hall. by right.
Qed.

Section ActionUnmountFacts.
Import Timers ActionPlanner ActionScript.
Variable score : option ScoreData.t.
Variable api : option (list ActionPlan.t).

Let p : Props := mkProps score true api false.
Let plans : list Plan := actionPlans p.
Let n : nat := length plans.
Let revealedWorld := ActionScript.revealedWorld score api.
Let settleWorldA := ActionScript.settleWorld score api.
Let reportWorldA := ActionScript.reportWorld score api.
Let restWorldA := ActionScript.restWorld score api.

Hypothesis Hrenders : forallb planRenders plans = true.

Let planned : run (fire p) 6 (mount p) = revealedWorld 0 :=
  planning_phase score api.
Let revealed j (Hj : S j < n)
  : step (fire p) (revealedWorld j) = Some (revealedWorld (S j)) :=
  reveal_step score api Hrenders j Hj.
Let revealedAll : step (fire p) (revealedWorld (n - 1)) = Some settleWorldA :=
  reveal_last score api Hrenders.
Let settledA : step (fire p) settleWorldA = Some reportWorldA :=
  settle_stepA score api Hrenders.
Let scriptedA : run (fire p) (n + 8) (mount p) = restWorldA :=
  action_script score api Hrenders.
Let nonempty : 0 < n := actionPlans_nonempty score api Hrenders.

Lemma reveal_prefix j :
  j <= n - 1 -> run (fire p) j (revealedWorld 0) = revealedWorld j.
Proof.
  induction j as [|j IH]; intros Hj; [reflexivity |].
  rewrite <- (Nat.add_1_r j) at 1.
  rewrite run_plus, IH by lia.
  exact (run_S _ 0 _ _ (revealed j ltac:(lia))).
Qed.

(** Where the script stands after [m] turns of the event loop. *)
Lemma action_world_at m :
  m <= 5
  \/ (exists j, j <= n - 1 /\ m = 6 + j
                /\ run (fire p) m (mount p) = revealedWorld j)
  \/ (m = n + 6 /\ run (fire p) m (mount p) = settleWorldA)
  \/ (m = n + 7 /\ run (fire p) m (mount p) = reportWorldA)
  \/ (n + 8 <= m /\ run (fire p) m (mount p) = restWorldA).
Proof.
  pose proof nonempty as Hn.
  destruct (Nat.le_gt_cases m 5) as [H5 | H5]; [by left | right].
  destruct (Nat.le_gt_cases m (n + 5)) as [Ht | Ht].
  { left. exists (m - 6). split; [lia | split; [lia |]].
    remember (m - 6) as j eqn:Hj.
    replace m with (6 + j) by lia.
    rewrite run_plus, planned.
    apply reveal_prefix. lia. }
  right.
  assert (Hsettle : run (fire p) (n + 6) (mount p) = settleWorldA).
  { replace (n + 6) with (6 + ((n - 1) + 1)) by lia.
    rewrite run_plus, planned, run_plus, reveal_prefix by lia.
    exact (run_S _ 0 _ _ revealedAll). }
  destruct (Nat.eq_dec m (n + 6)) as [-> | H6].
  { left. by split. }
  right.
  destruct (Nat.eq_dec m (n + 7)) as [-> | H7].
  { left. split; [done |].
    replace (n + 7) with (n + 6 + 1) by lia.
    rewrite run_plus, Hsettle.
    exact (run_S _ 0 _ _ settledA). }
  right. split; [lia |].
  rewrite (run_settled _ (n + 8) m).
  - exact scriptedA.
  - by rewrite scriptedA.
  - lia.
Qed.

Lemma unmount_revealed j :
  queue (unmount (revealedWorld j)) = []
  /\ signals (unmount (revealedWorld j)) = [].
Proof.
  unfold unmount, generatingCleanup. cbv zeta. rewrite clear_all.
  split; [| reflexivity].
  cbn -[seq Nat.add Nat.sub]. fold p plans n.
  apply filter_none. intros t Ht.
  apply filter_In in Ht as [Ht _].
  apply in_map_iff in Ht as (i & <- & Hi).
  apply in_seq in Hi. apply negb_false_iff, existsb_exists.
  exists (2 + i). split; [| apply Nat.eqb_refl].
  apply in_map_iff. exists i. split; [reflexivity |].
  apply in_seq. lia.
Qed.

Lemma settle_not_cleared :
  existsb (Nat.eqb (2 + n)) (map (Nat.add 2) (seq 0 n)) = false.
Proof.
  apply not_true_is_false. intros Hex.
  apply existsb_exists in Hex as (x & Hx & Heq).
  apply in_map_iff in Hx as (i & <- & Hi). apply in_seq in Hi.
  apply Nat.eqb_eq in Heq. lia.
Qed.

Lemma unmount_settle :
  unmount settleWorldA
  = {| now := lastReveal score api; fresh := 3 + n;
       queue := [ {| tid := 2 + n; due := lastReveal score api + 800;
                     every := None; handler := Settle |} ];
       comp := mkState generating 4 plans false true false None [];
       signals := [] |}.
Proof.
  unfold unmount, generatingCleanup. cbv zeta. rewrite clear_all.
  cbn -[seq Nat.add Nat.sub existsb]. fold p plans n.
  change (negb (2 + n =? 0)%nat) with true.
  cbn [List.filter tid]. rewrite settle_not_cleared. reflexivity.
Qed.

Lemma action_unmounted_early m k :
  m <= n + 5 ->
  signals (run (fire p) k (unmount (run (fire p) m (mount p)))) = [].
Proof.
  intros Hm.
  destruct (action_world_at m) as [H5 | [(j & Hj & -> & ->) | H]].
  - assert (Hone :
      queue (run (fire p) 1 (unmount (run (fire p) m (mount p)))) = []
      /\ signals (run (fire p) 1 (unmount (run (fire p) m (mount p)))) = []
      /\ signals (unmount (run (fire p) m (mount p))) = []).
    { do 6 (destruct m as [|m]; [by repeat split |]). lia. }
    destruct Hone as (Hq & Hsig & Hsig0).
    destruct k as [|k]; [exact Hsig0 |].
    rewrite (run_settled _ 1 (S k) _ Hq ltac:(lia)). exact Hsig.
  - destruct (unmount_revealed j) as [Hq Hsig]. by rewrite run_quiescent.
  - lia.
Qed.

Lemma action_unmounted_late m :
  n + 5 < m ->
  forall k, 2 <= k ->
    signals (run (fire p) k (unmount (run (fire p) m (mount p))))
    = [ allTasks p ]
    /\ queue (run (fire p) k (unmount (run (fire p) m (mount p)))) = [].
Proof.
  intros Hm k Hk.
  assert (Htwo :
    queue (run (fire p) 2 (unmount (run (fire p) m (mount p)))) = []
    /\ signals (run (fire p) 2 (unmount (run (fire p) m (mount p))))
       = [ allTasks p ]).
  { destruct (action_world_at m)
      as [H5 | [(j & Hj & -> & _) | [[_ ->] | [[_ ->] | [_ ->]]]]];
      try lia.
    - rewrite unmount_settle. by split.
    - by split.
    - by split. }
  destruct Htwo as [Hq Hsig].
  rewrite (run_settled _ 2 k _ Hq Hk). by split.
Qed.

End ActionUnmountFacts.

(** X13. The Action animator, on plans whose tasks render, reports exactly
    when it stays mounted until its last plan is revealed. Unmounted after
    [m] turns of the event loop, with [m] at most the number of plans plus 5
    (the planning phase and all reveals but the last), it never reports: the
    reveal timeouts still armed are cleared. Unmounted later, it reports its
    one list of tasks within two more turns and is then at rest. *)
Theorem action_reports_iff_all_revealed p m :
  ActionPlanner.skipAnimation p = false ->
  ActionPlanner.isActive p = true ->
  actionRenders p = true ->
  let w :=
    ActionPlanner.unmount
      (Timers.run (ActionPlanner.fire p) m (ActionPlanner.mount p)) in
  (m <= length (ActionPlanner.actionPlans p) + 5 ->
   forall k, Timers.signals (Timers.run (ActionPlanner.fire p) k w) = [])
  /\ (length (ActionPlanner.actionPlans p) + 5 < m ->
      forall k, 2 <= k ->
        Timers.signals (Timers.run (ActionPlanner.fire p) k w)
        = [ ActionPlanner.allTasks p ]
        /\ Timers.queue (Timers.run (ActionPlanner.fire p) k w) = []).
Proof.
  destruct p as [score act api skip]. cbn [ActionPlanner.skipAnimation
    ActionPlanner.isActive]. intros -> -> Hrenders. cbv zeta. split.
  - intros Hm k. by apply action_unmounted_early.
  - intros Hm k Hk. by apply action_unmounted_late.
Qed.

Lemma action_reports_iff_all_revealed_witness :
  Timers.signals
    (Timers.run (ActionPlanner.fire Scenario.actionScripted) 2
       (ActionPlanner.unmount
          (Timers.run (ActionPlanner.fire Scenario.actionScripted) 7
             (ActionPlanner.mount Scenario.actionScripted))))
  = [ ActionPlanner.allTasks Scenario.actionScripted ]
  /\ Timers.queue
       (Timers.run (ActionPlanner.fire Scenario.actionScripted) 2
          (ActionPlanner.unmount
             (Timers.run (ActionPlanner.fire Scenario.actionScripted) 7
                (ActionPlanner.mount Scenario.actionScripted))))
     = [].
Proof.
  exact (proj2 (action_reports_iff_all_revealed Scenario.actionScripted 7
                  eq_refl eq_refl eq_refl)
           ltac:(vm_compute; lia) 2 (le_n 2)).
Defined.

Lemma enqueue_Forall {H : Type} (P : Timers.timer H -> Prop) t q :
  P t -> Forall P q -> Forall P (Timers.enqueue t q).
Proof.
  intros Ht Hq. induction Hq as [|u q Hu Hq IH]; cbn.
  - by constructor.
  - destruct (Timers.due t <? Timers.due u)%Z; repeat constructor; done.
Qed.

Lemma filter_Forall {A : Type} (P : A -> Prop) (f : A -> bool) q :
  Forall P q -> Forall P (List.filter f q).
Proof.
  intros Hq. induction Hq as [|u q Hu Hq IH]; cbn; [constructor |].
  destruct (f u); [by constructor | done].
Qed.

Lemma filter_all {A : Type} (f : A -> bool) q :
  Forall (fun t => f t = true) q -> List.filter f q = q.
Proof.
  intros Hq. induction Hq as [|u q Hu Hq IH]; [reflexivity |].
  cbn. by rewrite Hu, IH.
Qed.

Ltac case_ifs :=
  repeat match goal with
         | |- context [if ?b then _ else _] => destruct b
         end.

Ltac begun_finish :=
  repeat split; cbn; try done; try lia;
  try (apply enqueue_Forall; [cbn; split; [done | lia] |]);
  try apply filter_Forall; done.

Section ScoreUnmountFacts.
Import Timers ScoreManager.
Variable r : ScoreData.t.

Lemma fire_sameTimers h w w' :
  scoringCallback h = true -> sameTimers w w' ->
  sameTimers (fireOn false r h w) (fireOn false r h w').
Proof.
  intros Hh (Hnow & Hfresh & Hq & Hsig & Hsi & Hli & Hsv & Hlv).
  destruct w as [t f q c s], w' as [t' f' q' c' s']. cbn in *. subst.
  destruct c as [ph ei sv lv res mt evi sei lii sva lva],
           c' as [ph' ei' sv' lv' res' mt' evi' sei' lii' sva' lva'].
  cbn in *. subst.
  destruct h; try discriminate Hh; cbn; unfold setState; cbn.
  - destruct mt, mt'; cbn; case_ifs; destruct sei'; by repeat split.
  - by repeat split.
  - destruct mt, mt'; cbn; case_ifs; destruct lii'; by repeat split.
  - destruct mt, mt', ph, ph'; by repeat split.
  - by repeat split.
Qed.

Lemma fire_scoringBegun h w :
  scoringCallback h = true -> scoringBegun w ->
  scoringBegun (fireOn false r h w).
Proof.
  intros Hh (Hev & Hfresh & Hq).
  destruct w as [t f q c s]. cbn in *.
  destruct c as [ph ei sv lv res mt evi sei lii sva lva]. cbn in *. subst.
  destruct h; try discriminate Hh; cbn; unfold setState; cbn.
  - destruct mt; cbn; case_ifs; destruct sei; begun_finish.
  - begun_finish.
  - destruct mt; cbn; case_ifs; destruct lii; begun_finish.
  - destruct mt, ph; begun_finish.
  - begun_finish.
Qed.

Lemma step_scoringBegun w w1 :
  scoringBegun w -> step (fireOn false r) w = Some w1 -> scoringBegun w1.
Proof.
  intros (Hev & Hfresh & Hq). unfold step.
  destruct (queue w) as [|t q] eqn:E; [discriminate |].
  intros [= <-]. inversion Hq as [|? ? [Hlate Htid] Hrest]; subst.
  apply fire_scoringBegun; [exact Hlate |].
  repeat split; cbn; try done.
  destruct (every t); [| done].
  by apply enqueue_Forall.
Qed.

Lemma step_sameTimers w w' :
  scoringBegun w -> sameTimers w w' ->
  match step (fireOn false r) w, step (fireOn false r) w' with
  | Some a, Some b => sameTimers a b
  | None, None => True
  | _, _ => False
  end.
Proof.
  intros (Hev & Hfresh & Hq) Hsame.
  pose proof Hsame as (Hnow & Hf & Hqq & Hsig & Hrest).
  unfold step. rewrite <- Hqq.
  destruct (queue w) as [|t q] eqn:E; [done |].
  inversion Hq as [|? ? [Hlate Htid] _]; subst.
  apply fire_sameTimers; [exact Hlate |].
  repeat split; cbn; tauto.
Qed.

Lemma run_sameTimers k w w' :
  scoringBegun w -> sameTimers w w' ->
  sameTimers (run (fireOn false r) k w) (run (fireOn false r) k w').
Proof.
  revert w w'. induction k as [|k IH]; intros w w' Hb Hs; [done |].
  cbn [run]. pose proof (step_sameTimers w w' Hb Hs) as Hstep.
  destruct (step (fireOn false r) w) as [a|] eqn:Ea,
           (step (fireOn false r) w') as [b|] eqn:Eb; try done.
  apply IH; [| done]. by apply (step_scoringBegun w a).
Qed.

Lemma run_scoringBegun k w :
  scoringBegun w -> scoringBegun (run (fireOn false r) k w).
Proof.
  revert w. induction k as [|k IH]; intros w Hb; [done |].
  cbn [run]. destruct (step (fireOn false r) w) as [a|] eqn:Ea; [| done].
  apply IH. by apply (step_scoringBegun w a).
Qed.

Lemma unmount_sameTimers w : scoringBegun w -> sameTimers w (unmount w).
Proof.
  intros (Hev & Hfresh & Hq). unfold unmount. cbv zeta. rewrite Hev.
  repeat split; cbn; try done.
  symmetry. apply filter_all.
  eapply Forall_impl; [exact Hq |].
  intros t [_ Ht]. cbn. apply negb_true_iff, Nat.eqb_neq. exact Ht.
Qed.

Lemma scoring_begun_after_six :
  scoringBegun (run (fireOn false r) 6 (mountOn false r true)).
Proof.
  repeat split; cbn; try lia.
  repeat constructor; cbn; done.
Qed.

Lemma score_unmounted_early m k :
  m <= 5 ->
  signals (run (fireOn false r) k
             (unmount (run (fireOn false r) m (mountOn false r true)))) = [].
Proof.
  intros Hm.
  assert (Hone :
    queue (run (fireOn false r) 1
             (unmount (run (fireOn false r) m (mountOn false r true)))) = []
    /\ signals (run (fireOn false r) 1
                  (unmount (run (fireOn false r) m (mountOn false r true))))
       = []
    /\ signals (unmount (run (fireOn false r) m (mountOn false r true))) = []).
  { do 6 (destruct m as [|m]; [by repeat split |]). lia. }
  destruct Hone as (Hq & Hsig & Hsig0).
  destruct k as [|k]; [exact Hsig0 |].
  rewrite (run_settled _ 1 (S k) _ Hq ltac:(lia)). exact Hsig.
Qed.

Lemma score_unmounted_late m k :
  5 < m ->
  sameTimers
    (run (fireOn false r) (m + k) (mountOn false r true))
    (run (fireOn false r) k
       (unmount (run (fireOn false r) m (mountOn false r true)))).
Proof.
  intros Hm. rewrite run_plus.
  assert (Hb : scoringBegun (run (fireOn false r) m (mountOn false r true))).
  { replace m with (6 + (m - 6)) by lia. rewrite run_plus.
    apply run_scoringBegun, scoring_begun_after_six. }
  apply run_sameTimers; [exact Hb |]. by apply unmount_sameTimers.
Qed.

End ScoreUnmountFacts.

(** X14. The Score animator reports exactly when it stays mounted until the
    scoring phase begins. Unmounted after at most 5 turns of the event loop
    (the evaluation phase), it never reports. Unmounted later, its timers
    run on as if nothing had happened (the cleanup of the scoring effect is
    empty): turn by turn the queue and the reports are those of the
    animator left mounted, so with ratings on the scale the one result is
    reported and the loop comes to rest. *)
Theorem score_reports_iff_scoring_begun p m :
  ScoreManager.skipAnimation p = false ->
  ScoreManager.isActive p = true ->
  let w :=
    ScoreManager.unmount
      (Timers.run (ScoreManager.fire p) m (ScoreManager.mount p)) in
  (m <= 5 ->
   forall k, Timers.signals (Timers.run (ScoreManager.fire p) k w) = [])
  /\ (5 < m ->
      forall k,
        Timers.signals (Timers.run (ScoreManager.fire p) k w)
        = Timers.signals
            (Timers.run (ScoreManager.fire p) (m + k) (ScoreManager.mount p))
        /\ Timers.queue (Timers.run (ScoreManager.fire p) k w)
           = Timers.queue
               (Timers.run (ScoreManager.fire p) (m + k)
                  (ScoreManager.mount p)))
  /\ (5 < m ->
      match ScoreManager.apiData p with
      | Some a =>
          ratedOrAbsent (ScoredHazard.severity a)
          /\ ratedOrAbsent (ScoredHazard.likelihood a)
      | None => True
      end ->
      exists n, forall k, n <= k ->
        Timers.signals (Timers.run (ScoreManager.fire p) k w)
        = [ ScoreManager.scoreResult p ]
        /\ Timers.queue (Timers.run (ScoreManager.fire p) k w) = []).
Proof.
  intros Hskip Hact. cbv zeta.
  assert (Hlate : 5 < m -> forall k,
    Timers.signals
      (Timers.run (ScoreManager.fire p) k
         (ScoreManager.unmount
            (Timers.run (ScoreManager.fire p) m (ScoreManager.mount p))))
    = Timers.signals
        (Timers.run (ScoreManager.fire p) (m + k) (ScoreManager.mount p))
    /\ Timers.queue
         (Timers.run (ScoreManager.fire p) k
            (ScoreManager.unmount
               (Timers.run (ScoreManager.fire p) m (ScoreManager.mount p))))
       = Timers.queue
           (Timers.run (ScoreManager.fire p) (m + k) (ScoreManager.mount p))).
  { intros Hm k. unfold ScoreManager.fire, ScoreManager.mount.
    rewrite Hskip, Hact.
    destruct (score_unmounted_late (ScoreManager.scoreResult p) m k Hm)
      as (_ & _ & Hq & Hsig & _).
    by split. }
  split; [| split].
  - intros Hm k. unfold ScoreManager.fire, ScoreManager.mount.
    rewrite Hskip, Hact. by apply score_unmounted_early.
  - exact Hlate.
  - intros Hm Hrated.
    destruct (score_scripted_once p Hskip Hact Hrated) as [_ [n Hn]].
    exists n. intros k Hk.
    destruct (Hlate Hm k) as [-> ->].
    destruct (Hn (m + k) ltac:(lia)) as [-> ->]. by split.
Qed.

Lemma score_reports_iff_scoring_begun_witness :
  Timers.signals
    (Timers.run (ScoreManager.fire Scenario.scoreScripted) 50
       (ScoreManager.unmount
          (Timers.run (ScoreManager.fire Scenario.scoreScripted) 4
             (ScoreManager.mount Scenario.scoreScripted)))) = [].
Proof.
  exact (proj1 (score_reports_iff_scoring_begun Scenario.scoreScripted 4
                  eq_refl eq_refl)
           ltac:(lia) 50).
Defined.

(** ** Where the scripts end *)

Lemma typingDue_closed k : RiskScript.typingDue k = (4530 + 30 * Z.of_nat k)%Z.
Proof. induction k as [|k IH]; [reflexivity |]. cbn [RiskScript.typingDue]. lia. Qed.

(** X15. The scripted Risk animator, on props that render and a hazard
    text in ASCII, left mounted, comes to rest [6030 + 30 * n] milliseconds
    after mounting, [n] the length of the hazard text: it is still mounted,
    in the complete phase, with the whole text typed out, the reported
    result stored and no timer armed; more turns change nothing. *)
Theorem risk_script_ends_as_reviewed p fuel :
  RiskAnalyzer.skipAnimation p = false ->
  RiskAnalyzer.isActive p = true ->
  riskRenders p = true ->
  isAscii (RiskAnalyzer.hazardText p) ->
  String.length (RiskAnalyzer.hazardText p) + 9 <= fuel ->
  let w := Timers.run (RiskAnalyzer.fire p) fuel (RiskAnalyzer.mount p) in
  Timers.now w
  = (6030 + 30 * Z.of_nat (String.length (RiskAnalyzer.hazardText p)))%Z
  /\ Timers.queue w = []
  /\ RiskAnalyzer.mounted (Timers.comp w) = true
  /\ RiskAnalyzer.phase (Timers.comp w) = RiskAnalyzer.complete
  /\ RiskAnalyzer.typedText (Timers.comp w) = RiskAnalyzer.hazardText p
  /\ RiskAnalyzer.result (Timers.comp w)
     = Some (RiskAnalyzer.analysisResult p)
  /\ Timers.signals w = [ RiskAnalyzer.analysisResult p ].
Proof.
  intros Hskip Hactive Hrenders _ Hfuel.
  destruct (riskRenders_inv p Hrenders) as (o & Hobs & Hcat).
  destruct p as [obs act api skip]. simpl in Hskip, Hactive, Hobs.
  subst skip act obs. cbv zeta.
  set (p := RiskAnalyzer.mkProps (Some o) true api false) in *.
  pose proof (risk_script o api Hcat) as Hscript. fold p in Hscript.
  assert (Hrest :
    Timers.run (RiskAnalyzer.fire p) fuel (RiskAnalyzer.mount p)
    = RiskScript.restWorld (Some o) api).
  { rewrite (run_settled (RiskAnalyzer.fire p)
               (String.length (RiskAnalyzer.hazardText p) + 9) fuel _
               ltac:(by rewrite Hscript) Hfuel).
    exact Hscript. }
  rewrite Hrest. unfold RiskScript.restWorld.
  cbn [Timers.now Timers.comp Timers.queue Timers.signals
       RiskAnalyzer.phase RiskAnalyzer.typedText
       RiskAnalyzer.result RiskAnalyzer.mounted].
  rewrite typingDue_closed. fold p.
  repeat split; try reflexivity; lia.
Qed.

Lemma risk_script_ends_as_reviewed_witness :
  let w :=
    Timers.run (RiskAnalyzer.fire Scenario.riskScripted) 200
      (RiskAnalyzer.mount Scenario.riskScripted) in
  Timers.now w = 6720%Z
  /\ RiskAnalyzer.typedText (Timers.comp w) = "Unguarded scaffold edge".
Proof.
  assert (Hfuel :
    String.length (RiskAnalyzer.hazardText Scenario.riskScripted) + 9 <= 200).
  { vm_compute. lia. }
  pose proof (risk_script_ends_as_reviewed Scenario.riskScripted 200
                eq_refl eq_refl eq_refl ltac:(ascii_text) Hfuel)
    as (Hnow & _ & _ & _ & Htext & _).
  split; [exact Hnow | exact Htext].
Defined.

Lemma totalTasks_sum (plans : list ActionPlanner.Plan) (k : nat) :
  fold_left (fun sum plan => sum + length (ActionPlanner.tasks plan)) plans k
  = k + length (concat (map ActionPlanner.tasks plans)).
Proof.
  revert k. induction plans as [|plan plans IH]; intros k; cbn.
  - lia.
  - rewrite IH, length_app. lia.
Qed.

(** X16. The scripted Action animator, on plans whose tasks render, left
    mounted, comes to rest [4600 + 1200 * n] milliseconds after mounting,
    [n] the number of plans: still mounted, finished and in the complete
    phase with every plan visible in order; more turns change nothing. An
    animator mounted on the same data in immediate mode shows the same from
    the start. The total the progress display counts to is the number of
    tasks reported. *)
Theorem action_script_ends_as_reviewed p fuel active :
  ActionPlanner.skipAnimation p = false ->
  ActionPlanner.isActive p = true ->
  actionRenders p = true ->
  length (ActionPlanner.actionPlans p) + 8 <= fuel ->
  let w := Timers.run (ActionPlanner.fire p) fuel (ActionPlanner.mount p) in
  let review :=
    ActionPlanner.mount
      (ActionPlanner.mkProps (ActionPlanner.scoreData p) active
         (ActionPlanner.apiData p) true) in
  Timers.now w
  = (4600 + 1200 * Z.of_nat (length (ActionPlanner.actionPlans p)))%Z
  /\ ActionPlanner.mounted (Timers.comp w) = true
  /\ ActionPlanner.phase (Timers.comp w) = ActionPlanner.complete
  /\ ActionPlanner.isFinished (Timers.comp w) = true
  /\ ActionPlanner.visiblePlans (Timers.comp w) = ActionPlanner.actionPlans p
  /\ ActionPlanner.mounted (Timers.comp review) = true
  /\ ActionPlanner.phase (Timers.comp review) = ActionPlanner.complete
  /\ ActionPlanner.isFinished (Timers.comp review) = true
  /\ ActionPlanner.visiblePlans (Timers.comp review)
     = ActionPlanner.actionPlans p
  /\ ActionFormat.totalTasks p = length (ActionPlanner.allTasks p).
Proof.
  destruct p as [score act api skip]. cbn [ActionPlanner.skipAnimation
    ActionPlanner.isActive ActionPlanner.scoreData ActionPlanner.apiData].
  intros -> -> Hrenders Hfuel. cbv zeta.
  set (p := ActionPlanner.mkProps score true api false) in *.
  pose proof (actionPlans_nonempty score api Hrenders) as Hn. fold p in Hn.
  pose proof (action_script score api Hrenders) as Hscript. fold p in Hscript.
  assert (Hrest :
    Timers.run (ActionPlanner.fire p) fuel (ActionPlanner.mount p)
    = ActionScript.restWorld score api).
  { rewrite (run_settled (ActionPlanner.fire p)
               (length (ActionPlanner.actionPlans p) + 8) fuel _
               ltac:(by rewrite Hscript) Hfuel).
    exact Hscript. }
  rewrite Hrest. unfold ActionScript.restWorld, ActionScript.lastReveal.
  cbn [Timers.now Timers.comp ActionPlanner.phase ActionPlanner.isFinished
       ActionPlanner.visiblePlans ActionPlanner.mounted].
  fold p.
  set (q := ActionPlanner.mkProps score active api true).
  assert (Hq : actionRenders q = true) by exact Hrenders.
  pose proof (action_immediate_mount q eq_refl) as Hmount.
  destruct (action_immediate_silent q eq_refl Hq)
    as (_ & Hmounted & Hvisible & Hphase).
  split; [lia |]. do 4 (split; [reflexivity |]).
  split; [exact Hmounted |].
  split; [exact Hphase |].
  split.
  { rewrite Hmount. unfold ActionPlanner.commit, ActionPlanner.render.
    cbn [Timers.comp ActionPlanner.mounted ActionPlanner.phase
         ActionPlanner.visiblePlans].
    unfold actionRenders in Hq. rewrite Hq.
    by destruct (negb (ActionPlanner.isActive q) && false
                 && negb (ActionPlanner.skipAnimation q)). }
  split; [exact Hvisible |].
  unfold ActionFormat.totalTasks, ActionPlanner.allTasks.
  by rewrite totalTasks_sum.
Qed.

Lemma action_script_ends_as_reviewed_witness :
  let w :=
    Timers.run (ActionPlanner.fire Scenario.actionScripted) 200
      (ActionPlanner.mount Scenario.actionScripted) in
  Timers.now w = 5800%Z
  /\ ActionPlanner.visiblePlans (Timers.comp w) = [ ActionPlanner.defaultPlan ].
Proof.
  assert (Hfuel :
    length (ActionPlanner.actionPlans Scenario.actionScripted) + 8 <= 200).
  { vm_compute. lia. }
  pose proof (action_script_ends_as_reviewed Scenario.actionScripted 200 true
                eq_refl eq_refl eq_refl Hfuel)
    as (Hnow & _ & _ & _ & Hvisible & _).
  split; [exact Hnow | exact Hvisible].
Defined.

Lemma score_script_end r :
  rating (ScoreData.severity r) ->
  rating (ScoreData.likelihood r) ->
  let w :=
    Timers.run (ScoreManager.fireOn false r) 200
      (ScoreManager.mountOn false r true) in
  ScoreManager.phase (Timers.comp w) = ScoreManager.complete
  /\ ScoreManager.severityValue (Timers.comp w)
     = to_number (ScoreData.severity r)
  /\ ScoreManager.likelihoodValue (Timers.comp w)
     = to_number (ScoreData.likelihood r)
  /\ ScoreManager.result (Timers.comp w) = Some r.
Proof.
  destruct r as [severity likelihood riskScore category color].
  unfold rating. cbn [ScoreData.severity ScoreData.likelihood In].
  intros Hs Hl.
  repeat (destruct Hs as [<- | Hs]; [| try contradiction]);
    repeat (destruct Hl as [<- | Hl]; [| try contradiction]);
    vm_compute; repeat split; reflexivity.
Qed.

(** X17. With ratings on the scale (or absent, or zero), the scripted Score
    animator, left mounted, comes to rest in the complete phase with the
    reported result stored and both meters standing exactly on the ratings
    of that result, although the meters are driven by repeated additions of
    0.1; more turns change nothing. An animator mounted on the same data in
    immediate mode shows the same from the start. *)
Theorem score_script_ends_as_reviewed p fuel active :
  ScoreManager.skipAnimation p = false ->
  ScoreManager.isActive p = true ->
  match ScoreManager.apiData p with
  | Some a =>
      ratedOrAbsent (ScoredHazard.severity a)
      /\ ratedOrAbsent (ScoredHazard.likelihood a)
  | None => True
  end ->
  200 <= fuel ->
  let w := Timers.run (ScoreManager.fire p) fuel (ScoreManager.mount p) in
  let review :=
    ScoreManager.mount
      (ScoreManager.mkProps (ScoreManager.riskData p) active
         (ScoreManager.apiData p) true) in
  let shown c :=
    (ScoreManager.phase c, ScoreManager.severityValue c,
     ScoreManager.likelihoodValue c, ScoreManager.result c) in
  shown (Timers.comp w)
  = (ScoreManager.complete,
     to_number (ScoreData.severity (ScoreManager.scoreResult p)),
     to_number (ScoreData.likelihood (ScoreManager.scoreResult p)),
     Some (ScoreManager.scoreResult p))
  /\ shown (Timers.comp review) = shown (Timers.comp w).
Proof.
  intros Hskip Hact Hrated Hfuel.
  destruct (scoreResult_rated p Hrated) as [Hs Hl].
  destruct (score_script _ Hs Hl) as [Hq _].
  destruct (score_script_end _ Hs Hl) as (Hphase & Hsev & Hlik & Hres).
  cbv zeta.
  assert (Hrun :
    Timers.run (ScoreManager.fire p) fuel (ScoreManager.mount p)
    = Timers.run (ScoreManager.fireOn false (ScoreManager.scoreResult p)) 200
        (ScoreManager.mountOn false (ScoreManager.scoreResult p) true)).
  { unfold ScoreManager.fire, ScoreManager.mount. rewrite Hskip, Hact.
    exact (run_settled _ 200 fuel _ Hq Hfuel). }
  rewrite Hrun, Hphase, Hsev, Hlik, Hres.
  split; [reflexivity | destruct active; reflexivity].
Qed.

Lemma score_script_ends_as_reviewed_witness :
  let w :=
    Timers.run (ScoreManager.fire Scenario.scoreScripted) 200
      (ScoreManager.mount Scenario.scoreScripted) in
  ScoreManager.severityValue (Timers.comp w) = 5%float
  /\ ScoreManager.likelihoodValue (Timers.comp w) = 5%float.
Proof.
  assert (Hrated :
    match ScoreManager.apiData Scenario.scoreScripted with
    | Some a =>
        ratedOrAbsent (ScoredHazard.severity a)
        /\ ratedOrAbsent (ScoredHazard.likelihood a)
    | None => True
    end).
  { split; right; right; do 4 right; left; reflexivity. }
  pose proof (score_script_ends_as_reviewed Scenario.scoreScripted 200 true
                eq_refl eq_refl Hrated (le_n 200)) as [Hshown _].
  cbv zeta in Hshown.
  split; [exact (f_equal (fun x => snd (fst (fst x))) Hshown)
         | exact (f_equal (fun x => snd (fst x)) Hshown)].
Defined.

(** ** The display helpers of the Action animator *)

Section FormatRoleFacts.
Import ActionFormat.

Let chars := list_ascii_of_string.
Let weight (words : list string) : nat :=
  list_sum (map (fun w => S (String.length w)) words).

Lemma string_length_app (a b : string) :
  String.length (a ++ b) = String.length a + String.length b.
Proof.
  induction a as [|c a IH]; [reflexivity | exact (f_equal S IH)].
Qed.

Lemma chars_app (a b : string) : chars (a ++ b) = (chars a ++ chars b)%list.
Proof.
  induction a as [|c a IH]; [reflexivity | exact (f_equal (cons c) IH)].
Qed.

Lemma upper_ascii_idem c : upper_ascii (upper_ascii c) = upper_ascii c.
Proof. by destruct c as [[] [] [] [] [] [] [] []]. Qed.

Lemma upper_ascii_underscore c :
  c <> underscore -> upper_ascii c <> underscore.
Proof.
  destruct c as [[] [] [] [] [] [] [] []]; vm_compute; congruence.
Qed.

Lemma weight_cons w words :
  weight (w :: words) = S (String.length w) + weight words.
Proof. reflexivity. Qed.

Lemma split_weight r : weight (split r) = S (String.length r).
Proof.
  induction r as [|c r IH]; [reflexivity |].
  cbn [split]. destruct (Ascii.eqb c underscore).
  - rewrite weight_cons, IH. reflexivity.
  - destruct (split r) as [|word words]; [discriminate IH |].
    rewrite weight_cons in IH |- *. cbn [String.length]. lia.
Qed.

Lemma join_length words :
  words <> [] -> S (String.length (join words)) = weight words.
Proof.
  induction words as [|w words IH]; [done |]. intros _.
  rewrite weight_cons.
  destruct words as [|w' words]; [cbn [join]; change (weight []) with 0; lia |].
  change (join (w :: w' :: words))
    with (w ++ String space (join (w' :: words))).
  rewrite string_length_app. cbn [String.length].
  specialize (IH ltac:(done)). lia.
Qed.

Lemma capitalize_weight words : weight (map capitalize words) = weight words.
Proof.
  induction words as [|w words IH]; [reflexivity |].
  cbn [map]. rewrite !weight_cons, IH. by destruct w.
Qed.

Lemma split_chars r :
  Forall (fun w => Forall (fun c => c <> underscore) (chars w)) (split r).
Proof.
  induction r as [|c r IH]; [by repeat constructor |].
  cbn [split]. destruct (Ascii.eqb c underscore) eqn:E.
  - constructor; [constructor | exact IH].
  - apply Ascii.eqb_neq in E.
    destruct (split r) as [|word words]; [by repeat constructor |].
    inversion IH; subst. constructor; [| done]. by constructor.
Qed.

Lemma capitalize_chars w :
  Forall (fun c => c <> underscore) (chars w) ->
  Forall (fun c => c <> underscore) (chars (capitalize w)).
Proof.
  destruct w as [|c w]; [done |]. cbn. intros H. inversion H; subst.
  constructor; [by apply upper_ascii_underscore | done].
Qed.

Lemma join_chars words :
  Forall (fun w => Forall (fun c => c <> underscore) (chars w)) words ->
  Forall (fun c => c <> underscore) (chars (join words)).
Proof.
  induction 1 as [|w words Hw Hwords IH]; [constructor |].
  destruct words as [|w' words]; [exact Hw |].
  change (join (w :: w' :: words))
    with (w ++ String space (join (w' :: words))).
  rewrite chars_app. apply Forall_app. split; [exact Hw |].
  cbn. constructor; [by vm_compute | exact IH].
Qed.

Lemma split_whole s :
  Forall (fun c => c <> underscore) (chars s) -> split s = [ s ].
Proof.
  induction s as [|c s IH]; [reflexivity |]. cbn. intros H.
  inversion H as [|? ? Hc Hs]; subst.
  apply Ascii.eqb_neq in Hc. rewrite Hc. by rewrite (IH Hs).
Qed.

Lemma capitalize_join words :
  capitalize (join (map capitalize words)) = join (map capitalize words).
Proof.
  destruct words as [|w words]; [reflexivity |].
  destruct words as [|w' words].
  - destruct w as [|c w]; [reflexivity |].
    exact (f_equal (fun a => String a w) (upper_ascii_idem c)).
  - change (join (map capitalize (w :: w' :: words)))
      with (capitalize w
            ++ String space (join (map capitalize (w' :: words)))).
    destruct w as [|c w]; [reflexivity |].
    exact (f_equal
             (fun a =>
                String a
                  (w ++ String space (join (map capitalize (w' :: words)))))
             (upper_ascii_idem c)).
Qed.

Lemma formatRole_facts r :
  r <> "" ->
  String.length (formatRole (Some r)) = String.length r
  /\ Forall (fun c => c <> underscore) (chars (formatRole (Some r)))
  /\ formatRole (Some (formatRole (Some r))) = formatRole (Some r).
Proof.
  intros Hr.
  assert (Htruthy : JS.truthy_string r = true).
  { unfold JS.truthy_string. apply negb_true_iff, String.eqb_neq. exact Hr. }
  assert (Hwords : map capitalize (split r) <> []).
  { intros E. pose proof (split_weight r) as Hw.
    rewrite <- capitalize_weight, E in Hw. discriminate Hw. }
  assert (Hlen :
    String.length (join (map capitalize (split r))) = String.length r).
  { pose proof (join_length _ Hwords) as Hj.
    rewrite capitalize_weight, split_weight in Hj. lia. }
  assert (Hchars :
    Forall (fun c => c <> underscore)
      (chars (join (map capitalize (split r))))).
  { apply join_chars. apply Forall_map.
    eapply Forall_impl; [apply split_chars |].
    intros w Hw. by apply capitalize_chars. }
  unfold formatRole. rewrite !Htruthy.
  split; [exact Hlen | split; [exact Hchars |]].
  assert (Htruthy' :
    JS.truthy_string (join (map capitalize (split r))) = true).
  { unfold JS.truthy_string. apply negb_true_iff, String.eqb_neq.
    intros E. rewrite E in Hlen. destruct r; [done | discriminate Hlen]. }
  rewrite Htruthy'. rewrite (split_whole _ Hchars).
  cbn [map join]. apply capitalize_join.
Qed.

End FormatRoleFacts.

(** X18. [formatRole] on a role written in ASCII: an absent or empty role
    is shown as "Assigned"; for any other role the text shown is as long as
    the role, holds no underscore, and is left as it is when formatted
    again. *)
Theorem formatRole_shape r :
  Forall (fun c => nat_of_ascii c < 128) (list_ascii_of_string r) ->
  ActionFormat.formatRole None = "Assigned"
  /\ (r = "" -> ActionFormat.formatRole (Some r) = "Assigned")
  /\ (r <> "" ->
      String.length (ActionFormat.formatRole (Some r)) = String.length r
      /\ Forall (fun c => c <> ActionFormat.underscore)
           (list_ascii_of_string (ActionFormat.formatRole (Some r)))
      /\ ActionFormat.formatRole (Some (ActionFormat.formatRole (Some r)))
         = ActionFormat.formatRole (Some r)).
Proof.
  intros _. split; [reflexivity | split].
  - by intros ->.
  - apply formatRole_facts.
Qed.

Lemma formatRole_shape_witness :
  ActionFormat.formatRole (Some "safety_engineer") = "Safety Engineer"
  /\ String.length (ActionFormat.formatRole (Some "safety_engineer")) = 15.
Proof.
  assert (Hascii :
    Forall (fun c => nat_of_ascii c < 128)
      (list_ascii_of_string "safety_engineer")).
  { repeat constructor; vm_compute; lia. }
  pose proof (formatRole_shape "safety_engineer" Hascii) as (_ & _ & Hshape).
  destruct (Hshape ltac:(discriminate)) as (Hlen & _ & _).
  split; [reflexivity | exact Hlen].
Defined.

(** ** The error message of the form *)

Lemma error_kept_step e s :
  wellStaged s ->
  (Home.isSubmitting s = true -> Home.error s = None) ->
  (Home.stage s <> Home.FORM -> Home.error s = None) ->
  Home.offered e s = true ->
  (Home.isSubmitting (Home.handle e s) = true ->
   Home.error (Home.handle e s) = None)
  /\ (Home.stage (Home.handle e s) <> Home.FORM ->
      Home.error (Home.handle e s) = None).
Proof.
  intros (_ & _ & Hform) Hsub Hstage Hoff.
  destruct s as [st obs rd sd ac cs sub err pr rr sr ar vs]. cbn in *.
  destruct e; cbn in Hoff |- *; stage_facts; subst; cbn in *.
  2: destruct (Api.analyzeObservation data o); cbn.
  all: unfold Home.handleRiskComplete, Home.handleScoreComplete,
         Home.handleActionComplete, Home.handleViewAgent; cbn.
  all: repeat match goal with
              | |- context [match ?x with _ => _ end] => destruct x; cbn
              end.
  all: split; intros; try done; try discriminate;
         try (apply Hstage; congruence); try (apply Hsub; congruence);
         try (by rewrite Hform in * );
         try (specialize (Hform eq_refl); congruence).
Qed.

Lemma reachable_error_kept s :
  Home.reachable s ->
  (Home.isSubmitting s = true -> Home.error s = None)
  /\ (Home.stage s <> Home.FORM -> Home.error s = None).
Proof.
  induction 1 as [| e s Hs [IH1 IH2] Hoff]; [by split |].
  apply error_kept_step; try done. by apply reachable_wellStaged.
Qed.

(** X19. In every state the page can reach, an error message is recorded
    only in stage FORM (where it is rendered) and never while a backend
    call is outstanding; and a new submission clears it. *)
Theorem error_only_on_the_form s message :
  Home.reachable s ->
  Home.error s = Some message ->
  Home.stage s = Home.FORM
  /\ Home.isSubmitting s = false
  /\ forall data,
       Home.offered (Home.Submit data) s = true
       /\ Home.error (Home.handle (Home.Submit data) s) = None.
Proof.
  intros Hreach Herr.
  destruct (reachable_error_kept s Hreach) as [Hsub Hstage].
  assert (Hform : Home.stage s = Home.FORM).
  { destruct (Home.stage s) eqn:E; try done;
      rewrite Hstage in Herr; done. }
  assert (Hidle : Home.isSubmitting s = false).
  { destruct (Home.isSubmitting s); [| done].
    rewrite Hsub in Herr; done. }
  split; [exact Hform | split; [exact Hidle |]].
  intros data. split; [| reflexivity].
  cbn. by rewrite Hform, Hidle.
Qed.

Lemma error_only_on_the_form_witness :
  let s :=
    Home.handleObservationSubmit Scenario.observation
      (Api.NotOk 500 Api.NotJson) Home.initial in
  Home.stage s = Home.FORM /\ Home.isSubmitting s = false.
Proof.
  intros s.
  assert (Hs : Home.reachable s).
  { subst s.
    reach (Home.Settled Scenario.observation (Api.NotOk 500 Api.NotJson))
          (Home.handle (Home.Submit Scenario.observation) Home.initial).
    reach (Home.Submit Scenario.observation) Home.initial.
    apply Home.reachable_initial. }
  destruct (error_only_on_the_form s "Unknown error" Hs eq_refl)
    as (Hform & Hidle & _).
  split; [exact Hform | exact Hidle].
Defined.

(** ** What is on screen while a script runs *)

Lemma string_slice0_prefix s k : String.prefix (string_slice0 s k) s = true.
Proof.
  unfold string_slice0. revert k.
  induction s as [|c s IH]; intros [|k]; try reflexivity.
  cbn. destruct (ascii_dec c c) as [_ | Hne]; [apply IH | done].
Qed.

Lemma string_prefix_empty s : String.prefix "" s = true.
Proof. by destruct s. Qed.

Lemma string_prefix_refl s : String.prefix s s = true.
Proof.
  induction s as [|c s IH]; [reflexivity |].
  cbn. destruct (ascii_dec c c) as [_ | Hne]; [apply IH | done].
Qed.

(** X20. On props that render and a hazard text in ASCII, the text the
    scripted Risk animator shows is at every turn of the event loop a prefix
    of the hazard text. The typing starts 4500 ms after mounting: the
    [k]-th turn of the typing interval, at [4500 + 30 * k] ms, shows the
    first [k - 1] characters, up to the whole text. *)
Theorem risk_typing_shows_prefixes p :
  RiskAnalyzer.skipAnimation p = false ->
  RiskAnalyzer.isActive p = true ->
  riskRenders p = true ->
  isAscii (RiskAnalyzer.hazardText p) ->
  (forall m,
     String.prefix
       (RiskAnalyzer.typedText
          (Timers.comp
             (Timers.run (RiskAnalyzer.fire p) m (RiskAnalyzer.mount p))))
       (RiskAnalyzer.hazardText p) = true)
  /\ (forall k,
        1 <= k <= String.length (RiskAnalyzer.hazardText p) + 1 ->
        let w :=
          Timers.run (RiskAnalyzer.fire p) (6 + k) (RiskAnalyzer.mount p) in
        RiskAnalyzer.typedText (Timers.comp w)
        = string_slice0 (RiskAnalyzer.hazardText p) (k - 1)
        /\ Timers.now w = (4500 + 30 * Z.of_nat k)%Z).
Proof.
  intros Hskip Hactive Hrenders _.
  destruct (riskRenders_inv p Hrenders) as (o & Hobs & Hcat).
  destruct p as [obs act api skip]. simpl in Hskip, Hactive, Hobs.
  subst skip act obs.
  split.
  - intros m.
    destruct (risk_world_at o api Hcat m)
      as [H5 | [(j & Hj & -> & ->) | [[_ ->] | [[_ ->] | [_ ->]]]]].
    + do 6 (destruct m as [|m]; [exact (string_prefix_empty _) |]). lia.
    + destruct j as [|j]; [exact (string_prefix_empty _) |].
      apply string_slice0_prefix.
    + apply string_prefix_refl.
    + apply string_prefix_refl.
    + apply string_prefix_refl.
  - intros k [Hk1 Hk2]. cbv zeta.
    destruct (risk_world_at o api Hcat (6 + k))
      as [H5 | [(j & Hj & Hjk & ->) | [[Hm ->] | [[Hm _] | [Hm _]]]]];
      try lia.
    + assert (j = k) as -> by lia.
      destruct k as [|k]; [lia |].
      cbn [RiskScript.typingWorld Timers.comp Timers.now
           RiskAnalyzer.typedText RiskScript.typedAfter].
      rewrite typingDue_closed.
      split; [by rewrite Nat.sub_succ, Nat.sub_0_r | lia].
    + cbn [RiskScript.settleWorld Timers.comp Timers.now
           RiskAnalyzer.typedText].
      rewrite typingDue_closed.
      replace (k - 1)
        with (String.length
                (RiskAnalyzer.hazardText
                   (RiskAnalyzer.mkProps (Some o) true api false))) by lia.
      rewrite string_slice0_all. split; [reflexivity | lia].
Qed.

Lemma risk_typing_shows_prefixes_witness :
  RiskAnalyzer.typedText
    (Timers.comp
       (Timers.run (RiskAnalyzer.fire Scenario.riskScripted) 16
          (RiskAnalyzer.mount Scenario.riskScripted)))
  = "Unguarded".
Proof.
  exact (proj1 (proj2 (risk_typing_shows_prefixes Scenario.riskScripted
                         eq_refl eq_refl eq_refl ltac:(ascii_text))
                  10 ltac:(vm_compute; lia))).
Defined.

(** X21. On plans whose tasks render, the plans the scripted Action
    animator shows are at every turn of the event loop the first few of its
    plans, in order. The reveals start 4000 ms after mounting: after the
    [j]-th, at [2800 + 1200 * j] ms, the first [j] plans are visible, up to
    all of them. *)
Theorem action_reveals_show_prefixes p :
  ActionPlanner.skipAnimation p = false ->
  ActionPlanner.isActive p = true ->
  actionRenders p = true ->
  (forall m, exists j,
     ActionPlanner.visiblePlans
       (Timers.comp
          (Timers.run (ActionPlanner.fire p) m (ActionPlanner.mount p)))
     = take j (ActionPlanner.actionPlans p))
  /\ (forall j,
        1 <= j <= length (ActionPlanner.actionPlans p) ->
        let w :=
          Timers.run (ActionPlanner.fire p) (6 + j) (ActionPlanner.mount p) in
        ActionPlanner.visiblePlans (Timers.comp w)
        = take j (ActionPlanner.actionPlans p)
        /\ Timers.now w = (2800 + 1200 * Z.of_nat j)%Z).
Proof.
  destruct p as [score act api skip]. cbn [ActionPlanner.skipAnimation
    ActionPlanner.isActive]. intros -> -> Hrenders.
  pose proof (actionPlans_nonempty score api Hrenders) as Hn.
  split.
  - intros m.
    destruct (action_world_at score api Hrenders m)
      as [H5 | [(j & Hj & -> & ->) | [[_ ->] | [[_ ->] | [_ ->]]]]].
    + exists 0. do 6 (destruct m as [|m]; [reflexivity |]). lia.
    + by exists j.
    + eexists. symmetry. by apply take_ge.
    + eexists. symmetry. by apply take_ge.
    + eexists. symmetry. by apply take_ge.
  - intros j [Hj1 Hj2]. cbv zeta.
    destruct (action_world_at score api Hrenders (6 + j))
      as [H5 | [(i & Hi & Hij & ->) | [[Hm ->] | [[Hm _] | [Hm _]]]]];
      try lia.
    + assert (i = j) as -> by lia.
      destruct j as [|j]; [lia |].
      cbn [ActionScript.revealedWorld Timers.comp Timers.now
           ActionPlanner.visiblePlans].
      split; [reflexivity | lia].
    + cbn [ActionScript.settleWorld Timers.comp Timers.now
           ActionPlanner.visiblePlans].
      unfold ActionScript.lastReveal.
      rewrite take_ge by lia. split; [reflexivity | lia].
Qed.

Lemma action_reveals_show_prefixes_witness :
  let w :=
    Timers.run (ActionPlanner.fire Scenario.actionScripted) 7
      (ActionPlanner.mount Scenario.actionScripted) in
  ActionPlanner.visiblePlans (Timers.comp w) = [ ActionPlanner.defaultPlan ]
  /\ Timers.now w = 4000%Z.
Proof.
  exact (proj2 (action_reveals_show_prefixes Scenario.actionScripted
                  eq_refl eq_refl eq_refl)
           1 ltac:(vm_compute; lia)).
Defined.

(** ** An animator mounted inactive *)

(** X22. An animator mounted in scripted mode with [isActive] false arms no
    timer: it stays in its first phase, with nothing shown, and never
    reports, however long the event loop runs. *)
Theorem inactive_animator_is_silent obs hazard risk scored score plans :
  let r := RiskAnalyzer.mkProps obs false hazard false in
  let s := ScoreManager.mkProps risk false scored false in
  let a := ActionPlanner.mkProps score false plans false in
  (forall m,
     Timers.run (RiskAnalyzer.fire r) m (RiskAnalyzer.mount r)
     = RiskAnalyzer.mount r)
  /\ Timers.signals (RiskAnalyzer.mount r) = []
  /\ RiskAnalyzer.phase (Timers.comp (RiskAnalyzer.mount r))
     = RiskAnalyzer.scanning
  /\ RiskAnalyzer.typedText (Timers.comp (RiskAnalyzer.mount r)) = ""
  /\ (forall m,
        Timers.run (ScoreManager.fire s) m (ScoreManager.mount s)
        = ScoreManager.mount s)
  /\ Timers.signals (ScoreManager.mount s) = []
  /\ ScoreManager.phase (Timers.comp (ScoreManager.mount s))
     = ScoreManager.evaluating
  /\ (forall m,
        Timers.run (ActionPlanner.fire a) m (ActionPlanner.mount a)
        = ActionPlanner.mount a)
  /\ Timers.signals (ActionPlanner.mount a) = []
  /\ ActionPlanner.phase (Timers.comp (ActionPlanner.mount a))
     = ActionPlanner.planning
  /\ ActionPlanner.visiblePlans (Timers.comp (ActionPlanner.mount a)) = [].
Proof.
  cbv zeta.
  repeat split; try reflexivity; intros m; by apply run_quiescent.
Qed.

(** ** The order of the stages *)

(** X23. The page never skips a stage and never goes back by itself: an
    event offered in a reachable state leaves the stage as it is, or takes
    FORM to RISK (a submission that succeeded), RISK to SCORE, SCORE to
    ACTION or ACTION to SUMMARY (a continue button, outside review mode),
    SUMMARY to FORM (reset), SUMMARY to a stage under review, or a stage
    under review back to SUMMARY. *)
Theorem stages_advance_in_order e s :
  Home.reachable s ->
  Home.offered e s = true ->
  let s' := Home.handle e s in
  Home.stage s' = Home.stage s
  \/ (Home.stage s = Home.FORM /\ Home.stage s' = Home.RISK
      /\ Home.viewingFromSummary s' = false
      /\ is_Some (Home.pipelineResult s'))
  \/ (Home.viewingFromSummary s = false
      /\ Home.viewingFromSummary s' = false
      /\ (Home.stage s, Home.stage s')
         ∈ [ (Home.RISK, Home.SCORE); (Home.SCORE, Home.ACTION);
             (Home.ACTION, Home.SUMMARY) ])
  \/ (Home.stage s = Home.SUMMARY /\ s' = Home.initial)
  \/ (Home.stage s = Home.SUMMARY /\ Home.viewingFromSummary s' = true
      /\ Home.stage s' ∈ [ Home.RISK; Home.SCORE; Home.ACTION ])
  \/ (Home.viewingFromSummary s = true
      /\ Home.viewingFromSummary s' = false
      /\ Home.stage s' = Home.SUMMARY).
Proof.
  intros Hreach Hoff.
  destruct (reachable_wellStaged s Hreach) as (_ & Hview & Hform).
  destruct s as [st obs rd sd ac cs sub err pr rr sr ar vs]. cbn in *.
  destruct e; cbn in Hoff |- *; stage_facts; subst; cbn in *.
  - by left.
  - specialize (Hform eq_refl). subst st. specialize (Hview eq_refl). subst vs.
    destruct (Api.analyzeObservation data o); cbn; [by left |].
    right. left. by repeat split.
  - left. unfold Home.handleRiskComplete. cbn.
    by destruct pr as [[[|h hs] ? ?]|], obs.
  - left. unfold Home.handleScoreComplete. cbn.
    by destruct pr as [[? [|h hs] ?]|].
  - left. unfold Home.handleActionComplete. cbn.
    destruct pr as [[? ? [|h hs]]|]; try done.
    by destruct (Api.transformActionPlanToActions h).
  - do 2 right. left. repeat split. set_solver.
  - do 2 right. left. repeat split. set_solver.
  - do 2 right. left. repeat split. set_solver.
  - unfold Home.handleViewAgent. cbn.
    destruct (String.eqb agentType "risk");
      [do 4 right; left; repeat split; set_solver |].
    destruct (String.eqb agentType "score");
      [do 4 right; left; repeat split; set_solver |].
    destruct (String.eqb agentType "action");
      [do 4 right; left; repeat split; set_solver |].
    by left.
  - do 5 right. by repeat split.
  - do 5 right. by repeat split.
  - do 5 right. by repeat split.
  - do 3 right. left. split; [done |].
    destruct sub; [by specialize (Hform eq_refl) | done].
Qed.

Lemma stages_advance_in_order_witness :
  let s := Scenario.riskShown in
  let s' := Home.handle Home.ContinueToScore s in
  Home.stage s' = Home.stage s
  \/ (Home.stage s = Home.FORM /\ Home.stage s' = Home.RISK
      /\ Home.viewingFromSummary s' = false
      /\ is_Some (Home.pipelineResult s'))
  \/ (Home.viewingFromSummary s = false
      /\ Home.viewingFromSummary s' = false
      /\ (Home.stage s, Home.stage s')
         ∈ [ (Home.RISK, Home.SCORE); (Home.SCORE, Home.ACTION);
             (Home.ACTION, Home.SUMMARY) ])
  \/ (Home.stage s = Home.SUMMARY /\ s' = Home.initial)
  \/ (Home.stage s = Home.SUMMARY /\ Home.viewingFromSummary s' = true
      /\ Home.stage s' ∈ [ Home.RISK; Home.SCORE; Home.ACTION ])
  \/ (Home.viewingFromSummary s = true
      /\ Home.viewingFromSummary s' = false
      /\ Home.stage s' = Home.SUMMARY).
Proof.
  exact (stages_advance_in_order Home.ContinueToScore Scenario.riskShown
           riskShown_reachable eq_refl).
Defined.

Lemma review_ready_step e s :
  wellStaged s ->
  (Home.viewingFromSummary s = true ->
   (Home.stage s = Home.RISK -> Home.riskReady s = true)
   /\ (Home.stage s = Home.SCORE -> Home.scoreReady s = true)
   /\ (Home.stage s = Home.ACTION -> Home.actionReady s = true)) ->
  Home.offered e s = true ->
  Home.viewingFromSummary (Home.handle e s) = true ->
  (Home.stage (Home.handle e s) = Home.RISK ->
   Home.riskReady (Home.handle e s) = true)
  /\ (Home.stage (Home.handle e s) = Home.SCORE ->
      Home.scoreReady (Home.handle e s) = true)
  /\ (Home.stage (Home.handle e s) = Home.ACTION ->
      Home.actionReady (Home.handle e s) = true).
Proof.
  intros (_ & Hview & Hform) IH Hoff.
  destruct s as [st obs rd sd ac cs sub err pr rr sr ar vs]. cbn in *.
  destruct e; cbn in Hoff |- *; stage_facts; subst; cbn in *.
  2: destruct (Api.analyzeObservation data o); cbn.
  all: unfold Home.handleRiskComplete, Home.handleScoreComplete,
         Home.handleActionComplete, Home.handleViewAgent; cbn.
  all: repeat match goal with
              | |- context [match ?x with _ => _ end] => destruct x; cbn
              end.
  all: intros Hv; try discriminate Hv;
         try (specialize (Hform eq_refl); subst);
         try (specialize (Hview eq_refl); discriminate);
         try (specialize (IH Hv)); try (specialize (IH eq_refl));
         repeat split; intros; try done; try discriminate; tauto.
Qed.

Lemma reachable_review_ready s :
  Home.reachable s ->
  Home.viewingFromSummary s = true ->
  (Home.stage s = Home.RISK -> Home.riskReady s = true)
  /\ (Home.stage s = Home.SCORE -> Home.scoreReady s = true)
  /\ (Home.stage s = Home.ACTION -> Home.actionReady s = true).
Proof.
  induction 1 as [| e s Hs IH Hoff]; [discriminate |].
  apply review_ready_step; try done. by apply reachable_wellStaged.
Qed.

(** X24. Review mode can be left wherever the page is still there. In
    every reachable state in review mode the stage is RISK, SCORE, ACTION or
    SUMMARY and no continue button is offered. In the Risk stage the page
    is torn down by the animator's first render. Where the page is shown
    once the animator of the stage has played (the Score stage, and the
    Action stage when its tasks render), the state is as it was, the ready
    flag of the stage is set, so the "Back to Summary" button is offered,
    and pressing it gives the summary outside review mode. *)
Theorem review_can_be_left fuel s :
  Home.reachable s ->
  Home.viewingFromSummary s = true ->
  Home.stage s <> Home.FORM
  /\ Home.offered Home.ContinueToScore s = false
  /\ Home.offered Home.ContinueToAction s = false
  /\ Home.offered Home.ContinueToSummary s = false
  /\ (Home.stage s = Home.RISK -> Workflow.show fuel s = Home.TornDown)
  /\ (Home.stage s = Home.SCORE -> Workflow.show fuel s = Home.Shown s)
  /\ (Home.stage s = Home.ACTION ->
      Workflow.show fuel s
      = if actionRenders (Home.actionProps s) then Home.Shown s
        else Home.TornDown)
  /\ (forall s',
        Workflow.show fuel s = Home.Shown s' ->
        Home.stage s <> Home.SUMMARY ->
        s' = s
        /\ Home.offered Home.BackToSummary s' = true
        /\ Home.stage (Home.handle Home.BackToSummary s') = Home.SUMMARY
        /\ Home.viewingFromSummary (Home.handle Home.BackToSummary s')
           = false).
Proof.
  intros Hreach Hv.
  destruct (reachable_wellStaged s Hreach) as (_ & Hview & _).
  destruct (reachable_review_ready s Hreach Hv) as (Hr & Hs & Ha).
  pose proof (show_review fuel s Hv) as Hshow.
  split.
  { intros Hform. rewrite (Hview Hform) in Hv. discriminate Hv. }
  split; [cbn; by rewrite Hv, !andb_false_r |].
  split; [cbn; by rewrite Hv, !andb_false_r |].
  split; [cbn; by rewrite Hv, !andb_false_r |].
  split; [intros Hst; by rewrite Hshow, Hst |].
  split; [intros Hst; by rewrite Hshow, Hst |].
  split; [intros Hst; by rewrite Hshow, Hst |].
  intros s' Hs' Hsum. rewrite Hshow in Hs'.
  assert (Heq : s' = s /\ Home.stage s <> Home.RISK).
  { destruct (Home.stage s); try discriminate Hs';
      try (destruct (actionRenders (Home.actionProps s));
           try discriminate Hs');
      injection Hs' as <-; by split. }
  destruct Heq as [-> Hrisk].
  split; [reflexivity |]. split; [| by split].
  cbn. rewrite Hv.
  destruct (Home.stage s) eqn:E; cbn.
  - rewrite (Hview eq_refl) in Hv. discriminate Hv.
  - done.
  - by rewrite Hs.
  - by rewrite Ha.
  - done.
Qed.

Lemma review_can_be_left_witness :
  let s := Home.handle (Home.ViewAgent "score") Scenario.atSummary in
  Workflow.show 50 s = Home.Shown s
  /\ Home.offered Home.BackToSummary s = true
  /\ Home.stage (Home.handle Home.BackToSummary s) = Home.SUMMARY
  /\ Home.viewingFromSummary (Home.handle Home.BackToSummary s) = false.
Proof.
  intros s.
  assert (Hs : Home.reachable s).
  { subst s. reach (Home.ViewAgent "score") Scenario.atSummary.
    apply atSummary_reachable. }
  pose proof (review_can_be_left 50 s Hs eq_refl)
    as (_ & _ & _ & _ & _ & Hscore & _ & Hback).
  split; [exact (Hscore eq_refl) |].
  exact (proj2 (Hback s (Hscore eq_refl) ltac:(discriminate))).
Defined.
